(** * LegoStats: the aggregation, selection and summary logic of [window.py]

    A shallow embedding of the data handling of the [Window] class
    (module [window.py]) together with the statements that relate it to
    its written specification.

    Conventions of the embedding.
    - A Python [str] is a [string]; a character is a code point below 256.
    - A Python [int] is a [Z].
    - A Python [float] is a binary64 value of [SpecFloat.spec_float];
      parsing and division round to nearest, ties to even.
    - A raised exception is a value of [exn]; functions that only read
      return a [result], methods that write to the window run in the
      monad [M], which keeps the window as it was when the exception was
      raised.
    - Widget colours, fonts and visibility are not part of the model: an
      item of a table is its text. *)

From Stdlib Require Import ZArith String Ascii List Lia.
From Stdlib Require Import Floats.SpecFloat Sorting.Sorted Sorting.Permutation.
From Stdlib Require OrderedTypeEx.
From stdpp Require Import base tactics option list strings pretty gmap sorting.

Local Open Scope string_scope.
Local Open Scope Z_scope.

(** ** Exceptions and results *)

Inductive exn : Type :=
| KeyError            (* dict lookup or pop of an absent key *)
| ValueError          (* int or float of a malformed text *)
| TypeError           (* subscript of None *)
| UnboundLocalError   (* loop variable read after a loop over nothing *)
| OverflowError       (* int / int too large for a float *)
| ZeroDivisionError   (* int / 0 *)
| Unmodelled          (* text outside the modelled part of float's grammar *)
| Diverges.           (* the loop did not return within the given fuel *)

Inductive result (A : Type) : Type :=
| Ok (a : A)
| Raise (e : exn).
Arguments Ok {A} a.
Arguments Raise {A} e.

Definition rbind {A B} (r : result A) (k : A -> result B) : result B :=
  match r with
  | Ok a => k a
  | Raise e => Raise e
  end.

Declare Scope result_scope.
Delimit Scope result_scope with result.
Notation "x <- r ;; k" := (rbind r (fun x => k))
  (at level 100, r at next level, right associativity) : result_scope.
Local Open Scope result_scope.

(** [[f(x) for x in l]], stopping at the first exception. *)
Fixpoint rmap {A B} (f : A -> result B) (l : list A) : result (list B) :=
  match l with
  | [] => Ok []
  | x :: l' =>
      y <- f x ;;
      ys <- rmap f l' ;;
      Ok (y :: ys)
  end.

(** ** Python primitives on texts and numbers *)

Module Py.

Definition chars (s : string) : list ascii := list_ascii_of_string s.
Definition text (l : list ascii) : string := string_of_list_ascii l.

(** [str(n)] for an int, without the bound that recent versions of
    Python put on the number of digits. *)
Definition str (n : Z) : string := pretty n.

(** [c in s] for a one-character [c]. *)
Definition contains (c : ascii) (s : string) : bool :=
  existsb (Ascii.eqb c) (chars s).

(** [s.replace(a, b)] for one-character [a] and [b]. *)
Definition replace (a b : ascii) (s : string) : string :=
  text (map (fun c => if Ascii.eqb c a then b else c) (chars s)).

(** [sep.join(l)]. *)
Fixpoint join (sep : string) (l : list string) : string :=
  match l with
  | [] => ""
  | [s] => s
  | s :: l' => s +:+ sep +:+ join sep l'
  end.

Definition code (c : ascii) : N := N_of_ascii c.

Definition is_digit (c : ascii) : bool :=
  ((48 <=? code c) && (code c <=? 57))%N.

Definition digit (c : ascii) : Z := Z.of_N (code c) - 48.

(** The characters [str.isspace] accepts below 256; [str.strip] strips
    them from both ends. *)
Definition is_space (c : ascii) : bool :=
  let n := code c in
  (((9 <=? n) && (n <=? 13)) || ((28 <=? n) && (n <=? 32))
   || (n =? 133) || (n =? 160))%N.

Fixpoint lstrip (l : list ascii) : list ascii :=
  match l with
  | c :: l' => if is_space c then lstrip l' else l
  | [] => []
  end.

Definition strip (l : list ascii) : list ascii :=
  rev (lstrip (rev (lstrip l))).

(** Decimal digits with single underscores between them, most
    significant first; [acc] is the value read so far. *)
Fixpoint digits_us (acc : Z) (l : list ascii) : option Z :=
  match l with
  | [] => Some acc
  | c :: l' =>
      if is_digit c then digits_us (10 * acc + digit c) l'
      else if Ascii.eqb c "_"%char then
        match l' with
        | d :: l'' =>
            if is_digit d then digits_us (10 * acc + digit d) l'' else None
        | [] => None
        end
      else None
  end.

Definition digitpart (l : list ascii) : option Z :=
  match l with
  | c :: l' => if is_digit c then digits_us (digit c) l' else None
  | [] => None
  end.

(** The characters that [int] skips at both ends of a text, below 256:
    those of [str.isspace] without the separators of codes 28 to 31,
    which it leaves in place and then refuses. *)
Definition int_space (c : ascii) : bool :=
  let n := code c in
  (((9 <=? n) && (n <=? 13)) || (n =? 32) || (n =? 133) || (n =? 160))%N.

Fixpoint int_lstrip (l : list ascii) : list ascii :=
  match l with
  | c :: l' => if int_space c then int_lstrip l' else l
  | [] => []
  end.

Definition int_strip (l : list ascii) : list ascii :=
  rev (int_lstrip (rev (int_lstrip l))).

(** [int(s)] in base ten.  The bound that recent versions of Python
    put on the number of digits of the text (4300 unless set otherwise)
    is left out, as it is for [str]. *)
Definition int (s : string) : result Z :=
  let body (l : list ascii) (sign : Z) :=
    match digitpart l with
    | Some n => Ok (sign * n)
    | None => Raise ValueError
    end in
  match int_strip (chars s) with
  | c :: l =>
      if Ascii.eqb c "-"%char then body l (-1)
      else if Ascii.eqb c "+"%char then body l 1
      else body (c :: l) 1
  | [] => Raise ValueError
  end.

(** Line boundaries of [str.splitlines] below 256. *)
Definition is_linebreak (c : ascii) : bool :=
  let n := code c in
  (((10 <=? n) && (n <=? 13)) || ((28 <=? n) && (n <=? 30)) || (n =? 133))%N.

(** [cur] holds the characters of the line being read, last first;
    [cr] tells that the previous character was a carriage return, so
    that a line feed directly after it belongs to the same boundary. *)
Fixpoint splitlines_go (cur : list ascii) (cr : bool) (l : list ascii)
  : list string :=
  match l with
  | [] => match cur with [] => [] | _ => [text (rev cur)] end
  | c :: l' =>
      if (cr && Ascii.eqb c "010"%char)%bool then splitlines_go [] false l'
      else if is_linebreak c then
        text (rev cur) :: splitlines_go [] (Ascii.eqb c "013"%char) l'
      else splitlines_go (c :: cur) false l'
  end.

(** [s.splitlines()]. *)
Definition splitlines (s : string) : list string :=
  splitlines_go [] false (chars s).

(** *** binary64 *)

Definition float : Type := spec_float.
Definition prec : Z := 53.
Definition emax : Z := 1024.

(** An int as an exact operand of a division (not rounded). *)
Definition exact (n : Z) : float :=
  match n with
  | Z0 => S754_zero false
  | Zpos p => S754_finite false p 0
  | Zneg p => S754_finite true p 0
  end.

(** The binary64 nearest to [a / b], ties to even. *)
Definition nearest (a b : Z) : float := SFdiv prec emax (exact a) (exact b).

(** [x < y] on floats. *)
Definition flt (x y : float) : bool := SFltb x y.

Definition digits (l : list ascii) : Z :=
  fold_left (fun acc c => 10 * acc + digit c) l 0.

Definition is_dot (c : ascii) : bool := Ascii.eqb c "."%char.

(** The longest prefix of digits and what follows it. *)
Fixpoint span_digits (l : list ascii) : list ascii * list ascii :=
  match l with
  | c :: l' =>
      if is_digit c then
        let '(ds, rest) := span_digits l' in (c :: ds, rest)
      else ([], l)
  | [] => ([], [])
  end.

(** The characters, below 256, that a text accepted by [float] can
    hold: digits, the point, blanks, the signs, the underscore, the
    exponent mark and the letters of [inf], [infinity] and [nan]. *)
Definition float_char (c : ascii) : bool :=
  is_digit c || is_dot c || is_space c
  || existsb (Ascii.eqb c) (chars "+-_eEiInNfFtTyYaA").

(** [float(s)].  Of the texts made of decimal digits and points only,
    [digits], [digits.], [.digits] and [digits.digits] are read and the
    others are a ValueError, as is every text with a character that no
    float is written with.  The remaining texts (with a sign, an
    exponent, an underscore, blanks, [inf] or [nan]) are outside the
    model. *)
Definition float_of (s : string) : result float :=
  let l := chars s in
  if forallb (fun c => is_digit c || is_dot c) l then
    let '(ip, rest) := span_digits l in
    match rest with
    | [] =>
        match ip with
        | [] => Raise ValueError
        | _ => Ok (nearest (digits ip) 1)
        end
    | _ :: fp =>
        if forallb is_digit fp && (0 <? length (ip ++ fp)%list)%nat then
          Ok (nearest (digits (ip ++ fp)%list) (10 ^ Z.of_nat (length fp)))
        else Raise ValueError
    end
  else if forallb float_char l then Raise Unmodelled
  else Raise ValueError.

(** [a / b] on ints. *)
Definition truediv (a b : Z) : result float :=
  if b =? 0 then Raise ZeroDivisionError
  else
    match nearest a b with
    | S754_infinity _ => Raise OverflowError
    | x => Ok x
    end.

(** [round(x)] with one argument: the nearest int, ties to even. *)
Definition round (x : float) : result Z :=
  match x with
  | S754_zero _ => Ok 0
  | S754_nan => Raise ValueError
  | S754_infinity _ => Raise OverflowError
  | S754_finite s m e =>
      let v :=
        match e with
        | Zneg p =>
            let d := 2 ^ Zpos p in
            let q := Zpos m / d in
            match 2 * (Zpos m mod d) ?= d with
            | Lt => q
            | Gt => q + 1
            | Eq => if Z.even q then q else q + 1
            end
        | _ => Zpos m * 2 ^ e
        end in
      Ok (if s then - v else v)
  end.

End Py.


(** ** Insertion-ordered dictionaries

    A Python [dict] with [str] keys whose order of insertion matters
    ([originalData], which [save] dumps in that order). *)

Module Dict.
Section Dict.
Context {V : Type}.

Definition t : Type := list (string * V).

(** [d.get(k)]. *)
Fixpoint get (k : string) (d : t) : option V :=
  match d with
  | [] => None
  | (k', v) :: d' => if String.eqb k k' then Some v else get k d'
  end.

(** [d[k]]. *)
Definition item (k : string) (d : t) : result V :=
  match get k d with
  | Some v => Ok v
  | None => Raise KeyError
  end.

(** [d[k] = v]: a present key keeps its place, a new one goes last. *)
Fixpoint set (k : string) (v : V) (d : t) : t :=
  match d with
  | [] => [(k, v)]
  | (k', v') :: d' =>
      if String.eqb k k' then (k, v) :: d' else (k', v') :: set k v d'
  end.

(** The dict once [d.pop(k)] has returned. *)
Fixpoint remove (k : string) (d : t) : t :=
  match d with
  | [] => []
  | (k', v') :: d' =>
      if String.eqb k k' then remove k d' else (k', v') :: remove k d'
  end.

Definition keys (d : t) : list string := map fst d.
End Dict.
Arguments t V : clear implicits.
End Dict.

(** ** [sorted]

    [sorted(l, key=...)] is stable and compares keys with [<] only.  On
    keys that [<] orders totally its result is the one of this insertion
    sort: an element goes before the first later one that is not smaller. *)

Section Sorted.
Context {A B : Type} (lt : B -> B -> bool) (key : A -> B).

Fixpoint insort (x : A) (l : list A) : list A :=
  match l with
  | [] => [x]
  | y :: l' => if lt (key y) (key x) then y :: insort x l' else x :: l
  end.

Definition sorted (l : list A) : list A := foldr insort [] l.
End Sorted.

(** ** The data *)

(** An entry of the sets table: [[name, year, theme, parts]]. *)
Record SetEntry : Type := {
  set_name : string;
  set_year : option Z;
  set_thm : Z;
  set_prts : Z;
}.

(** An entry of the colours list. *)
Record Color : Type := {
  color_id : Z;
  color_name : string;
  color_rgb : Z * Z * Z;
  color_group : Z;
}.

(** What [originalData] holds for a set number:
    [[qty, bx, ins, wgh, mprts, mfigs, nts]]. *)
Record Stats : Type := {
  st_qty : Z;
  st_bx : Z;
  st_ins : Z;
  st_wgh : option Z;
  st_mprts : list (string * Z * Z);
  st_mfigs : list (string * Z);
  st_nts : string;
}.

(** The weight of a display line: an int, the empty text that [complete]
    puts for no weight, or the [None] that [getSet] leaves. *)
Inductive Weight : Type :=
| WInt (g : Z)
| WBlank
| WNone.

Definition sum_parts (l : list (string * Z * Z)) : Z :=
  foldr (fun x acc => x.2 + acc) 0 l.

Definition sum_figs (l : list (string * Z)) : Z :=
  foldr (fun x acc => x.2 + acc) 0 l.

Section LegoStats.
(** The second component of a main-themes entry.  [getTheme] hands it
    on unchanged and nothing modelled here looks into it. *)
Context {K : Type}.

(** A line of [completeData], and what [getSet] returns:
    [[num, name, th, qty, bx, ins, prts, wgh, mprts, mfigs, nts]]. *)
Record Line : Type := {
  ln_num : string;
  ln_name : string;
  ln_th : K * string;
  ln_qty : Z;
  ln_bx : Z;
  ln_ins : Z;
  ln_prts : Z;
  ln_wgh : Weight;
  ln_mprts : Z;
  ln_mfigs : Z;
  ln_nts : Z;
}.

(** The catalog: the three tables loaded from the resources. *)
Record Catalog : Type := {
  sets : gmap string SetEntry;
  themes : gmap string (string * string);
  mainThemes : gmap string (string * K);
}.

(** *** [readFloat] *)

Definition readFloat (text : string) : result Py.float :=
  Py.float_of (Py.replace "-" "." text).

(** *** [Window.getTheme]

    [fuel] bounds the number of passes through the [while True] loop;
    [ns] is the list of names collected so far. *)
Fixpoint getTheme_loop (cat : Catalog) (fuel : nat) (thm : string)
    (ns : list string) : result (K * string) :=
  match fuel with
  | O => Raise Diverges
  | S fuel' =>
      match mainThemes cat !! thm with
      | Some (n, c) => Ok (c, Py.join ": " (n :: ns))
      | None =>
          match themes cat !! thm with
          | Some (n, thm') => getTheme_loop cat fuel' thm' (n :: ns)
          | None => Raise KeyError
          end
      end
  end.

Definition getTheme (cat : Catalog) (fuel : nat) (thm : Z)
  : result (K * string) :=
  getTheme_loop cat fuel (Py.str thm) [].

(** *** [Window.complete] *)

(** [wgh or ""]. *)
Definition weight_or_blank (wgh : option Z) : Weight :=
  match wgh with
  | Some g => if g =? 0 then WBlank else WInt g
  | None => WBlank
  end.

(** The list appended for one entry of [data]. *)
Definition complete_line (cat : Catalog) (fuel : nat)
    (entry : string * Stats) : result Line :=
  let '(num, st) := entry in
  e <- match sets cat !! num with
       | Some e => Ok e
       | None => Raise KeyError
       end ;;
  th <- getTheme cat fuel (set_thm e) ;;
  Ok {| ln_num := num;
        ln_name := set_name e;
        ln_th := th;
        ln_qty := st_qty st;
        ln_bx := st_bx st;
        ln_ins := st_ins st;
        ln_prts := set_prts e;
        ln_wgh := weight_or_blank (st_wgh st);
        ln_mprts := sum_parts (st_mprts st);
        ln_mfigs := sum_figs (st_mfigs st);
        ln_nts := Z.of_nat (length (Py.splitlines (st_nts st))) |}.

(** [thms.setdefault(label, []).append(line)]. *)
Definition setdefault_append (label : string) (line : Line)
    (thms : Dict.t (list Line)) : Dict.t (list Line) :=
  match Dict.get label thms with
  | Some rows => Dict.set label (rows ++ [line])%list thms
  | None => Dict.set label [line] thms
  end.

(** The first loop of [complete]. *)
Fixpoint complete_group (cat : Catalog) (fuel : nat)
    (data : list (string * Stats)) (thms : Dict.t (list Line))
  : result (Dict.t (list Line)) :=
  match data with
  | [] => Ok thms
  | entry :: data' =>
      line <- complete_line cat fuel entry ;;
      complete_group cat fuel data'
        (setdefault_append (ln_th line).2 line thms)
  end.

(** [sorted(rows, key=lambda x: readFloat(x[0]))]: the keys are
    computed first, in the order of [rows]. *)
Definition sorted_rows (rows : list Line) : result (list Line) :=
  keyed <- rmap (fun x => k <- readFloat (ln_num x) ;; Ok (k, x)) rows ;;
  Ok (map snd (sorted Py.flt fst keyed)).

(** The second loop of [complete], over the groups already sorted. *)
Fixpoint complete_concat (groups : list (string * list Line))
    (data : list Line) : result (list Line) :=
  match groups with
  | [] => Ok data
  | (_, rows) :: groups' =>
      rows' <- sorted_rows rows ;;
      complete_concat groups' (data ++ rows')%list
  end.

Definition complete (cat : Catalog) (fuel : nat)
    (data : list (string * Stats)) : result (list Line) :=
  thms <- complete_group cat fuel data [] ;;
  complete_concat (sorted String.ltb fst thms) [].

(** *** The window *)

(** A row of [setsTable]: the texts of its eleven items, in the order
    of SETS_TABLE_HEADER (N, Name, Theme, Quantity, Boxes,
    Instructions, Parts, Weight, MPrts, MFgs, Notes). *)
Record SetsRow : Type := {
  it0 : string;
  it1 : string;
  it2 : string;
  it3 : string;
  it4 : string;
  it5 : string;
  it6 : string;
  it7 : string;
  it8 : string;
  it9 : string;
  it10 : string;
}.

Record Window : Type := {
  catalog : Catalog;                            (* sets, themes, mainThemes *)
  colors : list Color;                          (* ColorDialog.colors *)
  originalData : Dict.t Stats;
  completeData : list Line;
  setsTable : list SetsRow;
  partsTable : list (string * string * string); (* N, Color, Quantity *)
  figsTable : list (string * string);           (* N, Quantity *)
  notesArea : string;
  selected : option string;
}.

Definition with_originalData (d : Dict.t Stats) (w : Window) : Window :=
  {| catalog := catalog w; colors := colors w; originalData := d;
     completeData := completeData w; setsTable := setsTable w;
     partsTable := partsTable w; figsTable := figsTable w;
     notesArea := notesArea w; selected := selected w |}.

Definition with_setsTable (t : list SetsRow) (w : Window) : Window :=
  {| catalog := catalog w; colors := colors w;
     originalData := originalData w; completeData := completeData w;
     setsTable := t; partsTable := partsTable w; figsTable := figsTable w;
     notesArea := notesArea w; selected := selected w |}.

Definition with_partsTable (t : list (string * string * string))
    (w : Window) : Window :=
  {| catalog := catalog w; colors := colors w;
     originalData := originalData w; completeData := completeData w;
     setsTable := setsTable w; partsTable := t; figsTable := figsTable w;
     notesArea := notesArea w; selected := selected w |}.

Definition with_figsTable (t : list (string * string)) (w : Window)
  : Window :=
  {| catalog := catalog w; colors := colors w;
     originalData := originalData w; completeData := completeData w;
     setsTable := setsTable w; partsTable := partsTable w; figsTable := t;
     notesArea := notesArea w; selected := selected w |}.

Definition with_notesArea (t : string) (w : Window) : Window :=
  {| catalog := catalog w; colors := colors w;
     originalData := originalData w; completeData := completeData w;
     setsTable := setsTable w; partsTable := partsTable w;
     figsTable := figsTable w; notesArea := t; selected := selected w |}.

Definition with_selected (s : option string) (w : Window) : Window :=
  {| catalog := catalog w; colors := colors w;
     originalData := originalData w; completeData := completeData w;
     setsTable := setsTable w; partsTable := partsTable w;
     figsTable := figsTable w; notesArea := notesArea w; selected := s |}.

(** *** The monad of the methods: a window and a possible exception *)

Definition M (A : Type) : Type := Window -> result A * Window.

Definition ret {A} (a : A) : M A := fun w => (Ok a, w).

Definition bind {A B} (m : M A) (k : A -> M B) : M B :=
  fun w =>
    match m w with
    | (Ok a, w') => k a w'
    | (Raise e, w') => (Raise e, w')
    end.

Definition get : M Window := fun w => (Ok w, w).
Definition modify (f : Window -> Window) : M unit := fun w => (Ok tt, f w).
Definition lift {A} (r : result A) : M A := fun w => (r, w).

End LegoStats.

Declare Scope window_scope.
Delimit Scope window_scope with win.
Notation "x <- m ;; k" := (bind m (fun x => k))
  (at level 100, m at next level, right associativity) : window_scope.
Notation "m ;; k" := (bind m (fun _ => k))
  (at level 100, right associativity) : window_scope.

Arguments Line K : clear implicits.
Arguments Catalog K : clear implicits.
Arguments Window K : clear implicits.
Arguments M K A : clear implicits.

(** ** The methods of [Window] *)

Section Methods.
Context {K : Type}.
Local Open Scope window_scope.

Abbreviation M := (M K).

(** Truth value of [self.selected]: [None] and the empty text are false. *)
Definition truthy (sel : option string) : bool :=
  match sel with
  | Some s => negb (String.eqb s "")
  | None => false
  end.

(** [ColorDialog.get(name=...)] and [ColorDialog.get(id=...)]: the
    first colour with that field, or [None]. *)
Definition ColorDialog_get_name (colors : list Color) (name : string)
  : option Color :=
  find (fun c => String.eqb (color_name c) name) colors.

Definition ColorDialog_get_id (colors : list Color) (id : Z)
  : option Color :=
  find (fun c => color_id c =? id) colors.

(** [str(value)] for the weight of a line. *)
Definition weight_text (wgh : Weight) : string :=
  match wgh with
  | WInt g => Py.str g
  | WBlank => ""
  | WNone => "None"
  end.

(** [Window.addSetRow]: the items [updateSetItem] sets for a line. *)
Definition addSetRow (line : Line K) : SetsRow :=
  {| it0 := ln_num line;
     it1 := ln_name line;
     it2 := (ln_th line).2;
     it3 := Py.str (ln_qty line);
     it4 := Py.str (ln_bx line);
     it5 := Py.str (ln_ins line);
     it6 := Py.str (ln_prts line);
     it7 := weight_text (ln_wgh line);
     it8 := Py.str (ln_mprts line);
     it9 := Py.str (ln_mfigs line);
     it10 := Py.str (ln_nts line) |}.

(** [Window.updateSetItem(x, value, item)] for the three columns and
    the int values [deselectSet] passes: the text becomes [str(value)]. *)
Definition updateSetItem (x : nat) (value : Z) (item : SetsRow) : SetsRow :=
  match x with
  | 8%nat =>
      {| it0 := it0 item; it1 := it1 item; it2 := it2 item;
         it3 := it3 item; it4 := it4 item; it5 := it5 item;
         it6 := it6 item; it7 := it7 item; it8 := Py.str value;
         it9 := it9 item; it10 := it10 item |}
  | 9%nat =>
      {| it0 := it0 item; it1 := it1 item; it2 := it2 item;
         it3 := it3 item; it4 := it4 item; it5 := it5 item;
         it6 := it6 item; it7 := it7 item; it8 := it8 item;
         it9 := Py.str value; it10 := it10 item |}
  | 10%nat =>
      {| it0 := it0 item; it1 := it1 item; it2 := it2 item;
         it3 := it3 item; it4 := it4 item; it5 := it5 item;
         it6 := it6 item; it7 := it7 item; it8 := it8 item;
         it9 := it9 item; it10 := Py.str value |}
  | _ => item
  end.

(** The index of the first row of [setsTable] whose number is [number]. *)
Fixpoint find_row (number : string) (rows : list SetsRow) : option nat :=
  match rows with
  | [] => None
  | r :: rows' =>
      if String.eqb (it0 r) number then Some O
      else option_map S (find_row number rows')
  end.

(** *** [Window.togglePanel] *)
Definition togglePanel : M unit :=
  w <- get ;;
  if truthy (selected w) then modify (with_selected None) else ret tt.

(** *** [Window.deselectSet] *)

(** [ref[i] = ...] through the alias [ref] of [originalData[key]]. *)
Definition assign (key : string) (f : Stats -> Stats) : M unit :=
  modify (fun w =>
    match Dict.get key (originalData w) with
    | Some ref => with_originalData (Dict.set key (f ref) (originalData w)) w
    | None => w
    end).

Definition set_mprts (v : list (string * Z * Z)) (ref : Stats) : Stats :=
  {| st_qty := st_qty ref; st_bx := st_bx ref; st_ins := st_ins ref;
     st_wgh := st_wgh ref; st_mprts := v; st_mfigs := st_mfigs ref;
     st_nts := st_nts ref |}.

Definition set_mfigs (v : list (string * Z)) (ref : Stats) : Stats :=
  {| st_qty := st_qty ref; st_bx := st_bx ref; st_ins := st_ins ref;
     st_wgh := st_wgh ref; st_mprts := st_mprts ref; st_mfigs := v;
     st_nts := st_nts ref |}.

Definition set_nts (v : string) (ref : Stats) : Stats :=
  {| st_qty := st_qty ref; st_bx := st_bx ref; st_ins := st_ins ref;
     st_wgh := st_wgh ref; st_mprts := st_mprts ref;
     st_mfigs := st_mfigs ref; st_nts := v |}.

(** One row of the parts table read back:
    [(text, ColorDialog.get(name=text)["id"], int(text))]. *)
Definition read_part (colors : list Color) (row : string * string * string)
  : result (string * Z * Z) :=
  let '(number, color, quantity) := row in
  (c <- match ColorDialog_get_name colors color with
        | Some c => Ok c
        | None => Raise TypeError
        end ;;
   q <- Py.int quantity ;;
   Ok (number, color_id c, q))%result.

Definition read_fig (row : string * string) : result (string * Z) :=
  let '(number, quantity) := row in
  (q <- Py.int quantity ;; Ok (number, q))%result.

(** The value of [lasty] after the search loop. *)
Definition find_lasty (number : string) (rows : list SetsRow) : result nat :=
  match rows with
  | [] => Raise UnboundLocalError
  | _ =>
      match find_row number rows with
      | Some y => Ok y
      | None => Ok (length rows - 1)%nat
      end
  end.

Definition update_row (y : nat) (f : SetsRow -> SetsRow) : M unit :=
  modify (fun w => with_setsTable (alter f y (setsTable w)) w).

(** [w] is the window on entry: the tables and the notes area are read
    from it before they are cleared.  Lines 335 to 338 only colour two
    items and are left out. *)
Definition deselectSet : M unit :=
  w <- get ;;
  key <- lift match selected w with
              | Some key =>
                  (_ <- Dict.item key (originalData w) ;; Ok key)%result
              | None => Raise KeyError
              end ;;
  parts <- lift (rmap (read_part (colors w)) (partsTable w)) ;;
  assign key (set_mprts parts) ;;
  modify (with_partsTable []) ;;
  figs <- lift (rmap read_fig (figsTable w)) ;;
  assign key (set_mfigs figs) ;;
  modify (with_figsTable []) ;;
  assign key (set_nts (notesArea w)) ;;
  modify (with_notesArea "") ;;
  lasty <- lift (find_lasty key (setsTable w)) ;;
  update_row lasty (updateSetItem 8 (sum_parts parts)) ;;
  update_row lasty (updateSetItem 9 (sum_figs figs)) ;;
  update_row lasty
    (updateSetItem 10 (Z.of_nat (length (Py.splitlines (notesArea w))))) ;;
  togglePanel.

(** *** [Window.getSet] and [Window.addSet]

    [text] is the text of the line edit.  The weight lookup of lines
    268 to 277 is a request to a web site: [wgh] is what it leaves in
    the variable of that name when it completes. *)

(** [if "-" not in number: number += "-1"]. *)
Definition with_variant (number : string) : string :=
  if Py.contains "-" number then number else number +:+ "-1".

Definition new_stats (wgh : option Z) : Stats :=
  {| st_qty := 1; st_bx := 0; st_ins := 0; st_wgh := wgh;
     st_mprts := []; st_mfigs := []; st_nts := "" |}.

Definition raw_weight (wgh : option Z) : Weight :=
  match wgh with
  | Some g => WInt g
  | None => WNone
  end.

Definition getSet (fuel : nat) (wgh : option Z) (text : string)
  : M (option (Line K)) :=
  let number := with_variant text in
  w <- get ;;
  match sets (catalog w) !! number with
  | None => ret None
  | Some e =>
      modify (fun w =>
        with_originalData
          (Dict.set number (new_stats wgh) (originalData w)) w) ;;
      th <- lift (getTheme (catalog w) fuel (set_thm e)) ;;
      ret (Some {| ln_num := number;
                   ln_name := set_name e;
                   ln_th := th;
                   ln_qty := 1;
                   ln_bx := 0;
                   ln_ins := 0;
                   ln_prts := set_prts e;
                   ln_wgh := raw_weight wgh;
                   ln_mprts := 0;
                   ln_mfigs := 0;
                   ln_nts := 0 |})
  end.

Definition addSet (fuel : nat) (wgh : option Z) (text : string) : M unit :=
  row <- getSet fuel wgh text ;;
  match row with
  | None => ret tt
  | Some line =>
      modify (fun w =>
        with_setsTable (setsTable w ++ [addSetRow line])%list w)
  end.

(** *** [Window.removeSet] *)

Definition removeSet (text : string) : M unit :=
  deselectSet ;;
  let number := with_variant text in
  w <- get ;;
  match find_row number (setsTable w) with
  | Some row =>
      modify (with_setsTable (delete row (setsTable w))) ;;
      _ <- lift (Dict.item number (originalData w)) ;;
      modify (with_originalData (Dict.remove number (originalData w)))
  | None => ret tt
  end.

(** *** [Window.save]

    The value returned is the list that [json.dump] writes to the
    stats file. *)

Definition set_qty (v : Z) (ref : Stats) : Stats :=
  {| st_qty := v; st_bx := st_bx ref; st_ins := st_ins ref;
     st_wgh := st_wgh ref; st_mprts := st_mprts ref;
     st_mfigs := st_mfigs ref; st_nts := st_nts ref |}.

Definition set_bx (v : Z) (ref : Stats) : Stats :=
  {| st_qty := st_qty ref; st_bx := v; st_ins := st_ins ref;
     st_wgh := st_wgh ref; st_mprts := st_mprts ref;
     st_mfigs := st_mfigs ref; st_nts := st_nts ref |}.

Definition set_ins (v : Z) (ref : Stats) : Stats :=
  {| st_qty := st_qty ref; st_bx := st_bx ref; st_ins := v;
     st_wgh := st_wgh ref; st_mprts := st_mprts ref;
     st_mfigs := st_mfigs ref; st_nts := st_nts ref |}.

Definition set_wgh (v : option Z) (ref : Stats) : Stats :=
  {| st_qty := st_qty ref; st_bx := st_bx ref; st_ins := st_ins ref;
     st_wgh := v; st_mprts := st_mprts ref;
     st_mfigs := st_mfigs ref; st_nts := st_nts ref |}.

(** [int(text or 0)]. *)
Definition int_or_0 (text : string) : result Z :=
  if String.eqb text "" then Ok 0 else Py.int text.

(** [n or None]. *)
Definition or_None (n : Z) : option Z := if n =? 0 then None else Some n.

(** The body of the loop over the rows of [setsTable]. *)
Definition save_row (r : SetsRow) : M unit :=
  w <- get ;;
  _ <- lift (Dict.item (it0 r) (originalData w)) ;;
  qty <- lift (Py.int (it3 r)) ;;
  assign (it0 r) (set_qty qty) ;;
  bx <- lift (Py.int (it4 r)) ;;
  assign (it0 r) (set_bx bx) ;;
  ins <- lift (Py.int (it5 r)) ;;
  assign (it0 r) (set_ins ins) ;;
  wgh <- lift (int_or_0 (it7 r)) ;;
  assign (it0 r) (set_wgh (or_None wgh)).

Fixpoint save_rows (rows : list SetsRow) : M unit :=
  match rows with
  | [] => ret tt
  | r :: rows' => save_row r ;; save_rows rows'
  end.

Definition save : M (list (string * Stats)) :=
  w <- get ;;
  (if truthy (selected w) then deselectSet else ret tt) ;;
  w <- get ;;
  save_rows (setsTable w) ;;
  w <- get ;;
  ret (originalData w).

(** *** [Window.updateStatusBar] *)

Record Totals : Type := {
  tbxs : Z;
  tins : Z;
  tprts : Z;
  n : Z;
  twgh : Z;
  nwgh : Z;
  thms : gset string;
  tmprts : Z;
  tmfigs : Z;
}.

(** Truth value of the weight of a line. *)
Definition weight_truthy (wgh : Weight) : option Z :=
  match wgh with
  | WInt g => if g =? 0 then None else Some g
  | _ => None
  end.

(** The body of the loop over [completeData]. *)
Definition status_step (t : Totals) (line : Line K) : Totals :=
  {| tbxs := tbxs t + ln_bx line;
     tins := tins t + ln_ins line;
     tprts := tprts t + ln_prts line * ln_qty line;
     n := n t + ln_qty line;
     twgh := match weight_truthy (ln_wgh line) with
             | Some g => twgh t + g * ln_qty line
             | None => twgh t
             end;
     nwgh := match weight_truthy (ln_wgh line) with
             | Some _ => nwgh t + ln_qty line
             | None => nwgh t
             end;
     thms := {[ (ln_th line).2 ]} ∪ thms t;
     tmprts := tmprts t + ln_mprts line;
     tmfigs := tmfigs t + ln_mfigs line |}.

Definition status_zero : Totals :=
  {| tbxs := 0; tins := 0; tprts := 0; n := 0; twgh := 0; nwgh := 0;
     thms := ∅; tmprts := 0; tmfigs := 0 |}.

Definition status_loop (completeData : list (Line K)) : Totals :=
  fold_left status_step completeData status_zero.

(** The texts of the eight labels of the status bar. *)
Record StatusBar : Type := {
  setsCount : string;
  partsCount : string;
  weightCount : string;
  boxesCount : string;
  noticesCount : string;
  themesCount : string;
  missingPartsCount : string;
  missingFigsCount : string;
}.

Definition updateStatusBar (completeData : list (Line K))
  : result StatusBar :=
  let t := status_loop completeData in
  (x <- Py.truediv (twgh t) 1000 ;;
   kg <- Py.round x ;;
   Ok {| setsCount :=
           "Sets: " +:+ Py.str (n t) +:+ " (" +:+
           Py.str (Z.of_nat (length completeData)) +:+ ")";
         partsCount := "Parts: " +:+ Py.str (tprts t - tmprts t);
         weightCount := "Weight: " +:+ Py.str kg +:+ "kg";
         boxesCount := "Boxes: " +:+ Py.str (tbxs t);
         noticesCount := "Instructions: " +:+ Py.str (tins t);
         themesCount :=
           "Themes: " +:+ Py.str (Z.of_nat (size (thms t)));
         missingPartsCount := "Missing Parts: " +:+ Py.str (tmprts t);
         missingFigsCount := "Missing Figs: " +:+ Py.str (tmfigs t) |}
  )%result.

(** *** [Window.__init__]: the data it sets up

    [data] is the list loaded from the stats file.  The window is left
    with nothing selected by the closing call of [togglePanel]. *)
Definition init (cat : Catalog K) (cols : list Color) (fuel : nat)
    (data : list (string * Stats)) : result (Window K) :=
  (lines <- complete cat fuel data ;;
   _ <- updateStatusBar lines ;;
   Ok {| catalog := cat;
         colors := cols;
         originalData :=
           fold_left (fun d r => Dict.set r.1 r.2 d) data [];
         completeData := lines;
         setsTable := map addSetRow lines;
         partsTable := [];
         figsTable := [];
         notesArea := "";
         selected := None |})%result.

End Methods.

(** * Notions used to state the properties *)

Section Notions.
Context {K : Type}.

(** The record and the row that a successful flush leaves. *)
Definition flushed (parts : list (string * Z * Z)) (figs : list (string * Z))
    (notes : string) (ref : Stats) : Stats :=
  set_nts notes (set_mfigs figs (set_mprts parts ref)).

Definition refreshed (parts : list (string * Z * Z))
    (figs : list (string * Z)) (notes : string) (item : SetsRow) : SetsRow :=
  updateSetItem 10 (Z.of_nat (length (Py.splitlines notes)))
    (updateSetItem 9 (sum_figs figs)
       (updateSetItem 8 (sum_parts parts) item)).

(** [chain cat thm names root]: [thm] is the main theme [root], or it is
    an entry of the themes table and following the parents from it meets
    the names [names], its own first, before reaching [root]. *)
Inductive chain (cat : Catalog K)
  : string -> list string -> string * K -> Prop :=
| chain_root thm n c :
    mainThemes cat !! thm = Some (n, c) ->
    chain cat thm [] (n, c)
| chain_step thm n parent names root :
    mainThemes cat !! thm = None ->
    themes cat !! thm = Some (n, parent) ->
    chain cat parent names root ->
    chain cat thm (n :: names) root.

(** The name of the theme a chain starts from. *)
Definition own_name (names : list string) (root : string * K) : string :=
  match names with
  | n :: _ => n
  | [] => root.1
  end.

Definition label (x : Line K) : string := (ln_th x).2.
Definition sortkey (x : Line K) : K := (ln_th x).1.

(** [a <= b] on texts, as Python compares them. *)
Definition text_le (a b : string) : Prop := String.ltb b a = false.

(** [x] and [y] have set numbers that [readFloat] reads, and the one of
    [y] is not below the one of [x]. *)
Definition number_le (x y : Line K) : Prop :=
  exists kx ky,
    readFloat (ln_num x) = Ok kx /\ readFloat (ln_num y) = Ok ky /\
    Py.flt ky kx = false.

(** The order of the lines that [complete] returns: by label, and by
    the number read as a float for equal labels. *)
Definition line_le (x y : Line K) : Prop :=
  String.ltb (label x) (label y) = true \/
  (label x = label y /\ number_le x y).

(** The order of the groups in the words of the specification: by sort
    key, and by label for equal sort keys. *)
Definition sortkey_then_label (ltK : K -> K -> Prop) (x y : Line K) : Prop :=
  ltK (sortkey x) (sortkey y) \/
  (sortkey x = sortkey y /\ text_le (label x) (label y)).

(** The order within a group in the words of the specification: the
    digits before and after the separator, read as two ints. *)
Fixpoint split_dash (l : list ascii) : option (list ascii * list ascii) :=
  match l with
  | [] => None
  | c :: l' =>
      if Ascii.eqb c "-"%char then Some ([], l')
      else
        match split_dash l' with
        | Some (b, v) => Some (c :: b, v)
        | None => None
        end
  end.

Definition number_pair (number : string) : option (Z * Z) :=
  match split_dash (Py.chars number) with
  | Some (b, v) =>
      match Py.digitpart b, Py.digitpart v with
      | Some base, Some variant => Some (base, variant)
      | _, _ => None
      end
  | None => None
  end.

Definition pair_le (p q : Z * Z) : Prop :=
  p.1 < q.1 \/ (p.1 = q.1 /\ p.2 <= q.2).

Definition number_pair_le (x y : Line K) : Prop :=
  label x = label y ->
  exists p q,
    number_pair (ln_num x) = Some p /\ number_pair (ln_num y) = Some q /\
    pair_le p q.

(** The totals in the words of the specification. *)
Definition spec_setCount (rows : list (Line K)) : Z :=
  foldr (fun x acc => ln_qty x + acc) 0 rows.

Definition spec_partsTimesQuantity (rows : list (Line K)) : Z :=
  foldr (fun x acc => ln_prts x * ln_qty x + acc) 0 rows.

Definition spec_missingParts (rows : list (Line K)) : Z :=
  foldr (fun x acc => ln_mprts x + acc) 0 rows.

Definition spec_netPartsOwned (rows : list (Line K)) : Z :=
  spec_partsTimesQuantity rows - spec_missingParts rows.

(** The sum of weight times quantity over the rows with a weight. *)
Definition spec_weightGrams (rows : list (Line K)) : Z :=
  foldr (fun x acc =>
           match ln_wgh x with
           | WInt g => g * ln_qty x + acc
           | _ => acc
           end) 0 rows.

Definition spec_totalWeightKg (rows : list (Line K)) : result Z :=
  x <- Py.truediv (spec_weightGrams rows) 1000 ;; Py.round x.

Definition spec_themeCount (rows : list (Line K)) : nat :=
  length (remove_dups (map label rows)).

(** A text without line boundary. *)
Definition plain (t : string) : Prop :=
  Forall (fun c => Py.is_linebreak c = false) (Py.chars t).

(** The place of a float that is not a NaN in the order of the floats. *)
Definition rank (x : Py.float) : Z * Z * Z :=
  match x with
  | S754_infinity true => (-2, 0, 0)
  | S754_finite true m e => (-1, - e, - Zpos m)
  | S754_zero _ => (0, 0, 0)
  | S754_nan => (0, 0, 0)
  | S754_finite false m e => (1, e, Zpos m)
  | S754_infinity false => (2, 0, 0)
  end.

Definition rank_lt (a b : Z * Z * Z) : Prop :=
  a.1.1 < b.1.1 \/
  (a.1.1 = b.1.1 /\ (a.1.2 < b.1.2 \/ (a.1.2 = b.1.2 /\ a.2 < b.2))).

Definition is_nan (x : Py.float) : bool :=
  match x with
  | S754_nan => true
  | _ => false
  end.

(** The lines of all groups, group after group. *)
Definition lines_of (thms : Dict.t (list (Line K))) : list (Line K) := concat (map snd thms).

(** Every group holds lines of its own label only, and no label has two
    groups. *)
Definition grouped (thms : Dict.t (list (Line K))) : Prop :=
  NoDup (Dict.keys thms) /\
  Forall (fun g => Forall (fun x => label x = g.1) g.2) thms.

(** A line with the float that [readFloat] reads from its number. *)
Definition keyed_ok (p : Py.float * Line K) : Prop :=
  readFloat (ln_num p.2) = Ok p.1.

Definition keyed_le (p q : Py.float * Line K) : Prop :=
  Py.flt q.1 p.1 = false.

(** The record that [save] leaves for a row of the display. *)
Definition saved (qty bx ins wgh : Z) (ref : Stats) : Stats :=
  set_wgh (or_None wgh) (set_ins ins (set_bx bx (set_qty qty ref))).

(** The weight of the record of [k], if there is one, is not zero. *)
Definition weight_ok (d : Dict.t Stats) (k : string) : Prop :=
  forall st, Dict.get k d = Some st -> st_wgh st <> Some 0.

End Notions.

(** Running a method: the monad operations and the field updates are
    unfolded, nothing else. *)
Ltac run :=
  cbv beta iota delta [bind get lift modify ret rbind] in *;
  cbn [fst snd
       catalog colors originalData completeData setsTable partsTable
       figsTable notesArea selected
       with_originalData with_setsTable with_partsTable with_figsTable
       with_notesArea with_selected] in *.

(** * A small collection, used to run the model *)

Module Ex.

Definition cat : Catalog Z :=
  {| sets := list_to_map
       [("7140-1", {| set_name := "X-wing Fighter"; set_year := Some 1999;
                      set_thm := 18; set_prts := 100 |});
        ("9-1", {| set_name := "Universal Building Set"; set_year := Some 1985;
                   set_thm := 5; set_prts := 30 |});
        ("10-1", {| set_name := "Large Building Set"; set_year := Some 1985;
                    set_thm := 5; set_prts := 60 |});
        ("70-1", {| set_name := "Bricks"; set_year := None;
                    set_thm := 5; set_prts := 20 |});
        ("100-1", {| set_name := "Basic Set"; set_year := None;
                     set_thm := 5; set_prts := 40 |});
        ("100-2", {| set_name := "Basic Set, second box"; set_year := None;
                     set_thm := 5; set_prts := 45 |});
        ("100-10", {| set_name := "Basic Set, tenth box"; set_year := None;
                      set_thm := 5; set_prts := 50 |})];
     themes := list_to_map [("18", ("Episode IV", "2"))];
     mainThemes := list_to_map [("2", ("Star Wars", 1)); ("5", ("Basic", 2))]
  |}.

Definition colours : list Color :=
  [{| color_id := 5; color_name := "Red"; color_rgb := (201, 26, 9);
      color_group := 0 |};
   {| color_id := 11; color_name := "Black"; color_rgb := (5, 19, 29);
      color_group := 0 |}].

Definition fuel : nat := 8.

Definition stats (qty : Z) (wgh : option Z) (mprts : list (string * Z * Z))
    (nts : string) : Stats :=
  {| st_qty := qty; st_bx := 0; st_ins := 0; st_wgh := wgh;
     st_mprts := mprts; st_mfigs := []; st_nts := nts |}.

(** The collection of the scenario of the specification. *)
Definition scenario : list (string * Stats) :=
  [("7140-1", stats 1 None [("3001", 5, 2)] "")].

Definition data : list (string * Stats) :=
  [("7140-1", stats 1 (Some 0) [("3001", 5, 2)] "box damaged");
   ("100-2", stats 1 None [] "");
   ("9-1", stats 2 (Some 450) [] "");
   ("100-10", stats 1 None [] "")].

(** Two sets of two themes, and two boxes of one set. *)
Definition two_themes : list (string * Stats) :=
  [("7140-1", stats 1 None [] ""); ("9-1", stats 1 None [] "")].

Definition two_boxes : list (string * Stats) :=
  [("100-2", stats 1 None [] ""); ("100-10", stats 1 None [] "")].

Definition four_numbers : list (string * Stats) :=
  [("100-1", stats 1 None [] ""); ("10-1", stats 1 None [] "");
   ("70-1", stats 1 None [] ""); ("9-1", stats 1 None [] "")].

(** What [complete] returns for a collection, and nothing when it raises. *)
Definition completed (data : list (string * Stats)) : list (Line Z) :=
  match complete cat fuel data with
  | Ok out => out
  | Raise _ => []
  end.

Definition nothing : Window Z :=
  {| catalog := cat; colors := colours; originalData := [];
     completeData := []; setsTable := []; partsTable := []; figsTable := [];
     notesArea := ""; selected := None |}.

(** The window once [data] is loaded. *)
Definition loaded : Window Z :=
  match init cat colours fuel data with
  | Ok w => w
  | Raise _ => nothing
  end.

(** The same with set 7140-1 selected and its details being edited. *)
Definition editing : Window Z :=
  with_notesArea "box damaged
one wing missing"
    (with_figsTable [("sw0019", "1")]
       (with_partsTable [("3001", "Red", "2"); ("3002", "Black", "1")]
          (with_selected (Some "7140-1") loaded))).

(** The same with a quantity that is not a number. *)
Definition mistyped : Window Z :=
  with_partsTable [("3001", "Red", "two")] editing.

End Ex.

(** * Further parts of [window.py]

    The functions and methods below complete the model.  As before a
    table is the list of its rows, in the order in which the methods put
    them; the reordering that the toolkit does when a table is sorted is
    not modelled.  The line edits are left out but for their text, and
    the visibility of a row appears only as what the two searches decide
    for it. *)

(** [a in b] on texts. *)
Fixpoint is_prefix (p l : list ascii) : bool :=
  match p, l with
  | [], _ => true
  | c :: p', d :: l' => Ascii.eqb c d && is_prefix p' l'
  | _ :: _, [] => false
  end.

Fixpoint occurs (p l : list ascii) : bool :=
  is_prefix p l ||
  match l with
  | [] => false
  | _ :: l' => occurs p l'
  end.

Definition text_in (a b : string) : bool := occurs (Py.chars a) (Py.chars b).

(** [s.strip()]. *)
Definition text_strip (s : string) : string := Py.text (Py.strip (Py.chars s)).

(** An exception of the model so far, or the AttributeError of a call
    on the [None] that a table gives for an item it does not have. *)
Inductive raised : Type :=
| Builtin (e : exn)
| AttributeError.

(** What a call gives when the window it leaves on an exception can
    hold rows that lack items, which the tables of the model do not
    have: the window if it returns, else the exception alone. *)
Inductive returns (A : Type) : Type :=
| Returns (a : A)
| Raises (r : raised).
Arguments Returns {A} a.
Arguments Raises {A} r.

Section Further.
Context {K : Type}.

(** ** [IntTableWidgetItem.__lt__] on the texts of two items *)
Definition IntTableWidgetItem_lt (self other : string) : result bool :=
  x <- readFloat self ;;
  y <- readFloat other ;;
  Ok (Py.flt x y).

(** ** [Window.addPartRow] and [Window.addFigRow]: the texts of the
    items of the row *)
Definition addPartRow (colors : list Color) (line : string * Z * Z)
  : result (string * string * string) :=
  let '(number, color, quantity) := line in
  match ColorDialog_get_id colors color with
  | Some c => Ok (number, color_name c, Py.str quantity)
  | None => Raise TypeError
  end.

Definition addFigRow (line : string * Z) : string * string :=
  (line.1, Py.str line.2).

(** ** [Window.loadParts], [Window.loadFigs]: the rows of the table
    once the method has returned; an empty list leaves the table as it
    is *)
Definition loadParts (colors : list Color) (parts : list (string * Z * Z))
    (table : list (string * string * string))
  : result (list (string * string * string)) :=
  match parts with
  | [] => Ok table
  | _ => rmap (addPartRow colors) parts
  end.

Definition loadFigs (figs : list (string * Z)) (table : list (string * string))
  : list (string * string) :=
  match figs with
  | [] => table
  | _ => map addFigRow figs
  end.

(** ** [Window.loadNotes]

    The notes area of the model is the text that [toPlainText] gives.
    The text widget keeps its text in blocks: [setPlainText] ends a
    block at a line feed, at a carriage return, and once at a carriage
    return with a line feed after it; [toPlainText] writes every end of
    block as a line feed and a no-break space as a space. *)
Fixpoint toPlainText (l : list ascii) : list ascii :=
  match l with
  | [] => []
  | c :: l' =>
      if Ascii.eqb c "013"%char then
        "010"%char ::
        match l' with
        | d :: l'' =>
            if Ascii.eqb d "010"%char then toPlainText l''
            else toPlainText l'
        | [] => []
        end
      else if Ascii.eqb c "160"%char then " "%char :: toPlainText l'
      else c :: toPlainText l'
  end.

Definition loadNotes (notes : string) : string :=
  Py.text (toPlainText (Py.chars notes)).

(** ** [Window.selectSet]

    The labels and the image of the side panel are left out. *)

(** The value of [n] after the loop over the keys of the store: the
    selected number when it is a key, else the last key. *)
Definition loop_key (sel : string) (d : Dict.t Stats) : result string :=
  match Dict.get sel d with
  | Some _ => Ok sel
  | None =>
      match last (Dict.keys d) with
      | Some n => Ok n
      | None => Raise UnboundLocalError
      end
  end.

Definition selectSet (y : nat) (w : Window K) : returns (Window K) :=
  match (if truthy (selected w) then deselectSet else ret tt) w with
  | (Raise e, _) => Raises (Builtin e)
  | (Ok _, w1) =>
      match setsTable w1 !! y with
      | None => Raises AttributeError
      | Some item =>
          match
            (n <- loop_key (it0 item) (originalData w1) ;;
             row <- Dict.item n (originalData w1) ;;
             parts <- loadParts (colors w1) (st_mprts row) (partsTable w1) ;;
             Ok (row, parts))
          with
          | Raise e => Raises (Builtin e)
          | Ok (row, parts) =>
              Returns
                (with_notesArea (loadNotes (st_nts row))
                   (with_figsTable (loadFigs (st_mfigs row) (figsTable w1))
                      (with_partsTable parts
                         (with_selected (Some (it0 item)) w1))))
          end
      end
  end.

(** ** [Window.addPart], [Window.addFig], [Window.removePart],
    [Window.removeFig]; [text] is the text of the line edit *)

Definition addPart (text : string) (w : Window K) : result (Window K) :=
  row <- addPartRow (colors w) (text, 11, 1) ;;
  Ok (with_partsTable (partsTable w ++ [row])%list w).

Definition addFig (text : string) (w : Window K) : Window K :=
  with_figsTable (figsTable w ++ [addFigRow (text, 1)])%list w.

(** The index of the first element whose number is [number]. *)
Fixpoint find_number {A} (num : A -> string) (number : string) (rows : list A)
  : option nat :=
  match rows with
  | [] => None
  | r :: rows' =>
      if String.eqb (num r) number then Some O
      else option_map S (find_number num number rows')
  end.

Definition removePart (text : string) (w : Window K) : Window K :=
  match find_number (fun r => r.1.1) text (partsTable w) with
  | Some row => with_partsTable (delete row (partsTable w)) w
  | None => w
  end.

Definition removeFig (text : string) (w : Window K) : Window K :=
  match find_number fst text (figsTable w) with
  | Some row => with_figsTable (delete row (figsTable w)) w
  | None => w
  end.

(** ** [Window.searchSet] and [Window.search]: for every row of the
    table, whether it is shown afterwards *)

Definition searchSet_row (content : string) (d : Dict.t Stats) (r : SetsRow)
  : result bool :=
  if String.eqb content "" then Ok true
  else
    org <- Dict.item (it0 r) d ;;
    Ok (existsb (fun p => text_in content p.1.1) (st_mprts org)
        || existsb (fun f => text_in content f.1) (st_mfigs org)
        || existsb (text_in content) [it0 r; it1 r; it2 r]).

Definition searchSet (text : string) (w : Window K) : result (list bool) :=
  rmap (searchSet_row (text_strip text) (originalData w)) (setsTable w).

Definition search (numbers : list string) (text : string) : list bool :=
  map (fun number =>
         String.eqb (text_strip text) "" || text_in (text_strip text) number)
      numbers.

(** ** Notions for the further properties *)

(** A set of themes that are no main themes and whose parents are in
    the set again. *)
Definition closed_under_parent (cat : Catalog K) (P : string -> Prop) : Prop :=
  forall thm,
    P thm ->
    mainThemes cat !! thm = None /\
    exists n parent, themes cat !! thm = Some (n, parent) /\ P parent.

(** From [thm] the parents lead to a theme that neither table holds. *)
Inductive dangling (cat : Catalog K) : string -> Prop :=
| dangling_here thm :
    mainThemes cat !! thm = None ->
    themes cat !! thm = None ->
    dangling cat thm
| dangling_step thm n parent :
    mainThemes cat !! thm = None ->
    themes cat !! thm = Some (n, parent) ->
    dangling cat parent ->
    dangling cat thm.

(** The weight that [save] stores for the weight of a record shown by
    [complete]. *)
Definition saved_weight (wgh : option Z) : option Z :=
  match wgh with
  | Some g => or_None g
  | None => None
  end.

(** The last of the rows that carry the number [k]. *)
Fixpoint last_row_of (k : string) (rows : list SetsRow) : option SetsRow :=
  match rows with
  | [] => None
  | r :: rows' =>
      match last_row_of k rows' with
      | Some r' => Some r'
      | None => if String.eqb (it0 r) k then Some r else None
      end
  end.

(** The four ints that [save] reads from a row of the display. *)
Definition row_ints (r : SetsRow) : result (Z * Z * Z * Z) :=
  qty <- Py.int (it3 r) ;;
  bx <- Py.int (it4 r) ;;
  ins <- Py.int (it5 r) ;;
  wgh <- int_or_0 (it7 r) ;;
  Ok (qty, bx, ins, wgh).

(** The record that the loop of [save] leaves for the number [k] whose
    record was [st]: the one written from the last row that carries [k],
    and [st] itself when no row does. *)
Definition saved_from (rows : list SetsRow) (k : string) (st : Stats)
  : Stats :=
  match last_row_of k rows with
  | Some r =>
      match row_ints r with
      | Ok (qty, bx, ins, wgh) => saved qty bx ins wgh st
      | Raise _ => st
      end
  | None => st
  end.

Definition saved_store (rows : list SetsRow) (d : Dict.t Stats)
  : Dict.t Stats :=
  map (fun kv => (kv.1, saved_from rows kv.1 kv.2)) d.

(** What [__init__] loads and computes once: the catalog, the colours
    and [completeData]. *)
Definition loaded_part (w : Window K)
  : Catalog K * list Color * list (Line K) :=
  (catalog w, colors w, completeData w).

(** A text without carriage return and without no-break space: the
    text widget gives it back as it is. *)
Definition kept_by_widget (t : string) : bool :=
  forallb (fun c => negb (Ascii.eqb c "013"%char || Ascii.eqb c "160"%char))
    (Py.chars t).

(** The colours of a palette can be read back from their names. *)
Definition names_identify (colors : list Color) : Prop :=
  forall c, c ∈ colors ->
            ColorDialog_get_name colors (color_name c) = Some c.

End Further.

(** More of the example collection. *)
Module Ex2.

(** A catalog in which theme 30 is its own parent and theme 31 has a
    parent that no table holds. *)
Definition broken : Catalog Z :=
  {| sets := sets Ex.cat;
     themes := list_to_map [("30", ("Loop", "30")); ("31", ("Lost", "99"))];
     mainThemes := mainThemes Ex.cat |}.

(** A window over a catalog whose set 31-1 has the theme 31 of the
    broken chain. *)
Definition lost : Window Z :=
  {| catalog :=
       {| sets :=
            <["31-1" := {| set_name := "Lost Set"; set_year := None;
                           set_thm := 31; set_prts := 10 |}]> (sets broken);
          themes := themes broken;
          mainThemes := mainThemes broken |};
     colors := Ex.colours; originalData := []; completeData := [];
     setsTable := []; partsTable := []; figsTable := []; notesArea := "";
     selected := None |}.

(** What [selectSet] returns, and the empty window when it raises. *)
Definition clicked (y : nat) (w : Window Z) : Window Z :=
  match selectSet y w with
  | Returns w1 => w1
  | Raises _ => Ex.nothing
  end.

(** The loaded window without the record of set 9-1, whose row is the
    first of the table. *)
Definition no_record : Window Z :=
  with_originalData (Dict.remove "9-1" (originalData Ex.loaded)) Ex.loaded.

(** The loaded window with a part added while nothing is selected. *)
Definition stale_part : Window Z :=
  with_partsTable [("3003", "Red", "4")] Ex.loaded.

(** The window being edited, with a figure quantity that is no int. *)
Definition bad_fig : Window Z :=
  with_figsTable [("sw0019", "one")] Ex.editing.

(** The window being edited, without the row of the selected set. *)
Definition no_row : Window Z :=
  with_setsTable (take 3 (setsTable Ex.editing)) Ex.editing.

(** The window being edited, once part 3003 is added. *)
Definition part_added : Window Z :=
  match addPart "3003" Ex.editing with
  | Ok w => w
  | Raise _ => Ex.nothing
  end.

End Ex2.

(** * Properties *)

(** ** Dictionaries *)

Section DictFacts.
Context {V : Type}.
Implicit Types (d : Dict.t V) (k : string) (v : V).

Lemma Dict_get_set_eq d k v : Dict.get k (Dict.set k v d) = Some v.
Proof.
  induction d as [|[k' v'] d IH]; simpl.
  - by rewrite String.eqb_refl.
  - destruct (String.eqb k k') eqn:E; simpl; rewrite ?String.eqb_refl, ?E; auto.
Qed.

Lemma Dict_get_set_ne d k k' v :
  k <> k' -> Dict.get k' (Dict.set k v d) = Dict.get k' d.
Proof.
  intros Hne. induction d as [|[k0 v0] d IH]; simpl.
  - destruct (String.eqb k' k) eqn:E; auto.
    apply String.eqb_eq in E. congruence.
  - destruct (String.eqb k k0) eqn:E; simpl.
    + apply String.eqb_eq in E. subst k0.
      destruct (String.eqb k' k) eqn:E'; auto.
      apply String.eqb_eq in E'. congruence.
    + by rewrite IH.
Qed.

Lemma Dict_set_set d k v v' :
  Dict.set k v' (Dict.set k v d) = Dict.set k v' d.
Proof.
  induction d as [|[k0 v0] d IH]; simpl.
  - by rewrite String.eqb_refl.
  - destruct (String.eqb k k0) eqn:E; simpl; rewrite ?String.eqb_refl, ?E;
      congruence.
Qed.

Lemma Dict_keys_set_present d k v :
  Dict.get k d <> None -> Dict.keys (Dict.set k v d) = Dict.keys d.
Proof.
  induction d as [|[k0 v0] d IH]; simpl; [done|].
  destruct (String.eqb k k0) eqn:E; simpl.
  - apply String.eqb_eq in E. by subst.
  - intros H. by rewrite (IH H).
Qed.

Lemma Dict_get_remove_eq d k : Dict.get k (Dict.remove k d) = None.
Proof.
  induction d as [|[k0 v0] d IH]; simpl; [done|].
  destruct (String.eqb k k0) eqn:E; simpl; rewrite ?E; auto.
Qed.

Lemma Dict_get_remove_ne d k k' :
  k <> k' -> Dict.get k' (Dict.remove k d) = Dict.get k' d.
Proof.
  intros Hne. induction d as [|[k0 v0] d IH]; simpl; [done|].
  destruct (String.eqb k k0) eqn:E; simpl.
  - apply String.eqb_eq in E. subst k0.
    destruct (String.eqb k' k) eqn:E'; auto.
    apply String.eqb_eq in E'. congruence.
  - by rewrite IH.
Qed.

Lemma Dict_keys_remove d k : k ∉ Dict.keys (Dict.remove k d).
Proof.
  induction d as [|[k0 v0] d IH]; simpl.
  - apply not_elem_of_nil.
  - destruct (String.eqb k k0) eqn:E; simpl; auto.
    apply not_elem_of_cons. split; auto.
    intros ->. by rewrite String.eqb_refl in E.
Qed.

Lemma Dict_get_Some_keys d k v : Dict.get k d = Some v -> k ∈ Dict.keys d.
Proof.
  induction d as [|[k0 v0] d IH]; simpl; [done|].
  destruct (String.eqb k k0) eqn:E.
  - apply String.eqb_eq in E. subst. intros _. apply elem_of_cons. by left.
  - intros H. apply elem_of_cons. right. auto.
Qed.

Lemma Dict_keys_get d k : k ∈ Dict.keys d -> exists v, Dict.get k d = Some v.
Proof.
  induction d as [|[k0 v0] d IH]; simpl.
  - intros H. by apply elem_of_nil in H.
  - intros H. destruct (String.eqb k k0) eqn:E; eauto.
    apply elem_of_cons in H as [->|H]; auto.
    by rewrite String.eqb_refl in E.
Qed.

Lemma Dict_get_elem_of d k v :
  NoDup (Dict.keys d) -> (k, v) ∈ d -> Dict.get k d = Some v.
Proof.
  induction d as [|[k0 v0] d IH]; simpl.
  - intros _ H. by apply elem_of_nil in H.
  - intros Hnd H. apply NoDup_cons in Hnd as [Hk0 Hnd].
    apply elem_of_cons in H as [[= -> ->]|H].
    + by rewrite String.eqb_refl.
    + destruct (String.eqb k k0) eqn:E; auto.
      apply String.eqb_eq in E. subst k0. exfalso. apply Hk0.
      unfold Dict.keys. apply list_elem_of_fmap. by exists (k, v).
Qed.
End DictFacts.

(** ** Texts *)

Lemma chars_text l : Py.chars (Py.text l) = l.
Proof. apply list_ascii_of_string_of_list_ascii. Qed.

Lemma text_chars s : Py.text (Py.chars s) = s.
Proof. apply string_of_list_ascii_of_string. Qed.

Lemma chars_app s t : Py.chars (s +:+ t) = (Py.chars s ++ Py.chars t)%list.
Proof. induction s as [|c s IH]; simpl; [done|]. by rewrite <- IH. Qed.

Lemma not_linebreak_not_LF c :
  Py.is_linebreak c = false -> Ascii.eqb c "010"%char = false.
Proof.
  intros H. destruct (Ascii.eqb_spec c "010"%char) as [->|]; [|done].
  discriminate H.
Qed.

(** A stretch without line boundary is one line. *)
Lemma splitlines_go_plain cur cr t :
  Forall (fun c => Py.is_linebreak c = false) t ->
  cur <> [] \/ t <> [] ->
  Py.splitlines_go cur cr t = [Py.text (rev cur ++ t)].
Proof.
  intros Ht. revert cur cr. induction Ht as [|c t Hc Ht IH]; intros cur cr Hne.
  - destruct Hne as [Hne|Hne]; [|done]. simpl. rewrite app_nil_r.
    by destruct cur.
  - simpl. rewrite (not_linebreak_not_LF c Hc), andb_false_r, Hc.
    rewrite IH by (left; done). simpl. by rewrite <- app_assoc.
Qed.

(** Up to a line boundary [c] the lines do not depend on what follows. *)
Lemma splitlines_go_boundary l c :
  Py.is_linebreak c = true ->
  forall cur cr, exists pre cr',
    forall t, Py.splitlines_go cur cr (l ++ c :: t)
              = (pre ++ Py.splitlines_go [] cr' t)%list.
Proof.
  intros Hc. induction l as [|d l IH]; intros cur cr; simpl.
  - destruct (cr && Ascii.eqb c "010"%char)%bool.
    + by exists [], false.
    + rewrite Hc. by exists [Py.text (rev cur)], (Ascii.eqb c "013"%char).
  - destruct (cr && Ascii.eqb d "010"%char)%bool.
    + apply IH.
    + destruct (Py.is_linebreak d).
      * destruct (IH [] (Ascii.eqb d "013"%char)) as (pre & cr' & H).
        exists (Py.text (rev cur) :: pre), cr'. intros t. by rewrite H.
      * apply IH.
Qed.

Lemma splitlines_empty : Py.splitlines "" = [].
Proof. reflexivity. Qed.

Lemma splitlines_plain t : t <> "" -> plain t -> Py.splitlines t = [t].
Proof.
  intros Hne Ht. unfold Py.splitlines.
  rewrite splitlines_go_plain; auto.
  - simpl. by rewrite text_chars.
  - right. destruct t; [done|]. discriminate.
Qed.

Lemma splitlines_trailing s c t :
  Py.is_linebreak c = true -> t <> "" -> plain t ->
  Py.splitlines (s +:+ String c t)
  = (Py.splitlines (s +:+ String c "") ++ [t])%list.
Proof.
  intros Hc Hne Ht. unfold Py.splitlines. rewrite !chars_app. simpl.
  destruct (splitlines_go_boundary (Py.chars s) c Hc [] false)
    as (pre & cr' & H).
  rewrite !H. rewrite splitlines_go_plain; auto.
  - simpl. by rewrite app_nil_r, text_chars.
  - right. destruct t; [done|]. discriminate.
Qed.

(** ** Floats *)

Lemma flt_rank x y :
  is_nan x = false -> is_nan y = false ->
  Py.flt x y = true <-> rank_lt (rank x) (rank y).
Proof.
  unfold Py.flt, SFltb, rank_lt.
  destruct x as [sx|sx| |sx mx ex], y as [sy|sy| |sy my ey];
    try discriminate; intros _ _; simpl;
    repeat match goal with s : bool |- _ => destruct s end; simpl;
    try (split; [discriminate|lia]); try (split; [lia|discriminate]);
    try (split; [intros _; lia|done]).
  - change (Pos.compare_cont Eq mx my) with (Pos.compare mx my).
    destruct (Z.compare_spec ex ey), (Pos.compare_spec mx my); simpl;
      split; (discriminate || lia || done).
  - change (Pos.compare_cont Eq mx my) with (Pos.compare mx my).
    destruct (Z.compare_spec ex ey), (Pos.compare_spec mx my); simpl;
      split; (discriminate || lia || done).
Qed.

Lemma flt_nan_l x y : is_nan x = true -> Py.flt x y = false.
Proof. by destruct x. Qed.

Lemma flt_nan_r x y : is_nan y = true -> Py.flt x y = false.
Proof. destruct y; try discriminate. by destruct x. Qed.

Lemma flt_asym x y : Py.flt x y = true -> Py.flt y x = false.
Proof.
  intros H. destruct (is_nan x) eqn:Hx; [by rewrite flt_nan_l in H|].
  destruct (is_nan y) eqn:Hy; [by rewrite flt_nan_r in H|].
  apply (flt_rank x y Hx Hy) in H.
  destruct (Py.flt y x) eqn:E; [|done].
  apply (flt_rank y x Hy Hx) in E. unfold rank_lt in *. lia.
Qed.

Lemma fle_trans x y z :
  is_nan x = false -> is_nan y = false -> is_nan z = false ->
  Py.flt y x = false -> Py.flt z y = false -> Py.flt z x = false.
Proof.
  intros Hx Hy Hz Hxy Hyz. destruct (Py.flt z x) eqn:E; [|done].
  apply (flt_rank z x Hz Hx) in E.
  assert (~ rank_lt (rank y) (rank x)) as Hxy'.
  { intros H. apply (flt_rank y x Hy Hx) in H. congruence. }
  assert (~ rank_lt (rank z) (rank y)) as Hyz'.
  { intros H. apply (flt_rank z y Hz Hy) in H. congruence. }
  unfold rank_lt in *. lia.
Qed.

(** Rounding a mantissa that is not negative does not give a NaN. *)
Lemma shr_1_nonneg mrs : 0 <= shr_m mrs -> 0 <= shr_m (shr_1 mrs).
Proof. destruct mrs as [[|[p|p|]|[p|p|]] r s]; simpl; lia. Qed.

Lemma iter_shr_1_nonneg p mrs :
  0 <= shr_m mrs -> 0 <= shr_m (SpecFloat.iter_pos shr_1 p mrs).
Proof.
  revert mrs. induction p as [p IH|p IH|]; intros mrs H; simpl.
  - apply IH, IH. by apply shr_1_nonneg.
  - by apply IH, IH.
  - by apply shr_1_nonneg.
Qed.

Lemma shr_fexp_nonneg m e l :
  0 <= m -> 0 <= shr_m (shr_fexp Py.prec Py.emax m e l).1.
Proof.
  intros H. unfold shr_fexp, shr.
  assert (0 <= shr_m (shr_record_of_loc m l)) as H'.
  { by destruct l as [|[| |]]. }
  destruct (fexp Py.prec Py.emax (Zdigits2 m + e) - e); simpl; auto.
  by apply iter_shr_1_nonneg.
Qed.

Lemma binary_round_aux_not_nan s m e l :
  0 <= m -> is_nan (binary_round_aux Py.prec Py.emax s m e l) = false.
Proof.
  intros H. unfold binary_round_aux.
  pose proof (shr_fexp_nonneg m e l H) as H1.
  destruct (shr_fexp Py.prec Py.emax m e l) as [mrs' e']. simpl in H1.
  assert (0 <= round_nearest_even (shr_m mrs') (loc_of_shr_record mrs')) as H2.
  { unfold round_nearest_even.
    destruct (loc_of_shr_record mrs') as [|[| |]]; try lia.
    destruct (Z.even (shr_m mrs')); lia. }
  pose proof (shr_fexp_nonneg _ e' loc_Exact H2) as H3.
  destruct (shr_fexp Py.prec Py.emax _ e' loc_Exact) as [mrs'' e''].
  simpl in H3. destruct (shr_m mrs'') as [|p|p]; [done| |lia].
  by destruct (e'' <=? Py.emax - Py.prec).
Qed.

Lemma nearest_not_nan a b : 0 <= a -> 0 < b -> is_nan (Py.nearest a b) = false.
Proof.
  intros Ha Hb. unfold Py.nearest, Py.exact.
  destruct b as [|b|b]; try lia. destruct a as [|a|a]; try lia; [done|].
  unfold SFdiv, SFdiv_core_binary.
  set (m' := match _ - _ - _ with
             | 0 => Z.pos a
             | Z.pos _ => Z.shiftl (Z.pos a) _
             | Z.neg _ => 0
             end).
  assert (0 <= m') as Hm'.
  { subst m'. destruct (_ - _ - _); try lia. apply Z.shiftl_nonneg. lia. }
  pose proof (Z.div_pos m' (Z.pos b) Hm' ltac:(lia)) as Hq.
  unfold Z.div in Hq. destruct (Z.div_eucl m' (Z.pos b)) as [q r].
  by apply binary_round_aux_not_nan.
Qed.

Lemma digits_from_nonneg l acc :
  0 <= acc -> Forall (fun c => Py.is_digit c = true) l ->
  0 <= fold_left (fun acc c => 10 * acc + Py.digit c) l acc.
Proof.
  intros Hacc Hl. revert acc Hacc.
  induction Hl as [|c l Hc _ IH]; intros acc Hacc; simpl; [done|].
  apply IH. unfold Py.is_digit in Hc. unfold Py.digit.
  apply andb_prop in Hc as [Hc _]. apply N.leb_le in Hc. lia.
Qed.

Lemma span_digits_spec l ds rest :
  Py.span_digits l = (ds, rest) ->
  l = (ds ++ rest)%list /\ Forall (fun c => Py.is_digit c = true) ds.
Proof.
  revert ds rest. induction l as [|c l IH]; intros ds rest; simpl.
  - by intros [= <- <-].
  - destruct (Py.is_digit c) eqn:Hc.
    + destruct (Py.span_digits l) as [ds' rest'].
      intros [= <- <-]. destruct (IH _ _ eq_refl) as [-> H].
      split; [done|]. by constructor.
    + by intros [= <- <-].
Qed.

Lemma float_of_not_nan s x : Py.float_of s = Ok x -> is_nan x = false.
Proof.
  unfold Py.float_of.
  destruct (forallb _ (Py.chars s)); [|by destruct (forallb _ _)].
  destruct (Py.span_digits (Py.chars s)) as [ip rest] eqn:Hspan.
  apply span_digits_spec in Hspan as [_ Hip].
  destruct rest as [|dot fp].
  - destruct ip; [discriminate|]. intros [= <-].
    apply nearest_not_nan; [|lia]. by apply digits_from_nonneg.
  - destruct (forallb Py.is_digit fp) eqn:Hfp; [|discriminate]. simpl.
    destruct (0 <? length (ip ++ fp))%nat; [|discriminate]. intros [= <-].
    apply nearest_not_nan; [|lia].
    apply digits_from_nonneg; [done|]. apply Forall_app. split; [done|].
    apply Forall_forall. intros c Hc.
    by apply (proj1 (forallb_forall _ _) Hfp), list_elem_of_In.
Qed.

(** ** The order of texts *)

Lemma ltb_asym a b : String.ltb a b = true -> String.ltb b a = false.
Proof.
  unfold String.ltb. rewrite (String.compare_antisym b a).
  by destruct (String.compare a b).
Qed.

Lemma ltb_trans a b c :
  String.ltb a b = true -> String.ltb b c = true -> String.ltb a c = true.
Proof.
  unfold String.ltb. intros Hab Hbc.
  assert (String.compare a b = Lt) as Hab' by by destruct (String.compare a b).
  assert (String.compare b c = Lt) as Hbc' by by destruct (String.compare b c).
  apply OrderedTypeEx.String_as_OT.cmp_lt in Hab', Hbc'.
  pose proof (OrderedTypeEx.String_as_OT.lt_trans _ _ _ Hab' Hbc') as Hac.
  apply OrderedTypeEx.String_as_OT.cmp_lt in Hac.
  unfold OrderedTypeEx.String_as_OT.cmp in Hac. by rewrite Hac.
Qed.

Lemma ltb_irrefl a : String.ltb a a = false.
Proof. destruct (String.ltb a a) eqn:E; [|done]. by rewrite (ltb_asym a a E) in E. Qed.

Lemma text_le_cases a b : text_le a b <-> String.ltb a b = true \/ a = b.
Proof.
  unfold text_le, String.ltb. rewrite (String.compare_antisym b a). split.
  - destruct (String.compare a b) eqn:E; simpl; try discriminate; auto.
    intros _. right. by apply String.compare_eq_iff.
  - intros [H| ->].
    + by destruct (String.compare a b).
    + destruct (String.compare b b) eqn:E; simpl; try done.
      pose proof (String.compare_antisym b b) as H. by rewrite E in H.
Qed.

Lemma text_le_trans a b c : text_le a b -> text_le b c -> text_le a c.
Proof.
  rewrite !text_le_cases. intros [Hab| ->] [Hbc| ->]; auto.
  left. by apply (ltb_trans a b c).
Qed.

(** ** [sorted] *)

Section SortedFacts.
Context {A B : Type} (lt : B -> B -> bool) (key : A -> B).

Lemma insort_Permutation x l : insort lt key x l ≡ₚ x :: l.
Proof.
  induction l as [|y l IH]; simpl; [done|].
  destruct (lt (key y) (key x)); [|done].
  rewrite IH. apply Permutation_swap.
Qed.

Lemma sorted_Permutation l : sorted lt key l ≡ₚ l.
Proof.
  induction l as [|x l IH]; simpl; [done|].
  by rewrite insort_Permutation, IH.
Qed.

(** [R] holds from the elements that [lt] does not put later, and is
    transitive, on the elements that satisfy [P]. *)
Context (P : A -> Prop) (R : A -> A -> Prop).
Hypothesis R_lt :
  forall x y, P x -> P y -> if lt (key y) (key x) then R y x else R x y.
Hypothesis R_trans :
  forall x y z, P x -> P y -> P z -> R x y -> R y z -> R x z.

Lemma insort_StronglySorted x l :
  P x -> Forall P l -> StronglySorted R l ->
  StronglySorted R (insort lt key x l).
Proof.
  intros Hx Hl Hs. induction l as [|y l IH]; simpl.
  - repeat constructor.
  - apply Forall_cons in Hl as [Hy Hl].
    apply StronglySorted_cons in Hs as [Hyl Hs].
    pose proof (R_lt x y Hx Hy) as Hxy.
    destruct (lt (key y) (key x)).
    + apply StronglySorted_cons. split; [|by apply IH].
      rewrite insort_Permutation. by constructor.
    + apply StronglySorted_cons. split; [|by apply StronglySorted_cons].
      constructor; [done|].
      rewrite Forall_forall in Hyl. rewrite Forall_forall in Hl.
      apply Forall_forall.
      intros z Hz. apply (R_trans x y z); auto.
Qed.

Lemma sorted_StronglySorted l :
  Forall P l -> StronglySorted R (sorted lt key l).
Proof.
  induction 1 as [|x l Hx Hl IH]; simpl; [constructor|].
  apply insort_StronglySorted; auto.
  by rewrite sorted_Permutation.
Qed.

End SortedFacts.

(** ** [complete] *)

Lemma rmap_Forall2 {A B} (f : A -> result B) l l' :
  rmap f l = Ok l' -> Forall2 (fun x y => f x = Ok y) l l'.
Proof.
  revert l'. induction l as [|x l IH]; intros l'; simpl.
  - intros [= <-]. constructor.
  - destruct (f x) as [y|] eqn:Hy; simpl; [|discriminate].
    destruct (rmap f l) as [ys|]; simpl; [|discriminate].
    intros [= <-]. constructor; auto.
Qed.

Lemma Dict_get_Some_split {V} (d : Dict.t V) k v :
  Dict.get k d = Some v ->
  exists d1 d2,
    d = (d1 ++ (k, v) :: d2)%list /\
    forall v', Dict.set k v' d = (d1 ++ (k, v') :: d2)%list.
Proof.
  induction d as [|[k0 v0] d IH]; simpl; [done|].
  destruct (String.eqb k k0) eqn:E.
  - apply String.eqb_eq in E. subst k0. intros [= ->].
    by exists [], d.
  - intros H. destruct (IH H) as (d1 & d2 & -> & Hset).
    exists ((k0, v0) :: d1), d2. split; [done|]. intros v'. simpl.
    by rewrite Hset.
Qed.

Lemma Dict_get_None_set {V} (d : Dict.t V) k :
  Dict.get k d = None ->
  (k ∉ Dict.keys d) /\ (forall v, Dict.set k v d = (d ++ [(k, v)])%list).
Proof.
  induction d as [|[k0 v0] d IH]; simpl.
  - intros _. split; [apply not_elem_of_nil|done].
  - destruct (String.eqb k k0) eqn:E; [discriminate|].
    intros H. destruct (IH H) as [Hk Hset]. split.
    + apply not_elem_of_cons. split; [|done].
      intros ->. by rewrite String.eqb_refl in E.
    + intros v. by rewrite Hset.
Qed.

Section CompleteFacts.
Context {K : Type}.
Implicit Types (x y : Line K) (rows block : list (Line K)).
Implicit Types (thms gs : Dict.t (list (Line K))) (cat : Catalog K).

Lemma lines_of_app thms1 thms2 :
  lines_of (thms1 ++ thms2)%list = (lines_of thms1 ++ lines_of thms2)%list.
Proof. unfold lines_of. by rewrite map_app, concat_app. Qed.

Lemma lines_of_Permutation thms gs : gs ≡ₚ thms -> lines_of gs ≡ₚ lines_of thms.
Proof.
  induction 1 as [|g l l' _ IH|g h l|l l' l'' _ IH1 _ IH2]; simpl.
  - done.
  - unfold lines_of in *. simpl. by rewrite IH.
  - unfold lines_of. simpl. rewrite !app_assoc.
    f_equiv. apply Permutation_app_comm.
  - by rewrite IH1.
Qed.

Lemma grouped_Permutation thms gs : gs ≡ₚ thms -> grouped thms -> grouped gs.
Proof.
  intros Hp [Hnd Hall]. split.
  - unfold Dict.keys. by rewrite Hp.
  - by rewrite Hp.
Qed.

Lemma setdefault_append_spec x thms :
  grouped thms ->
  grouped (setdefault_append (label x) x thms) /\
  lines_of (setdefault_append (label x) x thms) ≡ₚ (lines_of thms ++ [x])%list.
Proof.
  intros [Hnd Hall]. unfold setdefault_append.
  destruct (Dict.get (label x) thms) as [rows|] eqn:Hget.
  - destruct (Dict_get_Some_split _ _ _ Hget) as (d1 & d2 & -> & Hset).
    rewrite Hset. split; [split|].
    + unfold Dict.keys in *. by rewrite map_app in *.
    + apply Forall_app in Hall as [H1 H2].
      apply Forall_cons in H2 as [Hrows H2].
      apply Forall_app. split; [done|]. constructor; [|done]. simpl in *.
      apply Forall_app. split; [done|]. by constructor.
    + rewrite !lines_of_app. unfold lines_of. simpl.
      rewrite <- !app_assoc. f_equiv. f_equiv. apply Permutation_app_comm.
  - destruct (Dict_get_None_set _ _ Hget) as [Hk Hset].
    rewrite Hset. split; [split|].
    + unfold Dict.keys in *. rewrite map_app. simpl.
      apply NoDup_app. split; [done|]. split; [|apply NoDup_singleton].
      intros k Hk1 Hk2. apply list_elem_of_singleton in Hk2. by subst.
    + apply Forall_app. split; [done|]. by repeat constructor.
    + rewrite lines_of_app. unfold lines_of. simpl. by rewrite ?app_nil_r.
Qed.

Lemma complete_group_spec cat fuel data thms thms' :
  complete_group cat fuel data thms = Ok thms' ->
  grouped thms ->
  grouped thms' /\
  exists lines,
    rmap (complete_line cat fuel) data = Ok lines /\
    lines_of thms' ≡ₚ (lines_of thms ++ lines)%list.
Proof.
  revert thms. induction data as [|entry data IH]; intros thms; simpl.
  - intros [= <-] Hg. split; [done|]. exists []. by rewrite app_nil_r.
  - destruct (complete_line cat fuel entry) as [line|] eqn:Hline; simpl;
      [|discriminate].
    intros H Hg.
    destruct (setdefault_append_spec line thms Hg) as [Hg' Hp'].
    destruct (IH _ H Hg') as (Hg'' & lines & -> & Hp''). split; [done|].
    exists (line :: lines). split; [done|].
    rewrite Hp'', Hp'. by rewrite <- app_assoc.
Qed.

Lemma sorted_rows_spec rows block :
  sorted_rows rows = Ok block ->
  block ≡ₚ rows /\ StronglySorted number_le block.
Proof.
  unfold sorted_rows.
  destruct (rmap _ rows) as [keyed|] eqn:Hkeyed; simpl; [|discriminate].
  intros [= <-]. apply rmap_Forall2 in Hkeyed.
  assert (map snd keyed = rows /\ Forall keyed_ok keyed) as [Hrows Hok].
  { induction Hkeyed as [|x p rows keyed Hx _ [IH1 IH2]]; [done|].
    destruct (readFloat (ln_num x)) as [k|] eqn:Hk; simpl in Hx;
      [|discriminate].
    injection Hx as <-. simpl. split; [by rewrite IH1|]. by constructor. }
  split.
  - rewrite <- Hrows. apply Permutation_map, sorted_Permutation.
  - assert (StronglySorted keyed_le (sorted Py.flt fst keyed)) as Hs.
    { apply (sorted_StronglySorted Py.flt fst keyed_ok keyed_le); [| |done].
      - intros p q _ _. unfold keyed_le.
        destruct (Py.flt q.1 p.1) eqn:E; [|done]. by apply flt_asym.
      - intros p q r Hp Hq Hr. unfold keyed_le.
        apply fle_trans; eapply float_of_not_nan; eassumption. }
    assert (Forall keyed_ok (sorted Py.flt fst keyed)) as Hok'.
    { by rewrite sorted_Permutation. }
    induction Hs as [|p l Hs IH Hp]; simpl; [constructor|].
    apply Forall_cons in Hok' as [Hokp Hokl]. constructor; [by apply IH|].
    rewrite Forall_forall in Hp. rewrite Forall_forall in Hokl.
    apply Forall_forall.
    intros y Hy. apply list_elem_of_fmap in Hy as (q & -> & Hq).
    exists p.1, q.1. split; [done|]. split; [by apply Hokl|]. by apply Hp.
Qed.

Lemma complete_concat_spec gs acc out :
  complete_concat gs acc = Ok out ->
  exists blocks,
    out = (acc ++ concat blocks)%list /\
    Forall2 (fun g block => sorted_rows g.2 = Ok block) gs blocks.
Proof.
  revert acc. induction gs as [|[l rows] gs IH]; intros acc; simpl.
  - intros [= <-]. exists []. simpl. by rewrite app_nil_r.
  - destruct (sorted_rows rows) as [block|] eqn:Hb; simpl; [|discriminate].
    intros H. destruct (IH _ H) as (blocks & -> & HF).
    exists (block :: blocks). simpl. split; [by rewrite app_assoc|].
    by constructor.
Qed.

Lemma strict_groups gs :
  StronglySorted (fun g h => text_le g.1 h.1) gs ->
  NoDup (Dict.keys gs) ->
  StronglySorted (fun g h => String.ltb g.1 h.1 = true) gs.
Proof.
  induction 1 as [|g gs _ IH Hg]; intros Hnd; [constructor|].
  simpl in Hnd. apply NoDup_cons in Hnd as [Hg1 Hnd].
  constructor; [by apply IH|].
  rewrite Forall_forall in Hg. apply Forall_forall. intros h Hh.
  destruct (proj1 (text_le_cases _ _) (Hg h Hh)) as [?|Heq]; [done|].
  exfalso. apply Hg1. rewrite Heq. unfold Dict.keys.
  apply list_elem_of_fmap. by exists h.
Qed.

Lemma blocks_sorted gs blocks :
  StronglySorted (fun g h => String.ltb g.1 h.1 = true) gs ->
  Forall (fun g => Forall (fun x => label x = g.1) g.2) gs ->
  Forall2 (fun g block => sorted_rows g.2 = Ok block) gs blocks ->
  StronglySorted line_le (concat blocks) /\
  (forall y, y ∈ concat blocks -> exists g, g ∈ gs /\ label y = g.1) /\
  concat blocks ≡ₚ lines_of gs.
Proof.
  intros Hs Hall HF. revert Hs Hall.
  induction HF as [|g block gs blocks Hb _ IH]; intros Hs Hall; simpl.
  - split; [constructor|]. split; [|done]. intros y Hy.
    by apply elem_of_nil in Hy.
  - apply StronglySorted_cons in Hs as [Hg Hs].
    apply Forall_cons in Hall as [Hrows Hall].
    destruct (IH Hs Hall) as (IHs & IHl & IHp).
    destruct (sorted_rows_spec _ _ Hb) as [Hperm Hblock].
    assert (Forall (fun x => label x = g.1) block) as Hlab by by rewrite Hperm.
    rewrite Forall_forall in Hlab. rewrite Forall_forall in Hg.
    split; [|split].
    + apply StronglySorted_app_2; [| |done].
      * intros x y Hx Hy. destruct (IHl y Hy) as (h & Hh & Hyh).
        left. rewrite (Hlab x Hx), Hyh. by apply Hg.
      * clear -Hblock Hlab.
        induction Hblock as [|x l _ IH Hx]; [constructor|].
        constructor.
        -- apply IH. intros y Hy. apply Hlab, elem_of_cons. by right.
        -- rewrite Forall_forall in Hx. apply Forall_forall. intros y Hy.
           right. split; [|by apply Hx].
           rewrite (Hlab x), (Hlab y); [done| |]; apply elem_of_cons; auto.
    + intros y Hy. apply elem_of_app in Hy as [Hy|Hy].
      * exists g. split; [apply elem_of_cons; by left|by apply Hlab].
      * destruct (IHl y Hy) as (h & Hh & Hyh). exists h.
        split; [apply elem_of_cons; by right|done].
    + unfold lines_of. simpl. by rewrite Hperm, IHp.
Qed.

(** What [complete] returns holds the lines of the entries of [data],
    in the order [line_le]. *)
Lemma complete_sorted cat fuel data out :
  complete cat fuel data = Ok out ->
  StronglySorted line_le out /\
  exists lines,
    rmap (complete_line cat fuel) data = Ok lines /\ out ≡ₚ lines.
Proof.
  unfold complete.
  destruct (complete_group cat fuel data []) as [thms|] eqn:Hthms; simpl;
    [|discriminate].
  intros Hout.
  destruct (complete_group_spec _ _ _ _ _ Hthms)
    as ([Hnd Hall] & lines & Hlines & Hperm).
  { split; [apply NoDup_nil_2|constructor]. }
  destruct (complete_concat_spec _ _ _ Hout) as (blocks & -> & HF).
  set (gs := sorted String.ltb fst thms) in *.
  assert (gs ≡ₚ thms) as Hgs by apply sorted_Permutation.
  destruct (grouped_Permutation _ _ Hgs (conj Hnd Hall)) as [Hnd' Hall'].
  assert (StronglySorted (fun g h => String.ltb g.1 h.1 = true) gs) as Hs.
  { apply strict_groups; [|done].
    apply (sorted_StronglySorted String.ltb fst (fun _ => True)
             (fun g h => text_le g.1 h.1)).
    - intros g h _ _. unfold text_le.
      destruct (String.ltb h.1 g.1) eqn:E; [|done]. by apply ltb_asym.
    - intros g h i _ _ _. apply text_le_trans.
    - by apply Forall_forall. }
  destruct (blocks_sorted _ _ Hs Hall' HF) as (Hsorted & _ & Hp).
  simpl. split; [done|]. exists lines. split; [done|].
  rewrite Hp, (lines_of_Permutation _ _ Hgs), Hperm. done.
Qed.

End CompleteFacts.

Lemma StronglySorted_lookup {A} (R : A -> A -> Prop) (l : list A) i j x y :
  StronglySorted R l -> (i < j)%nat ->
  l !! i = Some x -> l !! j = Some y -> R x y.
Proof.
  intros Hs. revert i j. induction Hs as [|a l _ IH Ha]; intros i j Hij Hi Hj.
  - by rewrite lookup_nil in Hi.
  - destruct j as [|j]; [lia|]. simpl in Hj. destruct i as [|i]; simpl in Hi.
    + injection Hi as ->. rewrite Forall_forall in Ha.
      apply Ha. by eapply list_elem_of_lookup_2.
    + apply (IH i j); [lia|done|done].
Qed.

Section OrderFacts.
Context {K : Type}.
Implicit Types (cat : Catalog K) (out : list (Line K)).

Lemma complete_line_num cat fuel entry line :
  complete_line cat fuel entry = Ok line -> ln_num line = entry.1.
Proof.
  unfold complete_line. destruct entry as [num st].
  destruct (sets cat !! num) as [e|]; simpl; [|discriminate].
  destruct (getTheme cat fuel (set_thm e)) as [th|]; simpl; [|discriminate].
  by intros [= <-].
Qed.

Lemma complete_nums cat fuel data out x :
  complete cat fuel data = Ok out -> x ∈ out -> ln_num x ∈ Dict.keys data.
Proof.
  intros H Hx.
  destruct (complete_sorted _ _ _ _ H) as (_ & lines & Hlines & Hperm).
  rewrite Hperm in Hx. apply rmap_Forall2 in Hlines. clear -Hlines Hx.
  induction Hlines as [|entry line data lines Hline _ IH]; simpl.
  - by apply elem_of_nil in Hx.
  - apply elem_of_cons in Hx as [->|Hx]; apply elem_of_cons.
    + left. by eapply complete_line_num.
    + right. by apply IH.
Qed.

(** C1, amended: [complete] returns the lines of the entries of the
    collection grouped by label, the groups in ascending order of the
    label alone: the lines are those of the entries, the labels never
    go down along the list, and between two lines of one label there
    are only lines of that label. *)
Theorem complete_groups_by_label cat fuel data out :
  complete cat fuel data = Ok out ->
  (exists lines,
     rmap (complete_line cat fuel) data = Ok lines /\ out ≡ₚ lines) /\
  StronglySorted (fun x y => text_le (label x) (label y)) out /\
  (forall i j k x y z,
     (i < j < k)%nat ->
     out !! i = Some x -> out !! j = Some y -> out !! k = Some z ->
     label x = label z -> label y = label x).
Proof.
  intros H. destruct (complete_sorted _ _ _ _ H) as (Hs & Hlines).
  assert (StronglySorted (fun x y => text_le (label x) (label y)) out) as Hl.
  { clear -Hs. induction Hs as [|x l _ IH Hx]; constructor; [done|].
    eapply Forall_impl; [exact Hx|]. intros y [Hlt|[-> _]].
    - apply text_le_cases. by left.
    - apply text_le_cases. by right. }
  split; [done|]. split; [done|].
  intros i j k x y z [Hij Hjk] Hi Hj Hk Hxz.
  pose proof (StronglySorted_lookup _ _ _ _ _ _ Hl Hij Hi Hj) as Hxy.
  pose proof (StronglySorted_lookup _ _ _ _ _ _ Hl Hjk Hj Hk) as Hyz.
  simpl in Hxy, Hyz. rewrite <- Hxz in Hyz.
  apply text_le_cases in Hxy as [Hxy|Hxy]; [|done].
  apply text_le_cases in Hyz as [Hyz|Hyz]; [|done].
  by rewrite (ltb_asym _ _ Hxy) in Hyz.
Qed.

(** C4, amended: among the lines of one label, [complete] puts a line
    before another only if the number of the second, read as a float
    once its separator is replaced by a decimal point, is not below that
    of the first; read so, 9-1 is below 10-1 and 70-1 below 100-1. *)
Theorem complete_rows_by_float cat fuel data out :
  complete cat fuel data = Ok out ->
  (forall i j x y,
     (i < j)%nat -> out !! i = Some x -> out !! j = Some y ->
     label x = label y -> number_le x y) /\
  (exists a b,
     readFloat "9-1" = Ok a /\ readFloat "10-1" = Ok b /\
     Py.flt a b = true) /\
  (exists a b,
     readFloat "70-1" = Ok a /\ readFloat "100-1" = Ok b /\
     Py.flt a b = true).
Proof.
  intros H. destruct (complete_sorted _ _ _ _ H) as (Hs & _).
  split; [|split].
  - intros i j x y Hij Hi Hj Hxy.
    destruct (StronglySorted_lookup _ _ _ _ _ _ Hs Hij Hi Hj) as [Hlt|[_ ?]];
      [|done].
    rewrite Hxy in Hlt. by rewrite ltb_irrefl in Hlt.
  - by eexists _, _.
  - by eexists _, _.
Qed.

End OrderFacts.

(** ** [getTheme] *)

Lemma string_app_assoc (a b c : string) : (a +:+ b) +:+ c = a +:+ b +:+ c.
Proof.
  induction a as [|x a IH]; [done|].
  change (String x ((a +:+ b) +:+ c) = String x (a +:+ b +:+ c)).
  by rewrite IH.
Qed.

Lemma join_snoc sep (l : list string) x :
  l <> [] -> Py.join sep (l ++ [x]) = Py.join sep l +:+ sep +:+ x.
Proof.
  induction l as [|a [|b l] IH]; intros Hne; [done|done|].
  change (a +:+ sep +:+ Py.join sep ((b :: l) ++ [x])
          = (a +:+ sep +:+ Py.join sep (b :: l)) +:+ sep +:+ x).
  rewrite IH by done. by rewrite !string_app_assoc.
Qed.

Section ThemeFacts.
Context {K : Type}.
Implicit Types (cat : Catalog K).

Lemma getTheme_loop_chain cat thm names root :
  chain cat thm names root ->
  forall fuel ns,
    (length names < fuel)%nat ->
    getTheme_loop cat fuel thm ns
    = Ok (root.2, Py.join ": " (root.1 :: rev names ++ ns)).
Proof.
  induction 1 as [thm n c Hroot|thm n parent names root Hmain Hth _ IH];
    intros [|fuel] ns Hfuel; simpl in Hfuel; try lia.
  - simpl. by rewrite Hroot.
  - simpl. rewrite Hmain, Hth. rewrite IH by lia.
    by rewrite <- app_assoc.
Qed.

(** C9: when the chain of parents from a theme reaches a main theme,
    [getTheme] returns once it has fuel for one pass more than the chain
    has links; it returns what the main theme's entry holds beside its
    name, and the names from the main theme down to the theme itself
    joined by ": ", a text that is the theme's own name or ends with
    ": " and that name. *)
Theorem getTheme_chain cat thm names root fuel :
  chain cat (Py.str thm) names root ->
  (length names < fuel)%nat ->
  getTheme cat fuel thm = Ok (root.2, Py.join ": " (root.1 :: rev names)) /\
  (Py.join ": " (root.1 :: rev names) = own_name names root \/
   exists front,
     Py.join ": " (root.1 :: rev names)
     = front +:+ ": " +:+ own_name names root).
Proof.
  intros Hchain Hfuel. split.
  - unfold getTheme. rewrite (getTheme_loop_chain _ _ _ _ Hchain) by done.
    by rewrite app_nil_r.
  - destruct names as [|n names]; [by left|right].
    exists (Py.join ": " (root.1 :: rev names)). simpl rev.
    by rewrite app_comm_cons, join_snoc.
Qed.

End ThemeFacts.

(** ** [updateStatusBar] *)

Section StatusFacts.
Context {K : Type}.
Implicit Types (rows : list (Line K)) (t : Totals).

Lemma status_loop_from rows t :
  let t' := fold_left status_step rows t in
  n t' = n t + spec_setCount rows /\
  tprts t' = tprts t + spec_partsTimesQuantity rows /\
  tmprts t' = tmprts t + spec_missingParts rows /\
  twgh t' = twgh t + spec_weightGrams rows /\
  thms t' = list_to_set (map label rows) ∪ thms t.
Proof.
  revert t. induction rows as [|x rows IH]; intros t; simpl.
  - repeat split; try lia. by rewrite union_empty_l_L.
  - destruct (IH (status_step t x)) as (Hn & Hp & Hm & Hw & Ht).
    rewrite Hn, Hp, Hm, Hw, Ht. simpl.
    repeat split; try lia.
    + unfold weight_truthy. destruct (ln_wgh x) as [g| |]; try lia.
      destruct (Z.eqb_spec g 0); lia.
    + unfold label.
      by rewrite (assoc_L (∪)), (comm_L (∪) (list_to_set _) {[ _ ]}).
Qed.

Lemma size_list_to_set_remove_dups (l : list string) :
  size (list_to_set l : gset string) = length (remove_dups l).
Proof.
  rewrite <- (size_list_to_set (C:=gset string) (remove_dups l))
    by apply NoDup_remove_dups.
  f_equal. apply set_eq. intros x.
  by rewrite !elem_of_list_to_set, elem_of_remove_dups.
Qed.

(** C7: the loop of [updateStatusBar] counts the sets as the sum of the
    quantities, the parts as the sum of parts times quantity less the
    sum of the missing parts, the grams as the sum of weight times
    quantity over the rows that have a weight, the themes as the number
    of distinct labels, and the labels of the status bar show these
    figures, the weight as [round(grams / 1000)]; for the collection of
    the scenario the parts label shows 98. *)
Theorem updateStatusBar_totals rows :
  n (status_loop rows) = spec_setCount rows /\
  tprts (status_loop rows) - tmprts (status_loop rows)
  = spec_netPartsOwned rows /\
  twgh (status_loop rows) = spec_weightGrams rows /\
  size (thms (status_loop rows)) = spec_themeCount rows /\
  match updateStatusBar rows with
  | Ok bar =>
      exists kg,
        spec_totalWeightKg rows = Ok kg /\
        setsCount bar
        = "Sets: " +:+ Py.str (spec_setCount rows) +:+ " (" +:+
          Py.str (Z.of_nat (length rows)) +:+ ")" /\
        partsCount bar = "Parts: " +:+ Py.str (spec_netPartsOwned rows) /\
        weightCount bar = "Weight: " +:+ Py.str kg +:+ "kg" /\
        themesCount bar
        = "Themes: " +:+ Py.str (Z.of_nat (spec_themeCount rows))
  | Raise e => spec_totalWeightKg rows = Raise e
  end /\
  (lines <- complete Ex.cat Ex.fuel Ex.scenario ;;
   bar <- updateStatusBar lines ;;
   Ok (partsCount bar))%result = Ok "Parts: 98".
Proof.
  destruct (status_loop_from rows status_zero) as (Hn & Hp & Hm & Hw & Ht).
  fold (status_loop rows) in Hn, Hp, Hm, Hw, Ht. simpl in Hn, Hp, Hm, Hw, Ht.
  rewrite Z.add_0_l in Hn, Hp, Hm, Hw.
  assert (Hsize : size (thms (status_loop rows)) = spec_themeCount rows).
  { rewrite Ht, union_empty_r_L. apply size_list_to_set_remove_dups. }
  split; [done|]. split; [unfold spec_netPartsOwned; lia|].
  split; [done|]. split; [done|]. split; [|by vm_compute].
  unfold updateStatusBar, spec_totalWeightKg. rewrite Hw.
  destruct (Py.truediv (spec_weightGrams rows) 1000) as [x|e]; simpl; [|done].
  destruct (Py.round x) as [kg|e]; simpl; [|done].
  exists kg. rewrite Hn, Hp, Hm, Hsize. unfold spec_netPartsOwned.
  repeat split; f_equal; f_equal; lia.
Qed.

End StatusFacts.

(** ** The methods *)

Section MethodFacts.
Context {K : Type}.
Implicit Types (w : Window K).

Lemma bind_Ok {A B} (m : M K A) (k : A -> M K B) w a w' :
  m w = (Ok a, w') -> bind m k w = k a w'.
Proof. unfold bind. by intros ->. Qed.

Lemma bind_Raise {A B} (m : M K A) (k : A -> M K B) w e w' :
  m w = (Raise e, w') -> bind m k w = (Raise e, w').
Proof. unfold bind. by intros ->. Qed.

Lemma Window_ext w1 w2 :
  catalog w1 = catalog w2 -> colors w1 = colors w2 ->
  originalData w1 = originalData w2 -> completeData w1 = completeData w2 ->
  setsTable w1 = setsTable w2 -> partsTable w1 = partsTable w2 ->
  figsTable w1 = figsTable w2 -> notesArea w1 = notesArea w2 ->
  selected w1 = selected w2 -> w1 = w2.
Proof. destruct w1, w2; simpl; congruence. Qed.

Lemma alter_alter_same {A} (f g : A -> A) (i : nat) (l : list A) :
  alter g i (alter f i l) = alter (fun x => g (f x)) i l.
Proof.
  revert i. induction l as [|x l IH]; intros [|i]; simpl; auto.
  f_equal. apply IH.
Qed.

Lemma deselectSet_None w :
  selected w = None -> deselectSet w = (Raise KeyError, w).
Proof.
  intros H. unfold deselectSet. run. by rewrite H.
Qed.

Lemma deselectSet_Ok_inv w w1 :
  deselectSet w = (Ok tt, w1) ->
  exists key ref parts figs lasty,
    selected w = Some key /\
    Dict.get key (originalData w) = Some ref /\
    rmap (read_part (colors w)) (partsTable w) = Ok parts /\
    rmap read_fig (figsTable w) = Ok figs /\
    find_lasty key (setsTable w) = Ok lasty /\
    w1 = {| catalog := catalog w;
            colors := colors w;
            originalData :=
              Dict.set key (flushed parts figs (notesArea w) ref)
                (originalData w);
            completeData := completeData w;
            setsTable :=
              alter (refreshed parts figs (notesArea w)) lasty (setsTable w);
            partsTable := [];
            figsTable := [];
            notesArea := "";
            selected := if truthy (Some key) then None else Some key |}.
Proof.
  unfold deselectSet, assign, update_row, togglePanel. run.
  destruct (selected w) as [key|] eqn:Hsel; [|discriminate].
  unfold Dict.item. destruct (Dict.get key (originalData w)) as [ref|] eqn:Hget;
    run; [|discriminate].
  destruct (rmap (read_part (colors w)) (partsTable w)) as [parts|] eqn:Hp;
    run; [|discriminate].
  rewrite Hget.
  destruct (rmap read_fig (figsTable w)) as [figs|] eqn:Hf;
    run; [|discriminate].
  rewrite !Dict_get_set_eq. run. rewrite !Dict_get_set_eq. run.
  destruct (find_lasty key (setsTable w)) as [lasty|] eqn:Hl;
    run; [|discriminate].
  rewrite !Dict_set_set, !alter_alter_same.
  intros Heq. exists key, ref, parts, figs, lasty.
  repeat split; auto.
  rewrite Hsel in Heq.
  destruct (truthy (Some key)); run; injection Heq as <-;
    apply Window_ext; run; rewrite ?Hsel; reflexivity.
Qed.
Lemma find_row_lookup number (rows : list SetsRow) y :
  find_row number rows = Some y ->
  exists row, rows !! y = Some row /\ it0 row = number.
Proof.
  revert y. induction rows as [|r rows IH]; intros y; simpl; [done|].
  destruct (String.eqb (it0 r) number) eqn:E.
  - intros [= <-]. exists r. split; [done|]. by apply String.eqb_eq.
  - destruct (find_row number rows) as [y'|]; simpl; [|done].
    intros [= <-]. destruct (IH y' eq_refl) as (row & ? & ?). by exists row.
Qed.

Lemma find_row_alter number (rows : list SetsRow) f y :
  (forall r, it0 (f r) = it0 r) ->
  find_row number (alter f y rows) = find_row number rows.
Proof.
  intros Hf. revert y. induction rows as [|r rows IH]; intros [|y]; simpl;
    rewrite ?Hf; auto.
  by rewrite <- (IH y).
Qed.

Lemma refreshed_it0 parts figs notes r :
  it0 (refreshed parts figs notes r) = it0 r.
Proof. reflexivity. Qed.

Lemma find_lasty_found number (rows : list SetsRow) y :
  find_row number rows = Some y -> find_lasty number rows = Ok y.
Proof.
  intros H. destruct rows as [|r rows]; [discriminate H|].
  unfold find_lasty. by rewrite H.
Qed.

(** C8: with nothing selected [deselectSet] raises KeyError at its first
    line, and so does [removeSet], which calls it without the test that
    [selectSet] and [save] make; the window is left as it was. *)
Theorem deselectSet_nothing_selected w text :
  selected w = None ->
  deselectSet w = (Raise KeyError, w) /\
  removeSet text w = (Raise KeyError, w).
Proof.
  intros H. split; [by apply deselectSet_None|].
  unfold removeSet. by apply bind_Raise, deselectSet_None.
Qed.

(** C2, amended: a flush that completes leaves nothing selected, and a
    second flush directly after it writes nothing, however it ends: the
    window, and with it the record of the set and the rows of the
    display, is as the first flush left it. *)
Theorem deselectSet_twice w w1 key :
  selected w = Some key -> key <> "" ->
  deselectSet w = (Ok tt, w1) ->
  selected w1 = None /\
  exists ref,
    Dict.get key (originalData w1) = Some ref /\
    forall r w2,
      deselectSet w1 = (r, w2) ->
      w2 = w1 /\
      Dict.get key (originalData w2) = Some ref /\
      setsTable w2 = setsTable w1.
Proof.
  intros Hsel Hkey H.
  destruct (deselectSet_Ok_inv _ _ H)
    as (key' & ref & parts & figs & lasty & Hsel' & Hget & _ & _ & _ & ->).
  rewrite Hsel in Hsel'. injection Hsel' as <-.
  assert (truthy (Some key) = true) as Htr.
  { unfold truthy. destruct (String.eqb_spec key "") as [E|]; [done|done]. }
  rewrite Htr. split; [done|].
  exists (flushed parts figs (notesArea w) ref). split.
  - run. apply Dict_get_set_eq.
  - intros r w2. rewrite deselectSet_None by done.
    intros [= <- <-]. run. by rewrite Dict_get_set_eq.
Qed.

(** C5: after a flush, the row of the flushed set shows the sum of the
    quantities of the missing parts now in its record, the sum of the
    quantities of its missing figures, and the number of lines of its
    notes, the record holding what the detail tables and the notes area
    held.  The empty text has no line, and a last line without line
    boundary counts for one. *)
Theorem deselectSet_refreshes_row w w1 key y :
  selected w = Some key ->
  find_row key (setsTable w) = Some y ->
  deselectSet w = (Ok tt, w1) ->
  (exists ref row,
     Dict.get key (originalData w1) = Some ref /\
     setsTable w1 !! y = Some row /\ it0 row = key /\
     rmap (read_part (colors w)) (partsTable w) = Ok (st_mprts ref) /\
     rmap read_fig (figsTable w) = Ok (st_mfigs ref) /\
     st_nts ref = notesArea w /\
     it8 row = Py.str (sum_parts (st_mprts ref)) /\
     it9 row = Py.str (sum_figs (st_mfigs ref)) /\
     it10 row = Py.str (Z.of_nat (length (Py.splitlines (st_nts ref))))) /\
  length (Py.splitlines "") = 0%nat /\
  (forall t, t <> "" -> plain t -> length (Py.splitlines t) = 1%nat) /\
  (forall s c t,
     Py.is_linebreak c = true -> t <> "" -> plain t ->
     length (Py.splitlines (s +:+ String c t))
     = S (length (Py.splitlines (s +:+ String c "")))).
Proof.
  intros Hsel Hrow H. split; [|split; [done|split]].
  - destruct (deselectSet_Ok_inv _ _ H)
      as (key' & ref & parts & figs & lasty & Hsel' & Hget & Hp & Hf & Hl & ->).
    rewrite Hsel in Hsel'. injection Hsel' as <-.
    rewrite (find_lasty_found _ _ _ Hrow) in Hl. injection Hl as <-.
    destruct (find_row_lookup _ _ _ Hrow) as (row & Hy & Hit0).
    exists (flushed parts figs (notesArea w) ref),
      (refreshed parts figs (notesArea w) row).
    run. split; [apply Dict_get_set_eq|].
    split; [by rewrite list_lookup_alter_eq, Hy|]. done.
  - intros t Hne Ht. by rewrite splitlines_plain.
  - intros s c t Hc Hne Ht. rewrite splitlines_trailing by done.
    rewrite length_app. simpl. lia.
Qed.

(** C6, amended: adding a set whose number is already in the store does
    not fail; its record is replaced, in place, by a fresh one and a row
    for it is appended to the display. *)
Theorem addSet_present_replaces fuel wgh text w old e th :
  Dict.get (with_variant text) (originalData w) = Some old ->
  sets (catalog w) !! with_variant text = Some e ->
  getTheme (catalog w) fuel (set_thm e) = Ok th ->
  exists w' row,
    addSet fuel wgh text w = (Ok tt, w') /\
    Dict.get (with_variant text) (originalData w') = Some (new_stats wgh) /\
    Dict.keys (originalData w') = Dict.keys (originalData w) /\
    setsTable w' = (setsTable w ++ [row])%list /\
    it0 row = with_variant text.
Proof.
  intros Hold He Hth. unfold addSet, getSet. run. rewrite He. run.
  rewrite Hth. run. eexists _, _. split; [reflexivity|]. run.
  split; [apply Dict_get_set_eq|]. split; [|done].
  apply Dict_keys_set_present. by rewrite Hold.
Qed.

Lemma contains_nonempty c s : Py.contains c s = true -> s <> "".
Proof. by intros H ->. Qed.

(** C3, amended: removing the set that is selected begins with a flush
    of the detail tables and the notes area into its record.  When the
    flush raises, the removal raises with it and goes no further; when
    it succeeds and the set has a row in the display, nothing is
    selected afterwards, the record is gone from the store, the row
    from the display, and [complete] on the store has no line for the
    set. *)
Theorem removeSet_selected fuel w key y :
  selected w = Some key ->
  Py.contains "-" key = true ->
  find_row key (setsTable w) = Some y ->
  (forall e w1,
     deselectSet w = (Raise e, w1) -> removeSet key w = (Raise e, w1)) /\
  (forall w1,
     deselectSet w = (Ok tt, w1) ->
     exists w',
       removeSet key w = (Ok tt, w') /\
       selected w' = None /\
       Dict.get key (originalData w') = None /\
       setsTable w' = delete y (setsTable w1) /\
       forall out,
         complete (catalog w') fuel (originalData w') = Ok out ->
         key ∉ map ln_num out).
Proof.
  intros Hsel Hdash Hrow. split.
  { intros e w1 H. unfold removeSet. by apply bind_Raise. }
  intros w1 H.
  destruct (deselectSet_Ok_inv _ _ H)
    as (key' & ref & parts & figs & lasty & Hsel' & Hget & _ & _ & _ & Hw1).
  rewrite Hsel in Hsel'. injection Hsel' as <-.
  assert (truthy (Some key) = true) as Htruthy.
  { unfold truthy. destruct (String.eqb_spec key ""); [|done].
    by destruct (contains_nonempty _ _ Hdash). }
  rewrite Htruthy in Hw1.
  assert (find_row key (setsTable w1) = Some y) as Hrow1.
  { rewrite Hw1. run. rewrite find_row_alter; [done|]. apply refreshed_it0. }
  assert (Dict.item key (originalData w1)
          = Ok (flushed parts figs (notesArea w) ref)) as Hitem.
  { rewrite Hw1. run. unfold Dict.item. by rewrite Dict_get_set_eq. }
  unfold removeSet, with_variant. rewrite Hdash.
  rewrite (bind_Ok _ _ _ _ _ H). run. rewrite Hrow1. run. rewrite Hitem. run.
  eexists. split; [reflexivity|]. run.
  split; [by rewrite Hw1|]. split; [apply Dict_get_remove_eq|].
  split; [done|]. intros out Hout Hin.
  apply list_elem_of_fmap in Hin as (x & -> & Hx).
  apply (complete_nums _ _ _ _ _ Hout) in Hx.
  by apply Dict_keys_remove in Hx.
Qed.

(** *** [save] *)

Lemma save_row_Ok_inv r w w' :
  save_row r w = (Ok tt, w') ->
  exists ref qty bx ins wgh,
    Dict.get (it0 r) (originalData w) = Some ref /\
    int_or_0 (it7 r) = Ok wgh /\
    w' = with_originalData
           (Dict.set (it0 r) (saved qty bx ins wgh ref) (originalData w)) w.
Proof.
  unfold save_row, assign. run. unfold Dict.item.
  destruct (Dict.get (it0 r) (originalData w)) as [ref|] eqn:Hget; run;
    [|discriminate].
  destruct (Py.int (it3 r)) as [qty|]; run; [|discriminate].
  rewrite ?Hget. run.
  destruct (Py.int (it4 r)) as [bx|]; run; [|discriminate].
  rewrite Dict_get_set_eq. run.
  destruct (Py.int (it5 r)) as [ins|]; run; [|discriminate].
  rewrite Dict_get_set_eq. run.
  destruct (int_or_0 (it7 r)) as [wgh|]; run; [|discriminate].
  rewrite Dict_get_set_eq. run. rewrite !Dict_set_set.
  intros [= <-]. exists ref, qty, bx, ins, wgh.
  split; [done|]. split; [done|]. by apply Window_ext.
Qed.

Lemma or_None_not_zero n : or_None n <> Some 0.
Proof. unfold or_None. destruct (Z.eqb_spec n 0); congruence. Qed.

Lemma save_rows_spec rows w w' :
  save_rows rows w = (Ok tt, w') ->
  Dict.keys (originalData w') = Dict.keys (originalData w) /\
  setsTable w' = setsTable w /\
  (forall k, weight_ok (originalData w) k -> weight_ok (originalData w') k) /\
  (forall r, r ∈ rows -> weight_ok (originalData w') (it0 r)).
Proof.
  revert w. induction rows as [|r rows IH]; intros w; simpl.
  - intros [= <-]. repeat split; auto. intros r Hr. by apply elem_of_nil in Hr.
  - unfold bind at 1. destruct (save_row r w) as [[[]|e] w1] eqn:Hr;
      [|discriminate].
    intros Hrows. destruct (IH _ Hrows) as (Hk & Ht & Hpres & Hnew).
    destruct (save_row_Ok_inv _ _ _ Hr)
      as (ref & qty & bx & ins & wgh & Hget & _ & Hw1).
    assert (forall k, weight_ok (originalData w) k \/ k = it0 r ->
                      weight_ok (originalData w1) k) as Hstep.
    { intros k Hk' st. rewrite Hw1. run.
      destruct (String.eqb_spec (it0 r) k) as [<-|Hne].
      - rewrite Dict_get_set_eq. intros [= <-]. apply or_None_not_zero.
      - rewrite Dict_get_set_ne by done. destruct Hk' as [Hk' | ->]; [|done].
        apply Hk'. }
    split; [|split; [|split]].
    + rewrite Hk, Hw1. run. apply Dict_keys_set_present. by rewrite Hget.
    + rewrite Ht, Hw1. done.
    + intros k Hk'. apply Hpres, Hstep. by left.
    + intros r' Hr'. apply elem_of_cons in Hr' as [-> | Hr']; [|by apply Hnew].
      apply Hpres, Hstep. by right.
Qed.

Lemma map_it0_alter (rows : list SetsRow) f y :
  (forall r, it0 (f r) = it0 r) -> map it0 (alter f y rows) = map it0 rows.
Proof.
  intros Hf. revert y. induction rows as [|r rows IH]; intros [|y]; simpl;
    rewrite ?Hf; auto.
  f_equal. apply IH.
Qed.

(** C10: [save] turns a weight text that is empty or 0 into [None], so
    when it succeeds on a store whose sets all have a row in the
    display, no record of the list it dumps has the weight 0; and
    [complete] shows the weights [None] and 0 as the empty text, which
    [save] reads back as [None]. *)
Theorem save_weight_never_zero w out w' :
  NoDup (Dict.keys (originalData w)) ->
  (forall k, k ∈ Dict.keys (originalData w) -> k ∈ map it0 (setsTable w)) ->
  save w = (Ok out, w') ->
  (forall k st, (k, st) ∈ out -> st_wgh st <> Some 0) /\
  (forall text,
     text = "" \/ text = "0" ->
     (x <- int_or_0 text ;; Ok (or_None x))%result = Ok None) /\
  (forall (cat : Catalog K) fuel num st line,
     complete_line cat fuel (num, st) = Ok line ->
     st_wgh st = None \/ st_wgh st = Some 0 ->
     it7 (addSetRow line) = "").
Proof.
  intros Hnd Hshown Hsave. split; [|split].
  - assert (exists w1,
      Dict.keys (originalData w1) = Dict.keys (originalData w) /\
      map it0 (setsTable w1) = map it0 (setsTable w) /\
      save_rows (setsTable w1) w1 = (Ok tt, w') /\
      out = originalData w') as (w1 & Hk1 & Ht1 & Hrows & ->).
    { unfold save in Hsave. run.
      destruct (truthy (selected w)).
      - destruct (deselectSet w) as [[[]|e] w1] eqn:Hd; [|discriminate].
        exists w1.
        destruct (deselectSet_Ok_inv _ _ Hd)
          as (key & ref & parts & figs & lasty & _ & Hget & _ & _ & _ & Hw1).
        split; [|split].
        + rewrite Hw1. run. apply Dict_keys_set_present. by rewrite Hget.
        + rewrite Hw1. run. apply map_it0_alter, refreshed_it0.
        + destruct (save_rows (setsTable w1) w1) as [[[]|e] w2]; [|discriminate].
          by injection Hsave as <- <-.
      - exists w. split; [done|]. split; [done|].
        destruct (save_rows (setsTable w) w) as [[[]|e] w2]; [|discriminate].
        by injection Hsave as <- <-. }
    destruct (save_rows_spec _ _ _ Hrows) as (Hk & _ & _ & Hnew).
    intros k st Hin.
    assert (NoDup (Dict.keys (originalData w'))) as Hnd'
      by by rewrite Hk, Hk1.
    pose proof (Dict_get_elem_of _ _ _ Hnd' Hin) as Hget.
    assert (k ∈ map it0 (setsTable w1)) as Hrow.
    { rewrite Ht1. apply Hshown. rewrite <- Hk1, <- Hk.
      by eapply Dict_get_Some_keys. }
    apply list_elem_of_fmap in Hrow as (r & -> & Hr).
    by apply (Hnew r Hr).
  - by intros text [-> | ->].
  - intros cat fuel num st line Hline Hw.
    unfold complete_line in Hline.
    destruct (sets cat !! num) as [e|]; simpl in Hline; [|discriminate].
    destruct (getTheme cat fuel (set_thm e)) as [th|]; simpl in Hline;
      [|discriminate].
    injection Hline as <-. simpl. by destruct Hw as [-> | ->].
Qed.

End MethodFacts.

(** ** The methods on the example collection *)

Lemma deselectSet_nothing_selected_witness :
  deselectSet Ex.loaded = (Raise KeyError, Ex.loaded) /\
  removeSet "9-1" Ex.loaded = (Raise KeyError, Ex.loaded).
Proof. apply (deselectSet_nothing_selected Ex.loaded "9-1"). reflexivity. Defined.


Lemma deselectSet_twice_witness :
  selected (deselectSet Ex.editing).2 = None /\
  exists ref,
    Dict.get "7140-1" (originalData (deselectSet Ex.editing).2) = Some ref /\
    forall r w2,
      deselectSet (deselectSet Ex.editing).2 = (r, w2) ->
      w2 = (deselectSet Ex.editing).2 /\
      Dict.get "7140-1" (originalData w2) = Some ref /\
      setsTable w2 = setsTable (deselectSet Ex.editing).2.
Proof.
  apply (deselectSet_twice Ex.editing _ "7140-1");
    [reflexivity | discriminate | vm_compute; reflexivity].
Defined.

(** C2: with a figure quantity that is no int, the first flush raises
    ValueError with the two parts of the table stored in the record and
    the parts table cleared, the set still selected; the second flush,
    with no edit in between, raises again and has replaced the stored
    parts by the empty list. *)
Lemma deselectSet_twice_counterexample :
  selected Ex2.bad_fig = Some "7140-1" /\
  (deselectSet Ex2.bad_fig).1 = Raise ValueError /\
  selected (deselectSet Ex2.bad_fig).2 = Some "7140-1" /\
  st_mprts <$> Dict.get "7140-1" (originalData (deselectSet Ex2.bad_fig).2)
  = Some [("3001", 5, 2); ("3002", 11, 1)] /\
  (deselectSet (deselectSet Ex2.bad_fig).2).1 = Raise ValueError /\
  st_mprts <$>
    Dict.get "7140-1"
      (originalData (deselectSet (deselectSet Ex2.bad_fig).2).2)
  = Some [].
Proof. repeat split; vm_compute; reflexivity. Qed.

Lemma deselectSet_refreshes_row_witness :
  exists ref row,
    Dict.get "7140-1" (originalData (deselectSet Ex.editing).2) = Some ref /\
    setsTable (deselectSet Ex.editing).2 !! 3%nat = Some row /\
    it0 row = "7140-1" /\
    it8 row = Py.str (sum_parts (st_mprts ref)) /\
    it9 row = Py.str (sum_figs (st_mfigs ref)) /\
    it10 row = Py.str (Z.of_nat (length (Py.splitlines (st_nts ref)))).
Proof.
  destruct (deselectSet_refreshes_row Ex.editing (deselectSet Ex.editing).2
              "7140-1" 3)
    as [(ref & row & Hget & Hrow & H0 & _ & _ & _ & H8 & H9 & H10) _];
    [reflexivity | vm_compute; reflexivity | vm_compute; reflexivity |].
  exists ref, row. repeat split; assumption.
Defined.

(** C6: [addSet] on a number that the store already holds returns
    normally and the record of that number is no longer the one it was. *)
Lemma addSet_present_counterexample :
  Dict.get "7140-1" (originalData Ex.loaded)
  = Some (Ex.stats 1 (Some 0) [("3001", 5, 2)] "box damaged") /\
  (addSet Ex.fuel (Some 420) "7140" Ex.loaded).1 = Ok tt /\
  Dict.get "7140-1"
    (originalData (addSet Ex.fuel (Some 420) "7140" Ex.loaded).2)
  = Some (Ex.stats 1 (Some 420) [] "").
Proof. repeat split; vm_compute; reflexivity. Qed.

Lemma addSet_present_replaces_witness :
  exists w' row,
    addSet Ex.fuel (Some 420) "7140" Ex.loaded = (Ok tt, w') /\
    Dict.get "7140-1" (originalData w') = Some (new_stats (Some 420)) /\
    Dict.keys (originalData w') = Dict.keys (originalData Ex.loaded) /\
    setsTable w' = (setsTable Ex.loaded ++ [row])%list /\
    it0 row = "7140-1".
Proof.
  apply (addSet_present_replaces Ex.fuel (Some 420) "7140" Ex.loaded
           (Ex.stats 1 (Some 0) [("3001", 5, 2)] "box damaged")
           {| set_name := "X-wing Fighter"; set_year := Some 1999;
              set_thm := 18; set_prts := 100 |}
           (1, "Star Wars: Episode IV"));
    vm_compute; reflexivity.
Defined.

Lemma removeSet_selected_witness :
  exists w',
    removeSet "7140-1" Ex.editing = (Ok tt, w') /\
    selected w' = None /\
    Dict.get "7140-1" (originalData w') = None /\
    setsTable w' = delete 3%nat (setsTable (deselectSet Ex.editing).2) /\
    forall out,
      complete (catalog w') Ex.fuel (originalData w') = Ok out ->
      "7140-1" ∉ map ln_num out.
Proof.
  destruct (removeSet_selected Ex.fuel Ex.editing "7140-1" 3) as [_ H];
    [reflexivity | reflexivity | vm_compute; reflexivity |].
  apply (H (deselectSet Ex.editing).2). vm_compute. reflexivity.
Defined.

(** C3: with a quantity in the parts table that is not a number,
    removing the selected set raises ValueError in the flush; the set
    stays selected and its record stays in the store. *)
Lemma removeSet_selected_counterexample :
  selected Ex.mistyped = Some "7140-1" /\
  removeSet "7140-1" Ex.mistyped = (Raise ValueError, Ex.mistyped) /\
  Dict.get "7140-1" (originalData Ex.mistyped)
  = Some (Ex.stats 1 (Some 0) [("3001", 5, 2)] "box damaged").
Proof. repeat split; vm_compute; reflexivity. Qed.

(** ** [complete] and [getTheme] on the example collection *)

(** C1: the group of label Basic, whose main theme has the sort key 2,
    comes before the group of label Star Wars: Episode IV, whose main
    theme has the sort key 1. *)
Lemma complete_groups_counterexample :
  complete Ex.cat Ex.fuel Ex.two_themes = Ok (Ex.completed Ex.two_themes) /\
  map (fun x => (ln_num x, sortkey x, label x)) (Ex.completed Ex.two_themes)
  = [("9-1", 2, "Basic"); ("7140-1", 1, "Star Wars: Episode IV")] /\
  ~ Sorted (sortkey_then_label Z.lt) (Ex.completed Ex.two_themes).
Proof.
  split; [vm_compute; reflexivity|]. split; [vm_compute; reflexivity|].
  intros H. remember (Ex.completed Ex.two_themes) as out eqn:E.
  vm_compute in E. subst out.
  apply Sorted_inv in H as [_ H]. apply HdRel_inv in H.
  destruct H as [H|[H _]]; vm_compute in H; discriminate H.
Qed.

Lemma complete_groups_by_label_witness :
  (exists lines,
     rmap (complete_line Ex.cat Ex.fuel) Ex.data = Ok lines /\
     Ex.completed Ex.data ≡ₚ lines) /\
  StronglySorted (fun x y => text_le (label x) (label y))
    (Ex.completed Ex.data) /\
  (forall i j k x y z,
     (i < j < k)%nat ->
     Ex.completed Ex.data !! i = Some x ->
     Ex.completed Ex.data !! j = Some y ->
     Ex.completed Ex.data !! k = Some z ->
     label x = label z -> label y = label x).
Proof.
  apply (complete_groups_by_label Ex.cat Ex.fuel Ex.data).
  vm_compute. reflexivity.
Defined.

(** C4: box 10 of set 100 comes before its box 2, against the order of
    the pairs (100, 10) and (100, 2). *)
Lemma complete_rows_counterexample :
  complete Ex.cat Ex.fuel Ex.two_boxes = Ok (Ex.completed Ex.two_boxes) /\
  map ln_num (Ex.completed Ex.two_boxes) = ["100-10"; "100-2"] /\
  ~ Sorted number_pair_le (Ex.completed Ex.two_boxes).
Proof.
  split; [vm_compute; reflexivity|]. split; [vm_compute; reflexivity|].
  intros H. remember (Ex.completed Ex.two_boxes) as out eqn:E.
  vm_compute in E. subst out.
  apply Sorted_inv in H as [_ H]. apply HdRel_inv in H.
  destruct (H eq_refl) as (p & q & Hp & Hq & Hle).
  vm_compute in Hp, Hq. injection Hp as <-. injection Hq as <-.
  unfold pair_le in Hle. simpl in Hle. lia.
Qed.

Lemma complete_rows_by_float_witness :
  map ln_num (Ex.completed Ex.four_numbers) = ["9-1"; "10-1"; "70-1"; "100-1"]
  /\
  forall i j x y,
    (i < j)%nat ->
    Ex.completed Ex.four_numbers !! i = Some x ->
    Ex.completed Ex.four_numbers !! j = Some y ->
    label x = label y -> number_le x y.
Proof.
  split; [vm_compute; reflexivity|].
  apply (complete_rows_by_float Ex.cat Ex.fuel Ex.four_numbers).
  vm_compute. reflexivity.
Defined.

Lemma getTheme_chain_witness :
  getTheme Ex.cat Ex.fuel 18 = Ok (1, "Star Wars: Episode IV") /\
  ("Star Wars: Episode IV" = "Episode IV" \/
   exists front, "Star Wars: Episode IV" = front +:+ ": " +:+ "Episode IV").
Proof.
  apply (getTheme_chain Ex.cat 18 ["Episode IV"] ("Star Wars", 1) Ex.fuel).
  - apply chain_step with (parent := "2");
      [vm_compute; reflexivity | vm_compute; reflexivity |].
    apply chain_root. vm_compute. reflexivity.
  - unfold Ex.fuel. simpl. lia.
Defined.

(** ** [save] on the example collection *)

Lemma save_weight_never_zero_witness :
  (save Ex.loaded).1 = Ok (originalData (save Ex.loaded).2) /\
  forall k st,
    (k, st) ∈ originalData (save Ex.loaded).2 -> st_wgh st <> Some 0.
Proof.
  split; [vm_compute; reflexivity|].
  apply (save_weight_never_zero Ex.loaded (originalData (save Ex.loaded).2)
           (save Ex.loaded).2).
  - apply (bool_decide_unpack _). vm_compute. exact I.
  - intros k Hk. apply list_elem_of_In. apply list_elem_of_In in Hk.
    vm_compute in Hk. vm_compute. tauto.
  - vm_compute. reflexivity.
Defined.


(** * Further properties *)

(** ** [getTheme]: the three ways the loop can end *)

Section MoreThemeFacts.
Context {K : Type}.
Implicit Types cat : Catalog K.

Lemma getTheme_loop_closed cat (P : string -> Prop) :
  closed_under_parent cat P ->
  forall fuel thm ns, P thm -> getTheme_loop cat fuel thm ns = Raise Diverges.
Proof.
  intros HP. induction fuel as [|fuel IH]; intros thm ns Hthm; [done|].
  destruct (HP thm Hthm) as (Hm & n & parent & Ht & Hp).
  simpl. rewrite Hm, Ht. by apply IH.
Qed.

Lemma getTheme_loop_dangling cat thm :
  dangling cat thm ->
  exists k, forall fuel ns,
    (k < fuel)%nat -> getTheme_loop cat fuel thm ns = Raise KeyError.
Proof.
  induction 1 as [thm Hm Ht | thm n parent Hm Ht _ [k IH]].
  - exists 0%nat. intros [|fuel] ns Hf; [lia|]. simpl. by rewrite Hm, Ht.
  - exists (S k). intros [|fuel] ns Hf; [lia|]. simpl. rewrite Hm, Ht.
    apply IH. lia.
Qed.

Lemma getTheme_loop_Ok_inv cat fuel :
  forall thm ns c lbl,
    getTheme_loop cat fuel thm ns = Ok (c, lbl) ->
    exists names n,
      chain cat thm names (n, c) /\ (length names < fuel)%nat /\
      lbl = Py.join ": " (n :: rev names ++ ns).
Proof.
  induction fuel as [|fuel IH]; intros thm ns c lbl; simpl; [done|].
  destruct (mainThemes cat !! thm) as [[n c']|] eqn:Hm.
  - intros [= <- <-]. exists [], n. split; [by constructor|].
    split; [simpl; lia|done].
  - destruct (themes cat !! thm) as [[n parent]|] eqn:Ht; [|done].
    intros H. destruct (IH _ _ _ _ H) as (names & r & Hc & Hlen & ->).
    exists (n :: names), r. split; [by econstructor|].
    split; [simpl; lia|]. simpl. by rewrite <- app_assoc.
Qed.

(** X1: on a theme from which the parents never leave a set of themes
    that are no main themes (a theme that is its own ancestor, for one),
    the loop of [getTheme] has not returned after any number of passes. *)
Theorem getTheme_parent_cycle cat (P : string -> Prop) thm fuel :
  closed_under_parent cat P -> P (Py.str thm) ->
  getTheme cat fuel thm = Raise Diverges.
Proof. intros HP Hthm. by apply (getTheme_loop_closed cat P). Qed.

(** X2: when the parents lead to a theme that neither the main themes
    nor the themes hold, [getTheme] raises KeyError. *)
Theorem getTheme_dangling cat thm :
  dangling cat (Py.str thm) ->
  exists k, forall fuel,
    (k < fuel)%nat -> getTheme cat fuel thm = Raise KeyError.
Proof.
  intros H. destruct (getTheme_loop_dangling _ _ H) as [k Hk].
  exists k. intros fuel Hf. by apply Hk.
Qed.

(** X3: whatever [getTheme] returns comes from a chain of parents that
    ends in a main theme: the first component is the second field of
    that main theme, the label joins the names from the main theme down
    to the theme asked for. *)
Theorem getTheme_returns_chain cat fuel thm c lbl :
  getTheme cat fuel thm = Ok (c, lbl) ->
  exists names n,
    chain cat (Py.str thm) names (n, c) /\ (length names < fuel)%nat /\
    lbl = Py.join ": " (n :: rev names).
Proof.
  intros H. destruct (getTheme_loop_Ok_inv _ _ _ _ _ _ H)
    as (names & n & Hc & Hlen & ->).
  exists names, n. by rewrite app_nil_r.
Qed.

End MoreThemeFacts.

Lemma getTheme_parent_cycle_witness :
  getTheme Ex2.broken 1000 30 = Raise Diverges.
Proof.
  apply (getTheme_parent_cycle Ex2.broken (fun thm => thm = "30") 30 1000).
  - intros thm ->. split; [vm_compute; reflexivity|].
    exists "Loop", "30". split; [vm_compute; reflexivity | reflexivity].
  - vm_compute. reflexivity.
Defined.

Lemma getTheme_dangling_witness :
  exists k, forall fuel,
    (k < fuel)%nat -> getTheme Ex2.broken fuel 31 = Raise KeyError.
Proof.
  apply (getTheme_dangling Ex2.broken 31).
  apply dangling_step with (n := "Lost") (parent := "99");
    [vm_compute; reflexivity | vm_compute; reflexivity |].
  apply dangling_here; vm_compute; reflexivity.
Defined.

Lemma getTheme_returns_chain_witness :
  exists names n,
    chain Ex.cat (Py.str 18) names (n, 1) /\ (length names < Ex.fuel)%nat /\
    "Star Wars: Episode IV" = Py.join ": " (n :: rev names).
Proof.
  apply (getTheme_returns_chain Ex.cat Ex.fuel 18 1 "Star Wars: Episode IV").
  vm_compute. reflexivity.
Defined.

(** ** [complete]: what a return tells about the stats file *)

Section MoreCompleteFacts.
Context {K : Type}.
Implicit Types cat : Catalog K.

Lemma sorted_rows_readable (rows block : list (Line K)) :
  sorted_rows rows = Ok block ->
  Forall (fun x => exists k, readFloat (ln_num x) = Ok k) rows.
Proof.
  unfold sorted_rows.
  destruct (rmap _ rows) as [keyed|] eqn:Hkeyed; simpl; [|discriminate].
  intros _. apply rmap_Forall2 in Hkeyed.
  induction Hkeyed as [|x p rows keyed Hx _ IH]; constructor; [|done].
  destruct (readFloat (ln_num x)) as [k|]; [by exists k|discriminate].
Qed.

Lemma complete_concat_readable (gs : list (string * list (Line K))) acc out :
  complete_concat gs acc = Ok out ->
  Forall (fun x => exists k, readFloat (ln_num x) = Ok k) (lines_of gs).
Proof.
  revert acc. induction gs as [|[g rows] gs IH]; intros acc; simpl.
  - intros _. constructor.
  - destruct (sorted_rows rows) as [block|] eqn:Hb; simpl; [|discriminate].
    intros H. unfold lines_of. simpl. apply Forall_app. split.
    + by eapply sorted_rows_readable.
    + by eapply IH.
Qed.

Lemma complete_line_Ok_inv cat fuel num st line :
  complete_line cat fuel (num, st) = Ok line ->
  exists e th,
    sets cat !! num = Some e /\ getTheme cat fuel (set_thm e) = Ok th /\
    ln_num line = num /\ ln_th line = th /\
    ln_qty line = st_qty st /\ ln_bx line = st_bx st /\
    ln_ins line = st_ins st /\ ln_wgh line = weight_or_blank (st_wgh st).
Proof.
  unfold complete_line.
  destruct (sets cat !! num) as [e|] eqn:He; simpl; [|discriminate].
  destruct (getTheme cat fuel (set_thm e)) as [th|] eqn:Hth; simpl;
    [|discriminate].
  intros [= <-]. exists e, th. simpl. by rewrite Hth.
Qed.

(** X4: [complete] returns only when every set number of the stats file
    is in the catalog, the chain of its theme ends in a main theme, and
    the number reads as a float; it then returns one line for each
    entry. *)
Theorem complete_returns_only_if cat fuel data out :
  complete cat fuel data = Ok out ->
  length out = length data /\
  forall num st,
    (num, st) ∈ data ->
    (exists e th,
       sets cat !! num = Some e /\ getTheme cat fuel (set_thm e) = Ok th) /\
    (exists x, readFloat num = Ok x).
Proof.
  intros H.
  destruct (complete_sorted _ _ _ _ H) as (_ & lines & Hlines & Hperm).
  apply rmap_Forall2 in Hlines. split.
  - rewrite Hperm. symmetry. by eapply Forall2_length.
  - intros num st Hin.
    apply list_elem_of_lookup_1 in Hin as [i Hi].
    destruct (Forall2_lookup_l _ _ _ _ _ Hlines Hi) as (line & Hline & Hok).
    destruct (complete_line_Ok_inv _ _ _ _ _ Hok)
      as (e & th & He & Hth & Hnum & _).
    split; [by exists e, th|].
    assert (line ∈ out) as Hout.
    { rewrite Hperm. by eapply list_elem_of_lookup_2. }
    unfold complete in H.
    destruct (complete_group cat fuel data []) as [thms|] eqn:Hg;
      simpl in H; [|discriminate].
    pose proof (complete_concat_readable _ _ _ H) as Hr.
    destruct (complete_concat_spec _ _ _ H) as (blocks & -> & Hb).
    assert (concat blocks ≡ₚ lines_of (sorted String.ltb fst thms)) as Hp.
    { clear -Hb. induction Hb as [|g block gs blocks Hg _ IH]; [done|].
      unfold lines_of. simpl. apply sorted_rows_spec in Hg as [Hg _].
      by rewrite Hg, IH. }
    rewrite <- Hp in Hr. rewrite Forall_forall in Hr.
    destruct (Hr line Hout) as [x Hx]. exists x. by rewrite <- Hnum.
Qed.

End MoreCompleteFacts.

Lemma complete_returns_only_if_witness :
  length (Ex.completed Ex.data) = length Ex.data /\
  forall num st,
    (num, st) ∈ Ex.data ->
    (exists e th,
       sets Ex.cat !! num = Some e /\
       getTheme Ex.cat Ex.fuel (set_thm e) = Ok th) /\
    (exists x, readFloat num = Ok x).
Proof.
  apply (complete_returns_only_if Ex.cat Ex.fuel Ex.data).
  vm_compute. reflexivity.
Defined.

(** ** [IntTableWidgetItem.__lt__] *)

Lemma IntTableWidgetItem_lt_Ok_inv a b r :
  IntTableWidgetItem_lt a b = Ok r ->
  exists x y,
    readFloat a = Ok x /\ readFloat b = Ok y /\ r = Py.flt x y /\
    is_nan x = false /\ is_nan y = false.
Proof.
  unfold IntTableWidgetItem_lt.
  destruct (readFloat a) as [x|] eqn:Ha; simpl; [|discriminate].
  destruct (readFloat b) as [y|] eqn:Hb; simpl; [|discriminate].
  intros [= <-]. exists x, y. repeat split; by eapply float_of_not_nan.
Qed.

Lemma rank_lt_trans a b c : rank_lt a b -> rank_lt b c -> rank_lt a c.
Proof. unfold rank_lt. lia. Qed.

(** X5: on the texts that it can compare, [__lt__] is a strict order:
    no item is below itself, two items are not below each other, and an
    item below a second that is below a third is below the third. *)
Theorem IntTableWidgetItem_lt_strict a b c :
  IntTableWidgetItem_lt a a <> Ok true /\
  (IntTableWidgetItem_lt a b = Ok true ->
   IntTableWidgetItem_lt b a = Ok false) /\
  (IntTableWidgetItem_lt a b = Ok true ->
   IntTableWidgetItem_lt b c = Ok true ->
   IntTableWidgetItem_lt a c = Ok true).
Proof.
  split; [|split].
  - intros H. apply IntTableWidgetItem_lt_Ok_inv in H
      as (x & y & Hx & Hy & H & _). rewrite Hx in Hy. injection Hy as <-.
    symmetry in H. apply flt_asym in H as H'. congruence.
  - intros H. apply IntTableWidgetItem_lt_Ok_inv in H
      as (x & y & Hx & Hy & H & _). symmetry in H. apply flt_asym in H.
    unfold IntTableWidgetItem_lt. rewrite Hx, Hy. simpl. by rewrite H.
  - intros H1 H2.
    apply IntTableWidgetItem_lt_Ok_inv in H1
      as (x & y & Hx & Hy & H1 & Hnx & Hny).
    apply IntTableWidgetItem_lt_Ok_inv in H2
      as (y' & z & Hy' & Hz & H2 & _ & Hnz).
    rewrite Hy in Hy'. injection Hy' as <-.
    unfold IntTableWidgetItem_lt. rewrite Hx, Hz. simpl. f_equal.
    symmetry in H1, H2.
    apply flt_rank in H1; [|done..]. apply flt_rank in H2; [|done..].
    apply flt_rank; [done..|]. by eapply rank_lt_trans.
Qed.

Lemma IntTableWidgetItem_lt_strict_witness :
  IntTableWidgetItem_lt "9-1" "10-1" = Ok true /\
  IntTableWidgetItem_lt "10-1" "70-1" = Ok true /\
  IntTableWidgetItem_lt "10-1" "9-1" = Ok false /\
  IntTableWidgetItem_lt "9-1" "70-1" = Ok true.
Proof.
  destruct (IntTableWidgetItem_lt_strict "9-1" "10-1" "70-1")
    as (_ & Hasym & Htrans).
  assert (IntTableWidgetItem_lt "9-1" "10-1" = Ok true) as H1
    by (vm_compute; reflexivity).
  assert (IntTableWidgetItem_lt "10-1" "70-1" = Ok true) as H2
    by (vm_compute; reflexivity).
  split; [exact H1|]. split; [exact H2|].
  split; [exact (Hasym H1) | exact (Htrans H1 H2)].
Defined.

(** X6: the weight item of a line that [complete] made for a record
    without weight has the empty text, which [readFloat] does not read:
    [__lt__] raises ValueError when that item is on the left, and
    raises as well when it is on the right. *)
Theorem IntTableWidgetItem_lt_blank_weight {K} (cat : Catalog K) fuel num st
    line other :
  complete_line cat fuel (num, st) = Ok line ->
  st_wgh st = None \/ st_wgh st = Some 0 ->
  IntTableWidgetItem_lt (it7 (addSetRow line)) other = Raise ValueError /\
  exists e, IntTableWidgetItem_lt other (it7 (addSetRow line)) = Raise e.
Proof.
  intros Hline Hw.
  destruct (complete_line_Ok_inv _ _ _ _ _ Hline)
    as (e & th & _ & _ & _ & _ & _ & _ & _ & Hwgh).
  assert (it7 (addSetRow line) = "") as ->.
  { simpl. rewrite Hwgh. by destruct Hw as [-> | ->]. }
  split; [done|]. unfold IntTableWidgetItem_lt.
  destruct (readFloat other) as [x|e']; simpl; eauto.
Qed.

Lemma IntTableWidgetItem_lt_blank_weight_witness :
  IntTableWidgetItem_lt "" "450" = Raise ValueError /\
  exists e, IntTableWidgetItem_lt "450" "" = Raise e.
Proof.
  apply (IntTableWidgetItem_lt_blank_weight Ex.cat Ex.fuel "100-2"
           (Ex.stats 1 None [] "")
           (match complete_line Ex.cat Ex.fuel
                    ("100-2", Ex.stats 1 None [] "") with
            | Ok line => line
            | Raise _ =>
                {| ln_num := ""; ln_name := ""; ln_th := (0, "");
                   ln_qty := 0; ln_bx := 0; ln_ins := 0; ln_prts := 0;
                   ln_wgh := WNone; ln_mprts := 0; ln_mfigs := 0;
                   ln_nts := 0 |}
            end) "450").
  - vm_compute. reflexivity.
  - left. reflexivity.
Defined.

(** ** The methods: failures, frames and leftovers *)

Section MoreMethodFacts.
Context {K : Type}.
Implicit Types w : Window K.

Lemma find_row_None number (rows : list SetsRow) :
  find_row number rows = None -> Forall (fun r => it0 r <> number) rows.
Proof.
  induction rows as [|r rows IH]; simpl; [constructor|].
  destruct (String.eqb_spec (it0 r) number) as [|Hne]; [discriminate|].
  destruct (find_row number rows); [discriminate|]. intros _.
  constructor; auto.
Qed.

Lemma last_alter {A} (f : A -> A) (l : list A) :
  last (alter f (length l - 1)%nat l) = f <$> last l.
Proof.
  rewrite !last_lookup, length_alter, Nat.sub_1_r.
  apply list_lookup_alter_eq.
Qed.

(** X7: when a row of the parts table cannot be read back (a colour
    name that is no colour, a quantity that is no int), [deselectSet]
    raises before it has written anything: the window is as it was. *)
Theorem deselectSet_parts_error w key ref e :
  selected w = Some key ->
  Dict.get key (originalData w) = Some ref ->
  rmap (read_part (colors w)) (partsTable w) = Raise e ->
  deselectSet w = (Raise e, w).
Proof.
  intros Hsel Hget Hp. unfold deselectSet. run.
  rewrite Hsel. unfold Dict.item. rewrite Hget. run. by rewrite Hp.
Qed.

(** X8: when the parts are read but a row of the figures table is not,
    [deselectSet] raises with the parts already stored and the parts
    table already cleared, the set still selected and the figures and
    notes still in place; a flush that succeeds later, whatever the
    figures table then holds, stores an empty list of missing parts. *)
Theorem deselectSet_figs_error w key ref parts e :
  selected w = Some key ->
  Dict.get key (originalData w) = Some ref ->
  rmap (read_part (colors w)) (partsTable w) = Ok parts ->
  rmap read_fig (figsTable w) = Raise e ->
  exists w1,
    deselectSet w = (Raise e, w1) /\
    w1 = with_partsTable []
           (with_originalData
              (Dict.set key (set_mprts parts ref) (originalData w)) w) /\
    forall t w2,
      deselectSet (with_figsTable t w1) = (Ok tt, w2) ->
      exists ref2,
        Dict.get key (originalData w2) = Some ref2 /\ st_mprts ref2 = [].
Proof.
  intros Hsel Hget Hp Hf. eexists. split; [|split; [reflexivity|]].
  - unfold deselectSet, assign. run.
    rewrite Hsel. unfold Dict.item. rewrite Hget. run. rewrite Hp. run.
    rewrite Hget. run. by rewrite Hf.
  - intros t w2 Hd.
    destruct (deselectSet_Ok_inv _ _ Hd)
      as (key' & ref' & parts' & figs' & lasty & Hsel' & _ & Hp' & _ & _ & ->).
    run. rewrite Hsel in Hsel'. injection Hsel' as <-.
    injection Hp' as <-. eexists. split; [apply Dict_get_set_eq|done].
Qed.

(** X9: a flush that succeeds writes to one record and one row only:
    the keys of the store and their order stay, every other record
    stays, the record of the selected set keeps its first four fields,
    every row keeps its first eight items, and all rows but one stay as
    they are. *)
Theorem deselectSet_frame w w1 key :
  selected w = Some key ->
  deselectSet w = (Ok tt, w1) ->
  Dict.keys (originalData w1) = Dict.keys (originalData w) /\
  (forall k, k <> key ->
     Dict.get k (originalData w1) = Dict.get k (originalData w)) /\
  (exists ref ref1,
     Dict.get key (originalData w) = Some ref /\
     Dict.get key (originalData w1) = Some ref1 /\
     (st_qty ref1, st_bx ref1, st_ins ref1, st_wgh ref1)
     = (st_qty ref, st_bx ref, st_ins ref, st_wgh ref)) /\
  map (fun r => (it0 r, it1 r, it2 r, it3 r, it4 r, it5 r, it6 r, it7 r))
    (setsTable w1)
  = map (fun r => (it0 r, it1 r, it2 r, it3 r, it4 r, it5 r, it6 r, it7 r))
      (setsTable w) /\
  exists lasty, forall y,
    y <> lasty -> setsTable w1 !! y = setsTable w !! y.
Proof.
  intros Hsel Hd.
  destruct (deselectSet_Ok_inv _ _ Hd)
    as (key' & ref & parts & figs & lasty & Hsel' & Hget & _ & _ & _ & ->).
  rewrite Hsel in Hsel'. injection Hsel' as <-. run.
  split; [|split; [|split; [|split]]].
  - apply Dict_keys_set_present. by rewrite Hget.
  - intros k Hk. by apply Dict_get_set_ne.
  - exists ref. eexists. split; [done|]. split; [apply Dict_get_set_eq|done].
  - clear. generalize (setsTable w). intros rows. revert lasty.
    induction rows as [|r rows IH]; intros [|y]; simpl; f_equal; auto.
    apply IH.
  - exists lasty. intros y Hy. by apply list_lookup_alter_ne.
Qed.

(** X10: when no row carries the selected number, the search loop of
    [deselectSet] ends on the last row, and the totals of the flushed
    record are written into that row, which belongs to another set. *)
Theorem deselectSet_overwrites_last_row w w1 key :
  selected w = Some key ->
  find_row key (setsTable w) = None ->
  deselectSet w = (Ok tt, w1) ->
  exists ref row,
    Dict.get key (originalData w1) = Some ref /\
    last (setsTable w1) = Some row /\
    it0 row <> key /\
    it8 row = Py.str (sum_parts (st_mprts ref)) /\
    it9 row = Py.str (sum_figs (st_mfigs ref)) /\
    it10 row = Py.str (Z.of_nat (length (Py.splitlines (st_nts ref)))).
Proof.
  intros Hsel Hrow Hd.
  destruct (deselectSet_Ok_inv _ _ Hd)
    as (key' & ref & parts & figs & lasty & Hsel' & Hget & _ & _ & Hl & ->).
  rewrite Hsel in Hsel'. injection Hsel' as <-. run.
  unfold find_lasty in Hl. rewrite Hrow in Hl.
  assert (lasty = (length (setsTable w) - 1)%nat /\ setsTable w <> [])
    as [-> Hne].
  { destruct (setsTable w); [discriminate|]. by injection Hl as <-. }
  rewrite last_alter. apply find_row_None in Hrow.
  destruct (last (setsTable w)) as [r|] eqn:Hlast.
  - eexists. exists (refreshed parts figs (notesArea w) r).
    split; [apply Dict_get_set_eq|]. split; [done|].
    split; [|done]. rewrite refreshed_it0.
    rewrite Forall_forall in Hrow. apply Hrow.
    by apply last_Some_elem_of.
  - by apply last_None in Hlast.
Qed.

(** X11: [addSet] with a number that the catalog does not hold returns
    without a record, a row or an exception: the store, the tables and
    the selection are as they were. *)
Theorem addSet_unknown_number fuel wgh text w :
  sets (catalog w) !! with_variant text = None ->
  addSet fuel wgh text w = (Ok tt, w).
Proof.
  intros H. unfold addSet, getSet. run. by rewrite H.
Qed.

(** X12: when no row carries the number, [removeSet] does what
    [deselectSet] does and nothing more. *)
Theorem removeSet_not_displayed text w :
  find_row (with_variant text) (setsTable w) = None ->
  removeSet text w = deselectSet w.
Proof.
  intros Hrow. unfold removeSet.
  destruct (deselectSet w) as [[[]|e] w1] eqn:Hd.
  - rewrite (bind_Ok _ _ _ _ _ Hd). run.
    destruct (deselectSet_Ok_inv _ _ Hd)
      as (key & ref & parts & figs & lasty & _ & _ & _ & _ & _ & ->).
    run. rewrite find_row_alter by apply refreshed_it0. by rewrite Hrow.
  - by rewrite (bind_Raise _ _ _ _ _ Hd).
Qed.

End MoreMethodFacts.

Lemma deselectSet_parts_error_witness :
  deselectSet Ex.mistyped = (Raise ValueError, Ex.mistyped).
Proof.
  apply (deselectSet_parts_error Ex.mistyped "7140-1"
           (Ex.stats 1 (Some 0) [("3001", 5, 2)] "box damaged") ValueError);
    vm_compute; reflexivity.
Defined.

Lemma deselectSet_figs_error_witness :
  exists w1,
    deselectSet Ex2.bad_fig = (Raise ValueError, w1) /\
    w1 = with_partsTable []
           (with_originalData
              (Dict.set "7140-1"
                 (set_mprts [("3001", 5, 2); ("3002", 11, 1)]
                    (Ex.stats 1 (Some 0) [("3001", 5, 2)] "box damaged"))
                 (originalData Ex2.bad_fig)) Ex2.bad_fig) /\
    forall t w2,
      deselectSet (with_figsTable t w1) = (Ok tt, w2) ->
      exists ref2,
        Dict.get "7140-1" (originalData w2) = Some ref2 /\ st_mprts ref2 = [].
Proof.
  apply (deselectSet_figs_error Ex2.bad_fig "7140-1"
           (Ex.stats 1 (Some 0) [("3001", 5, 2)] "box damaged")
           [("3001", 5, 2); ("3002", 11, 1)] ValueError);
    vm_compute; reflexivity.
Defined.

Lemma deselectSet_frame_witness :
  Dict.keys (originalData (deselectSet Ex.editing).2)
  = Dict.keys (originalData Ex.editing) /\
  exists lasty, forall y,
    y <> lasty ->
    setsTable (deselectSet Ex.editing).2 !! y = setsTable Ex.editing !! y.
Proof.
  destruct (deselectSet_frame Ex.editing (deselectSet Ex.editing).2 "7140-1")
    as (Hk & _ & _ & _ & Hl); [reflexivity | vm_compute; reflexivity |].
  split; assumption.
Defined.

Lemma deselectSet_overwrites_last_row_witness :
  exists ref row,
    Dict.get "7140-1" (originalData (deselectSet Ex2.no_row).2) = Some ref /\
    last (setsTable (deselectSet Ex2.no_row).2) = Some row /\
    it0 row <> "7140-1" /\
    it8 row = Py.str (sum_parts (st_mprts ref)) /\
    it9 row = Py.str (sum_figs (st_mfigs ref)) /\
    it10 row = Py.str (Z.of_nat (length (Py.splitlines (st_nts ref)))).
Proof.
  apply (deselectSet_overwrites_last_row Ex2.no_row
           (deselectSet Ex2.no_row).2 "7140-1");
    vm_compute; reflexivity.
Defined.

Lemma addSet_unknown_number_witness :
  addSet Ex.fuel (Some 420) "999" Ex.loaded = (Ok tt, Ex.loaded).
Proof.
  apply (addSet_unknown_number Ex.fuel (Some 420) "999" Ex.loaded).
  vm_compute. reflexivity.
Defined.

Lemma removeSet_not_displayed_witness :
  removeSet "999" Ex.editing = deselectSet Ex.editing.
Proof.
  apply (removeSet_not_displayed "999" Ex.editing). vm_compute. reflexivity.
Defined.

(** ** What the methods leave for [save] and for the status bar *)

Section MoreSaveFacts.
Context {K : Type}.
Implicit Types w : Window K.

Lemma save_rows_weights rows w w' :
  save_rows rows w = (Ok tt, w') ->
  Forall (fun r => exists z, int_or_0 (it7 r) = Ok z) rows.
Proof.
  revert w. induction rows as [|r rows IH]; intros w; simpl; [constructor|].
  unfold bind at 1. destruct (save_row r w) as [[[]|e] w1] eqn:Hr;
    [|discriminate].
  intros Hrows. constructor; [|by eapply IH].
  destruct (save_row_Ok_inv _ _ _ Hr) as (_ & _ & _ & _ & wgh & _ & Hw & _).
  by exists wgh.
Qed.

Lemma map_it7_alter_refreshed parts figs notes y (rows : list SetsRow) :
  map it7 (alter (refreshed parts figs notes) y rows) = map it7 rows.
Proof.
  revert y. induction rows as [|r rows IH]; intros [|y]; simpl; f_equal; auto.
  apply IH.
Qed.

Lemma save_Ok_weights w out w' :
  save w = (Ok out, w') ->
  Forall (fun t => exists z, int_or_0 t = Ok z) (map it7 (setsTable w)).
Proof.
  unfold save. run. intros Hsave.
  assert (exists w1,
    map it7 (setsTable w1) = map it7 (setsTable w) /\
    exists r w2, save_rows (setsTable w1) w1 = (Ok r, w2))
    as (w1 & <- & [] & w2 & Hrows).
  { destruct (truthy (selected w)).
    - destruct (deselectSet w) as [[[]|e] w1] eqn:Hd; [|discriminate].
      exists w1.
      destruct (deselectSet_Ok_inv _ _ Hd)
        as (key & ref & parts & figs & lasty & _ & _ & _ & _ & _ & Hw1).
      split; [rewrite Hw1; apply map_it7_alter_refreshed|].
      destruct (save_rows (setsTable w1) w1) as [[[]|e] w2]; [|discriminate].
      by exists tt, w2.
    - exists w. split; [done|].
      destruct (save_rows (setsTable w) w) as [[[]|e] w2]; [|discriminate].
      by exists tt, w2. }
  apply Forall_fmap. by eapply save_rows_weights.
Qed.

(** X13: [addSet] writes the text None into the weight item of the row
    of a set whose weight was not found, and [save] reads that item as
    an int: once such a row is in the table, [save] does not return. *)
Theorem addSet_no_weight_blocks_save fuel text w w1 e :
  sets (catalog w) !! with_variant text = Some e ->
  addSet fuel None text w = (Ok tt, w1) ->
  "None" ∈ map it7 (setsTable w1) /\
  forall out w2, save w1 <> (Ok out, w2).
Proof.
  intros He Hadd.
  assert ("None" ∈ map it7 (setsTable w1)) as Hin.
  { unfold addSet, getSet in Hadd. run. rewrite He in Hadd. run.
    destruct (getTheme (catalog w) fuel (set_thm e)) as [th|]; run;
      [|discriminate].
    injection Hadd as <-. run. rewrite map_app, elem_of_app. right.
    apply list_elem_of_singleton. reflexivity. }
  split; [done|]. intros out w2 Hsave.
  apply save_Ok_weights in Hsave. rewrite Forall_forall in Hsave.
  destruct (Hsave _ Hin) as [z Hz]. vm_compute in Hz. discriminate.
Qed.

Lemma bind_loaded_part {A B} (m : M K A) (k : A -> M K B) w :
  (forall w, loaded_part (m w).2 = loaded_part w) ->
  (forall a w, loaded_part (k a w).2 = loaded_part w) ->
  loaded_part (bind m k w).2 = loaded_part w.
Proof.
  intros Hm Hk. unfold bind. specialize (Hm w).
  destruct (m w) as [[a|e] w1]; simpl in *; [|done].
  by rewrite Hk.
Qed.

Lemma assign_loaded_part key f w :
  loaded_part (assign (K := K) key f w).2 = loaded_part w.
Proof.
  unfold assign, modify. simpl. by destruct (Dict.get key (originalData w)).
Qed.

Lemma deselectSet_loaded_part w :
  loaded_part (deselectSet w).2 = loaded_part w.
Proof.
  unfold deselectSet.
  repeat first
    [ apply bind_loaded_part; [clear w; intros w | clear w; intros ? w]
    | apply assign_loaded_part
    | reflexivity
    | match goal with |- context [if ?b then _ else _] => destruct b end ].
Qed.

Lemma save_rows_loaded_part rows w :
  loaded_part (save_rows rows w).2 = loaded_part w.
Proof.
  revert w. induction rows as [|r rows IH]; intros w; [done|].
  simpl. apply bind_loaded_part; [clear w; intros w | by intros _].
  unfold save_row.
  repeat first
    [ apply bind_loaded_part; [clear w; intros w | clear w; intros ? w]
    | apply assign_loaded_part
    | reflexivity ].
Qed.

Lemma addSet_loaded_part fuel wgh text w :
  loaded_part (addSet fuel wgh text w).2 = loaded_part w.
Proof.
  unfold addSet, getSet.
  apply bind_loaded_part; [clear w; intros w | clear w; intros [line|] w];
    [|done..].
  apply bind_loaded_part; [done|]. clear w. intros w0 w.
  destruct (sets (catalog w0) !! with_variant text); [|done].
  repeat first
    [ apply bind_loaded_part; [clear w; intros w | clear w; intros ? w]
    | reflexivity ].
Qed.

Lemma removeSet_loaded_part text w :
  loaded_part (removeSet text w).2 = loaded_part w.
Proof.
  unfold removeSet.
  apply bind_loaded_part; [apply deselectSet_loaded_part|].
  clear w. intros _ w. apply bind_loaded_part; [done|].
  clear w. intros w0 w.
  destruct (find_row (with_variant text) (setsTable w0)); [|done].
  repeat first
    [ apply bind_loaded_part; [clear w; intros w | clear w; intros ? w]
    | reflexivity ].
Qed.

Lemma save_loaded_part w : loaded_part (save w).2 = loaded_part w.
Proof.
  unfold save. apply bind_loaded_part; [done|]. clear w. intros w0 w.
  apply bind_loaded_part.
  { clear w. intros w. destruct (truthy (selected w0)); [|done].
    apply deselectSet_loaded_part. }
  clear w. intros _ w. apply bind_loaded_part; [done|].
  clear w. intros w1 w. apply bind_loaded_part.
  { intros w2. apply save_rows_loaded_part. }
  clear w. intros _ w. by apply bind_loaded_part.
Qed.

(** X14: whether they return or raise, [deselectSet], [addSet],
    [removeSet] and [save] leave the catalog, the colours and
    [completeData] as [__init__] set them; the totals that
    [updateStatusBar] computes from [completeData] are therefore the
    ones of the start, whatever was added, removed or edited. *)
Theorem methods_keep_loaded_part fuel wgh text w :
  loaded_part (deselectSet w).2 = loaded_part w /\
  loaded_part (addSet fuel wgh text w).2 = loaded_part w /\
  loaded_part (removeSet text w).2 = loaded_part w /\
  loaded_part (save w).2 = loaded_part w /\
  forall w',
    w' ∈ [(deselectSet w).2; (addSet fuel wgh text w).2;
          (removeSet text w).2; (save w).2] ->
    updateStatusBar (completeData w') = updateStatusBar (completeData w).
Proof.
  pose proof (deselectSet_loaded_part w) as Hdes.
  pose proof (addSet_loaded_part fuel wgh text w) as Hadd.
  pose proof (removeSet_loaded_part text w) as Hrem.
  pose proof (save_loaded_part w) as Hsave.
  repeat split; try done.
  intros w' Hw'. assert (loaded_part w' = loaded_part w) as Hlp.
  { rewrite !elem_of_cons in Hw'.
    destruct Hw' as [-> | [-> | [-> | [-> | Hw']]]]; try done.
    by apply elem_of_nil in Hw'. }
  unfold loaded_part in Hlp. by injection Hlp as _ _ ->.
Qed.

Lemma Dict_keys_set {V} (d : Dict.t V) k v :
  Dict.keys (Dict.set k v d)
  = match Dict.get k d with
    | Some _ => Dict.keys d
    | None => (Dict.keys d ++ [k])%list
    end.
Proof.
  destruct (Dict.get k d) as [v'|] eqn:Hget.
  - apply Dict_keys_set_present. by rewrite Hget.
  - destruct (Dict_get_None_set _ _ Hget) as [_ ->].
    unfold Dict.keys. by rewrite map_app.
Qed.

Lemma Dict_keys_fold_set {V} (data : list (string * V)) (d : Dict.t V) :
  NoDup (Dict.keys d) ->
  NoDup (Dict.keys (fold_left (fun d r => Dict.set r.1 r.2 d) data d)) /\
  forall k,
    k ∈ Dict.keys (fold_left (fun d r => Dict.set r.1 r.2 d) data d) <->
    k ∈ Dict.keys d \/ k ∈ map fst data.
Proof.
  revert d. induction data as [|[k0 v0] data IH]; intros d Hnd; simpl.
  - split; [done|]. intros k. rewrite elem_of_nil. tauto.
  - assert (NoDup (Dict.keys (Dict.set k0 v0 d)) /\
            forall k, k ∈ Dict.keys (Dict.set k0 v0 d) <->
                      k ∈ Dict.keys d \/ k = k0) as [Hnd' Hk'].
    { rewrite Dict_keys_set.
      destruct (Dict.get k0 d) as [v'|] eqn:Hget.
      - split; [done|]. intros k. split; [by left|].
        intros [Hk | ->]; [done|]. by eapply Dict_get_Some_keys.
      - destruct (Dict_get_None_set _ _ Hget) as [Hnin _]. split.
        + apply NoDup_app. split; [done|]. split; [|apply NoDup_singleton].
          intros k Hk ->%list_elem_of_singleton. done.
        + intros k. rewrite elem_of_app, list_elem_of_singleton. done. }
    destruct (IH _ Hnd') as [Hnd'' Hk'']. split; [done|].
    intros k. rewrite Hk'', Hk', elem_of_cons. simpl. tauto.
Qed.

(** X15: [__init__] leaves a store without two records of one number,
    a table that shows exactly the numbers of the store, nothing
    selected and empty detail tables. *)
Theorem init_rows_and_records (cat : Catalog K) cols fuel data w :
  init cat cols fuel data = Ok w ->
  NoDup (Dict.keys (originalData w)) /\
  (forall k, k ∈ Dict.keys (originalData w) <-> k ∈ map it0 (setsTable w)) /\
  length (setsTable w) = length data /\
  selected w = None /\
  partsTable w = [] /\ figsTable w = [] /\ notesArea w = "".
Proof.
  unfold init.
  destruct (complete cat fuel data) as [lines|] eqn:Hc; simpl; [|discriminate].
  destruct (updateStatusBar lines) as [bar|]; simpl; [|discriminate].
  intros [= <-]. simpl.
  destruct (Dict_keys_fold_set data [] (NoDup_nil_2)) as [Hnd Hk].
  split; [done|].
  destruct (complete_sorted _ _ _ _ Hc) as (_ & lines0 & Hl0 & Hperm).
  apply rmap_Forall2 in Hl0.
  assert (map ln_num lines0 = map fst data) as Hnums.
  { clear -Hl0. induction Hl0 as [|entry line data lines0 Hline _ IH]; [done|].
    simpl. f_equal; [|done]. by eapply complete_line_num. }
  split; [|split].
  - intros k. rewrite Hk. rewrite map_map. simpl.
    change (map (fun x => ln_num x) lines) with (map ln_num lines).
    rewrite Hperm, Hnums. unfold Dict.keys. simpl. rewrite elem_of_nil.
    tauto.
  - rewrite length_map, Hperm. symmetry. by eapply Forall2_length.
  - done.
Qed.

(** X16: completing a number with the variant 1 a second time changes
    nothing, so [addSet] and [removeSet] take the number of a row as it
    is shown whenever that number was made by [addSet]. *)
Theorem with_variant_idempotent text :
  with_variant (with_variant text) = with_variant text /\
  Py.contains "-" (with_variant text) = true.
Proof.
  assert (Py.contains "-" (with_variant text) = true) as H.
  { unfold with_variant. destruct (Py.contains "-" text) eqn:E; [done|].
    unfold Py.contains. rewrite chars_app, existsb_app.
    apply orb_true_r. }
  split; [|done]. unfold with_variant at 1. by rewrite H.
Qed.

End MoreSaveFacts.

Lemma addSet_no_weight_blocks_save_witness :
  "None" ∈ map it7 (setsTable (addSet Ex.fuel None "70" Ex.loaded).2) /\
  forall out w2, save (addSet Ex.fuel None "70" Ex.loaded).2 <> (Ok out, w2).
Proof.
  apply (addSet_no_weight_blocks_save Ex.fuel "70" Ex.loaded
           (addSet Ex.fuel None "70" Ex.loaded).2
           {| set_name := "Bricks"; set_year := None; set_thm := 5;
              set_prts := 20 |});
    vm_compute; reflexivity.
Defined.

Lemma init_rows_and_records_witness :
  NoDup (Dict.keys (originalData Ex.loaded)) /\
  (forall k,
     k ∈ Dict.keys (originalData Ex.loaded) <->
     k ∈ map it0 (setsTable Ex.loaded)) /\
  length (setsTable Ex.loaded) = length Ex.data /\
  selected Ex.loaded = None /\
  partsTable Ex.loaded = [] /\ figsTable Ex.loaded = [] /\
  notesArea Ex.loaded = "".
Proof.
  apply (init_rows_and_records Ex.cat Ex.colours Ex.fuel Ex.data Ex.loaded).
  vm_compute. reflexivity.
Defined.

(** ** The detail tables, the searches and the status bar *)

Section MoreTableFacts.
Context {K : Type}.
Implicit Types w : Window K.

Lemma find_number_lt {A} (num : A -> string) k (l : list A) i :
  find_number num k l = Some i -> (i < length l)%nat.
Proof.
  revert i. induction l as [|x l IH]; intros i; simpl; [done|].
  destruct (String.eqb (num x) k); [intros [= <-]; lia|].
  destruct (find_number num k l) as [j|]; [|done].
  intros [= <-]. specialize (IH _ eq_refl). lia.
Qed.

Lemma find_number_app_Some {A} (num : A -> string) k (l l' : list A) i :
  find_number num k l = Some i -> find_number num k (l ++ l')%list = Some i.
Proof.
  revert i. induction l as [|x l IH]; intros i; simpl; [done|].
  destruct (String.eqb (num x) k); [done|].
  destruct (find_number num k l) as [j|]; [|done].
  intros [= <-]. by rewrite (IH _ eq_refl).
Qed.

Lemma find_number_app_None {A} (num : A -> string) k (l : list A) x :
  find_number num k l = None -> num x = k ->
  find_number num k (l ++ [x])%list = Some (length l).
Proof.
  intros Hl Hx. induction l as [|y l IH]; simpl in *.
  - by rewrite Hx, String.eqb_refl.
  - destruct (String.eqb (num y) k); [done|].
    destruct (find_number num k l) as [j|]; [done|]. by rewrite IH.
Qed.

Lemma delete_snoc {A} (l : list A) x : delete (length l) (l ++ [x])%list = l.
Proof. induction l as [|y l IH]; simpl; [done|]. by rewrite IH. Qed.

Lemma delete_app_lt {A} (l l' : list A) i :
  (i < length l)%nat -> delete i (l ++ l')%list = (delete i l ++ l')%list.
Proof.
  revert i. induction l as [|y l IH]; intros [|i]; simpl; try lia; [done|].
  intros Hi. rewrite IH; [done|lia].
Qed.

(** X17: [addPart] puts a row of colour 11 and quantity 1 last, and
    [removePart] takes the first row of the number away: adding a part
    and removing it again gives the table back when no row had the
    number, and else leaves the new row in place of the oldest one. *)
Theorem addPart_then_removePart text w w1 :
  addPart text w = Ok w1 ->
  (exists row,
     partsTable w1 = (partsTable w ++ [row])%list /\
     row.1.1 = text /\ row.2 = "1") /\
  (find_number (fun r => r.1.1) text (partsTable w) = None ->
   removePart text w1 = w) /\
  (forall i,
     find_number (fun r => r.1.1) text (partsTable w) = Some i ->
     exists row,
       partsTable (removePart text w1)
       = (delete i (partsTable w) ++ [row])%list).
Proof.
  unfold addPart, addPartRow.
  destruct (ColorDialog_get_id (colors w) 11) as [c|]; simpl; [|discriminate].
  intros [= <-]. split; [by eexists|]. split.
  - intros Hnone. unfold removePart. run.
    rewrite (find_number_app_None _ _ _ _ Hnone) by done.
    run. rewrite delete_snoc. by apply Window_ext.
  - intros i Hi. eexists. unfold removePart. run.
    rewrite (find_number_app_Some _ _ _ _ _ Hi). run.
    apply delete_app_lt. by eapply find_number_lt.
Qed.

(** X18: [addFig] puts a row of quantity 1 last and cannot fail, and
    [removeFig] takes the first row of the number away: adding a figure
    and removing it again gives the table back when no row had the
    number, and else leaves the new row in place of the oldest one. *)
Theorem addFig_then_removeFig text w :
  figsTable (addFig text w) = (figsTable w ++ [(text, "1")])%list /\
  (find_number fst text (figsTable w) = None ->
   removeFig text (addFig text w) = w) /\
  (forall i,
     find_number fst text (figsTable w) = Some i ->
     figsTable (removeFig text (addFig text w))
     = (delete i (figsTable w) ++ [(text, "1")])%list).
Proof.
  split; [done|]. split.
  - intros Hnone. unfold removeFig, addFig, addFigRow. run.
    rewrite (find_number_app_None _ _ _ _ Hnone) by done.
    run. rewrite delete_snoc. by apply Window_ext.
  - intros i Hi. unfold removeFig, addFig, addFigRow. run.
    rewrite (find_number_app_Some _ _ _ _ _ Hi). run.
    apply delete_app_lt. by eapply find_number_lt.
Qed.

Lemma is_prefix_spec p l :
  is_prefix p l = true <-> exists l2, l = (p ++ l2)%list.
Proof.
  revert l. induction p as [|c p IH]; intros l; simpl.
  - split; [by exists l|done].
  - destruct l as [|d l].
    + split; [done|]. by intros [l2 ?].
    + rewrite andb_true_iff, IH. split.
      * intros [Hc [l2 ->]]. apply Ascii.eqb_eq in Hc as ->. by exists l2.
      * intros [l2 [= -> ->]]. split; [apply Ascii.eqb_refl|by exists l2].
Qed.

Lemma occurs_spec p l :
  occurs p l = true <-> exists l1 l2, l = (l1 ++ p ++ l2)%list.
Proof.
  induction l as [|d l IH].
  - change (occurs p []) with (is_prefix p [] || false).
    rewrite orb_false_r, is_prefix_spec. split.
    + intros [l2 H]. by exists [], l2.
    + intros (l1 & l2 & H). symmetry in H.
      apply app_eq_nil in H as [-> H]. by exists l2.
  - change (occurs p (d :: l)) with (is_prefix p (d :: l) || occurs p l).
    rewrite orb_true_iff, is_prefix_spec, IH. split.
    + intros [[l2 H] | (l1 & l2 & ->)].
      * by exists [], l2.
      * by exists (d :: l1), l2.
    + intros (l1 & l2 & H). destruct l1 as [|x l1]; simpl in H.
      * left. by exists l2.
      * injection H as -> ->. right. by exists l1, l2.
Qed.

Lemma text_in_trans a b c :
  text_in a b = true -> text_in b c = true -> text_in a c = true.
Proof.
  unfold text_in. rewrite !occurs_spec.
  intros (l1 & l2 & ->) (m1 & m2 & ->).
  exists (m1 ++ l1)%list, (l2 ++ m2)%list. by rewrite <- !app_assoc.
Qed.

Lemma text_in_blank a : text_in a "" = true -> a = "".
Proof.
  unfold text_in. rewrite occurs_spec. intros (l1 & l2 & H).
  symmetry in H. apply app_eq_nil in H as [_ H].
  apply app_eq_nil in H as [H _].
  rewrite <- (text_chars a), H. reflexivity.
Qed.

(** X19: a search text that is blank shows every row of the sets
    table, whether or not the store has a record for it; any other text
    looks every row up in the store and raises KeyError when a row has
    no record. *)
Theorem searchSet_blank_or_lookup text w :
  (text_strip text = "" ->
   searchSet text w = Ok (map (fun _ => true) (setsTable w))) /\
  (text_strip text <> "" ->
   forall r,
     r ∈ setsTable w -> Dict.get (it0 r) (originalData w) = None ->
     searchSet text w = Raise KeyError).
Proof.
  unfold searchSet. split.
  - intros ->. induction (setsTable w) as [|r rows IH]; simpl; [done|].
    by rewrite IH.
  - intros Hne%String.eqb_neq r Hr Hget.
    induction (setsTable w) as [|r' rows IH]; [by apply elem_of_nil in Hr|].
    simpl. unfold searchSet_row at 1. rewrite Hne. unfold Dict.item.
    apply elem_of_cons in Hr as [<- | Hr].
    + by rewrite Hget.
    + destruct (Dict.get (it0 r') (originalData w)); simpl; [|done].
      by rewrite (IH Hr).
Qed.

Lemma existsb_text_in_mono {A} (f : A -> string) a b (l : list A) :
  text_in a b = true ->
  existsb (fun x => text_in b (f x)) l = true ->
  existsb (fun x => text_in a (f x)) l = true.
Proof.
  intros Hab. rewrite !existsb_exists. intros (x & Hx & Hb).
  exists x. split; [done|]. by eapply text_in_trans.
Qed.

(** X20: a search text that holds another one shows no row that the
    other hides, in the detail tables ([search]) and in the sets table
    ([searchSet]). *)
Theorem search_refine a b :
  text_in (text_strip a) (text_strip b) = true ->
  (forall numbers,
     Forall2 (fun fb fa => fb = true -> fa = true)
       (search numbers b) (search numbers a)) /\
  (forall w fa fb,
     searchSet a w = Ok fa -> searchSet b w = Ok fb ->
     Forall2 (fun fb fa => fb = true -> fa = true) fb fa).
Proof.
  intros Hab. split.
  - intros numbers. unfold search.
    induction numbers as [|n numbers IH]; simpl; constructor; [|done].
    rewrite !orb_true_iff. intros [Hb | Hb].
    + left. apply String.eqb_eq in Hb. rewrite Hb in Hab.
      apply text_in_blank in Hab. rewrite Hab. reflexivity.
    + right. by eapply text_in_trans.
  - intros w. unfold searchSet.
    induction (setsTable w) as [|r rows IH]; intros fa fb; simpl.
    + intros [= <-] [= <-]. constructor.
    + destruct (searchSet_row (text_strip a) (originalData w) r)
        as [x|] eqn:Hx; simpl; [|discriminate].
      destruct (rmap _ rows) as [xs|]; simpl; [|discriminate].
      intros [= <-].
      destruct (searchSet_row (text_strip b) (originalData w) r)
        as [y|] eqn:Hy; simpl; [|discriminate].
      destruct (rmap _ rows) as [ys|]; simpl; [|discriminate].
      intros [= <-]. constructor; [|by apply IH].
      intros ->. unfold searchSet_row in Hx, Hy.
      destruct (String.eqb_spec (text_strip a) "") as [|Ha];
        [by injection Hx|].
      destruct (String.eqb_spec (text_strip b) "") as [Hb|Hb].
      { rewrite Hb in Hab. by apply text_in_blank in Hab. }
      unfold Dict.item in Hx, Hy.
      destruct (Dict.get (it0 r) (originalData w)) as [org|]; simpl in *;
        [|discriminate].
      injection Hx as <-. injection Hy as Hy.
      rewrite !orb_true_iff in Hy. rewrite !orb_true_iff.
      destruct Hy as [[Hy | Hy] | Hy].
      * left. left. by eapply (existsb_text_in_mono (fun p => p.1.1)).
      * left. right. by eapply (existsb_text_in_mono (fun f => f.1)).
      * right.
        destruct Hy as [Hy | [Hy | [Hy | Hy]]]; [| | |discriminate].
        -- left. by eapply text_in_trans.
        -- right. left. by eapply text_in_trans.
        -- right. right. left. by eapply text_in_trans.
Qed.

Lemma status_step_comm (t : Totals) (x y : Line K) :
  status_step (status_step t x) y = status_step (status_step t y) x.
Proof.
  unfold status_step. simpl.
  f_equal; try lia.
  - destruct (weight_truthy (ln_wgh x)), (weight_truthy (ln_wgh y)); lia.
  - destruct (weight_truthy (ln_wgh x)), (weight_truthy (ln_wgh y)); lia.
  - rewrite !(assoc_L (∪)). f_equal. apply (comm_L (∪)).
Qed.

Lemma status_fold_Permutation (l l' : list (Line K)) :
  l ≡ₚ l' ->
  forall t, fold_left status_step l t = fold_left status_step l' t.
Proof.
  induction 1 as [|x l l' _ IH|x y l|l l' l'' _ IH1 _ IH2]; intros t; simpl.
  - done.
  - apply IH.
  - by rewrite status_step_comm.
  - by rewrite IH1.
Qed.

(** X21: the texts of the status bar do not depend on the order of the
    lines of [completeData]. *)
Theorem updateStatusBar_Permutation (l l' : list (Line K)) :
  l ≡ₚ l' -> updateStatusBar l = updateStatusBar l'.
Proof.
  intros Hp. unfold updateStatusBar, status_loop.
  rewrite (status_fold_Permutation _ _ Hp). by rewrite (Permutation_length Hp).
Qed.

End MoreTableFacts.

Lemma methods_keep_loaded_part_witness :
  updateStatusBar (completeData (removeSet "7140-1" Ex.editing).2)
  = updateStatusBar (completeData Ex.editing).
Proof.
  destruct (methods_keep_loaded_part Ex.fuel None "7140-1" Ex.editing)
    as (_ & _ & _ & _ & H).
  apply H. rewrite !elem_of_cons. right. right. left. reflexivity.
Defined.

Lemma addPart_then_removePart_witness :
  removePart "3003" Ex2.part_added = Ex.editing.
Proof.
  destruct (addPart_then_removePart "3003" Ex.editing Ex2.part_added)
    as (_ & H & _); [vm_compute; reflexivity|].
  apply H. vm_compute. reflexivity.
Defined.

Lemma addFig_then_removeFig_witness :
  removeFig "sw0020" (addFig "sw0020" Ex.editing) = Ex.editing.
Proof.
  destruct (addFig_then_removeFig "sw0020" Ex.editing) as (_ & H & _).
  apply H. vm_compute. reflexivity.
Defined.

Lemma searchSet_blank_or_lookup_witness :
  searchSet "  " Ex.loaded = Ok [true; true; true; true] /\
  searchSet "Star" (with_originalData [] Ex.loaded) = Raise KeyError.
Proof.
  split.
  - destruct (searchSet_blank_or_lookup "  " Ex.loaded) as [H _].
    apply H. vm_compute. reflexivity.
  - destruct (searchSet_blank_or_lookup "Star"
                (with_originalData [] Ex.loaded)) as [_ H].
    apply (H ltac:(vm_compute; discriminate)
             (addSetRow
                {| ln_num := "9-1"; ln_name := "Universal Building Set";
                   ln_th := (2, "Basic"); ln_qty := 2; ln_bx := 0;
                   ln_ins := 0; ln_prts := 30; ln_wgh := WInt 450;
                   ln_mprts := 0; ln_mfigs := 0; ln_nts := 0 |})).
    + apply list_elem_of_In. vm_compute. left. reflexivity.
    + reflexivity.
Defined.

Lemma search_refine_witness :
  Forall2 (fun fb fa => fb = true -> fa = true)
    (search ["3001"; "3002"; "4073"] " 3001 ")
    (search ["3001"; "3002"; "4073"] "30").
Proof.
  destruct (search_refine (K := Z) "30" " 3001 ") as [H _]; [vm_compute; reflexivity|].
  apply H.
Defined.

Lemma updateStatusBar_Permutation_witness :
  updateStatusBar (Ex.completed Ex.data)
  = updateStatusBar (rev (Ex.completed Ex.data)).
Proof.
  apply (updateStatusBar_Permutation (Ex.completed Ex.data)
           (rev (Ex.completed Ex.data))).
  apply Permutation_rev.
Defined.

(** ** [int] reads what [str] writes *)

Lemma pretty_N_char_digit d :
  (d < 10)%N ->
  Py.is_digit (pretty_N_char d) = true /\
  Py.digit (pretty_N_char d) = Z.of_N d.
Proof.
  intros H.
  assert (d = 0 \/ d = 1 \/ d = 2 \/ d = 3 \/ d = 4 \/ d = 5 \/ d = 6 \/
          d = 7 \/ d = 8 \/ d = 9)%N as Hd by lia.
  repeat (destruct Hd as [-> | Hd]; [by vm_compute|]). subst d. by vm_compute.
Qed.

Lemma pretty_N_go_digits x :
  forall s, exists l,
    Py.chars (pretty_N_go x s) = (l ++ Py.chars s)%list /\
    Forall (fun c => Py.is_digit c = true) l /\
    (forall acc,
       fold_left (fun acc c => 10 * acc + Py.digit c) l acc
       = acc * 10 ^ Z.of_nat (length l) + Z.of_N x) /\
    ((0 < x)%N -> l <> []).
Proof.
  induction (N.lt_wf_0 x) as [x _ IH]. intros s.
  destruct (decide (x = 0)%N) as [-> | Hx].
  - exists []. rewrite pretty_N_go_0. split; [done|]. split; [done|].
    split; [intros acc; simpl; lia | lia].
  - rewrite pretty_N_go_step by lia.
    assert (x `div` 10 < x)%N as Hlt by (apply N.div_lt; lia).
    destruct (IH _ Hlt (String (pretty_N_char (x `mod` 10)) s))
      as (l & Hl & Hd & Hv & _).
    destruct (pretty_N_char_digit (x `mod` 10)%N) as [Hc1 Hc2].
    { apply N.mod_lt. lia. }
    exists (l ++ [pretty_N_char (x `mod` 10)])%list.
    split; [|split; [|split]].
    + rewrite Hl. by rewrite <- app_assoc.
    + apply Forall_app. split; [done|]. by constructor.
    + intros acc. rewrite fold_left_app. simpl. rewrite Hv, Hc2.
      rewrite length_app. simpl. rewrite Nat2Z.inj_add. simpl.
      rewrite Z.pow_add_r by lia. change (10 ^ 1) with 10.
      pose proof (N.div_mod' x 10) as Hdm.
      set (p := 10 ^ Z.of_nat (length l)). lia.
    + intros _. by destruct l.
Qed.

Lemma digits_us_digits l :
  Forall (fun c => Py.is_digit c = true) l ->
  forall acc,
    Py.digits_us acc l
    = Some (fold_left (fun acc c => 10 * acc + Py.digit c) l acc).
Proof.
  induction 1 as [|c l Hc _ IH]; intros acc; simpl; [done|].
  rewrite Hc. apply IH.
Qed.

Lemma is_digit_not_space c :
  Py.is_digit c = true -> Py.int_space c = false.
Proof.
  unfold Py.is_digit, Py.int_space. intros H.
  apply andb_prop in H as [H1 H2]. apply N.leb_le in H1, H2.
  repeat match goal with
         | |- context [(?a <=? ?b)%N] => destruct (N.leb_spec a b)
         | |- context [(?a =? ?b)%N] => destruct (N.eqb_spec a b)
         end; simpl; try done; lia.
Qed.

Lemma lstrip_Forall l :
  Forall (fun c => Py.int_space c = false) l -> Py.int_lstrip l = l.
Proof. destruct 1 as [|c l Hc _]; simpl; [done|]. by rewrite Hc. Qed.

Lemma strip_Forall l :
  Forall (fun c => Py.int_space c = false) l -> Py.int_strip l = l.
Proof.
  intros H. unfold Py.int_strip. rewrite (lstrip_Forall l H).
  rewrite lstrip_Forall; [apply rev_involutive|].
  apply Forall_forall. intros c Hc. rewrite Forall_forall in H. apply H.
  apply list_elem_of_In. apply list_elem_of_In in Hc. by apply in_rev.
Qed.

Lemma int_digits l :
  l <> [] -> Forall (fun c => Py.is_digit c = true) l ->
  Py.digitpart l
  = Some (fold_left (fun acc c => 10 * acc + Py.digit c) l 0).
Proof.
  intros Hne Hd. destruct l as [|c l]; [done|].
  apply Forall_cons in Hd as [Hc Hd]. simpl. rewrite Hc.
  by apply digits_us_digits.
Qed.

Lemma int_str z : Py.int (Py.str z) = Ok z.
Proof.
  destruct z as [|p|p]; [reflexivity|..].
  - unfold Py.str, pretty, pretty_Z, pretty, pretty_positive, pretty,
      pretty_N.
    rewrite decide_False by done.
    destruct (pretty_N_go_digits (N.pos p) "") as (l & Hl & Hd & Hv & Hne).
    specialize (Hne ltac:(lia)). simpl in Hl. rewrite app_nil_r in Hl.
    unfold Py.int. rewrite Hl.
    rewrite strip_Forall
      by (eapply Forall_impl; [exact Hd|apply is_digit_not_space]).
    pose proof (int_digits l Hne Hd) as Hp. rewrite Hv in Hp.
    destruct l as [|c l]; [done|]. apply Forall_cons in Hd as [Hc _].
    destruct (Ascii.eqb_spec c "-") as [-> | _]; [by vm_compute in Hc|].
    destruct (Ascii.eqb_spec c "+") as [-> | _]; [by vm_compute in Hc|].
    rewrite Hp. f_equal; lia.
  - unfold Py.str, pretty, pretty_Z, pretty, pretty_positive, pretty,
      pretty_N.
    rewrite decide_False by done.
    destruct (pretty_N_go_digits (N.pos p) "") as (l & Hl & Hd & Hv & Hne).
    specialize (Hne ltac:(lia)). simpl in Hl. rewrite app_nil_r in Hl.
    unfold Py.int. rewrite chars_app, Hl.
    rewrite strip_Forall.
    + pose proof (int_digits l Hne Hd) as Hp. rewrite Hv in Hp.
      simpl. rewrite Hp. f_equal; lia.
    + constructor; [reflexivity|].
      eapply Forall_impl; [exact Hd|apply is_digit_not_space].
Qed.

(** ** [save]: the store it leaves *)

Section MoreStoreFacts.
Context {K : Type}.
Implicit Types w : Window K.

Lemma save_eq w :
  save w
  = match (if truthy (selected w) then deselectSet w else (Ok tt, w)) with
    | (Ok _, w1) =>
        match save_rows (setsTable w1) w1 with
        | (Ok _, w2) => (Ok (originalData w2), w2)
        | (Raise e, w2) => (Raise e, w2)
        end
    | (Raise e, w1) => (Raise e, w1)
    end.
Proof.
  unfold save. run. destruct (truthy (selected w)).
  - destruct (deselectSet w) as [[[]|e] w1]; [|done].
    by destruct (save_rows (setsTable w1) w1) as [[[]|e] w2].
  - run. by destruct (save_rows (setsTable w) w) as [[[]|e] w2].
Qed.

Lemma save_row_Ok_iff r w w' :
  save_row r w = (Ok tt, w') <->
  exists ref qty bx ins wgh,
    Dict.get (it0 r) (originalData w) = Some ref /\
    row_ints r = Ok (qty, bx, ins, wgh) /\
    w' = with_originalData
           (Dict.set (it0 r) (saved qty bx ins wgh ref) (originalData w)) w.
Proof.
  unfold save_row, assign, row_ints. run. unfold Dict.item.
  destruct (Dict.get (it0 r) (originalData w)) as [ref|] eqn:Hget; run.
  2: { split; [done|]. by intros (? & ? & ? & ? & ? & ? & _). }
  destruct (Py.int (it3 r)) as [qty|]; run.
  2: { split; [done|]. by intros (? & ? & ? & ? & ? & _ & ? & _). }
  rewrite ?Hget. run.
  destruct (Py.int (it4 r)) as [bx|]; run.
  2: { split; [done|]. by intros (? & ? & ? & ? & ? & _ & ? & _). }
  rewrite Dict_get_set_eq. run.
  destruct (Py.int (it5 r)) as [ins|]; run.
  2: { split; [done|]. by intros (? & ? & ? & ? & ? & _ & ? & _). }
  rewrite Dict_get_set_eq. run.
  destruct (int_or_0 (it7 r)) as [wgh|]; run.
  2: { split; [done|]. by intros (? & ? & ? & ? & ? & _ & ? & _). }
  rewrite Dict_get_set_eq. run. rewrite !Dict_set_set.
  split.
  - intros [= <-]. exists ref, qty, bx, ins, wgh.
    split; [done|]. split; [done|]. by apply Window_ext.
  - intros (ref' & qty' & bx' & ins' & wgh' & Href & Hints & ->).
    injection Href as <-. injection Hints as <- <- <- <-.
    f_equal; by apply Window_ext.
Qed.

Lemma last_row_of_Some k (rows : list SetsRow) r :
  last_row_of k rows = Some r -> r ∈ rows /\ it0 r = k.
Proof.
  induction rows as [|r0 rows IH]; simpl; [done|].
  destruct (last_row_of k rows) as [r'|].
  - intros [= <-]. destruct (IH eq_refl) as [Hin Hk].
    split; [by apply elem_of_cons; right|done].
  - destruct (String.eqb_spec (it0 r0) k) as [Hk|]; [|done].
    intros [= <-]. split; [by apply elem_of_cons; left|done].
Qed.

Lemma last_row_of_elem k (rows : list SetsRow) r :
  r ∈ rows -> it0 r = k -> exists r', last_row_of k rows = Some r'.
Proof.
  intros Hin Hk. induction rows as [|r0 rows IH]; [by apply elem_of_nil in Hin|].
  simpl. destruct (last_row_of k rows) as [r'|] eqn:Hl; [by eexists|].
  apply elem_of_cons in Hin as [<- | Hin].
  - rewrite Hk, String.eqb_refl. by eexists.
  - by destruct (IH Hin).
Qed.

Lemma saved_from_cons_ne r rows k st :
  it0 r <> k -> saved_from (r :: rows) k st = saved_from rows k st.
Proof.
  intros Hne. unfold saved_from. simpl.
  destruct (last_row_of k rows); [done|].
  by destruct (String.eqb_spec (it0 r) k).
Qed.

Lemma saved_saved q b i g q' b' i' g' st :
  saved q' b' i' g' (saved q b i g st) = saved q' b' i' g' st.
Proof. reflexivity. Qed.

Lemma saved_from_cons_eq r rows qty bx ins wgh st :
  row_ints r = Ok (qty, bx, ins, wgh) ->
  Forall (fun r => exists q, row_ints r = Ok q) rows ->
  saved_from rows (it0 r) (saved qty bx ins wgh st)
  = saved_from (r :: rows) (it0 r) st.
Proof.
  intros Hr Hrows. unfold saved_from. simpl.
  destruct (last_row_of (it0 r) rows) as [r'|] eqn:Hl.
  - apply last_row_of_Some in Hl as [Hin _].
    rewrite Forall_forall in Hrows.
    destruct (Hrows _ Hin) as [[[[q' b'] i'] g'] ->]. apply saved_saved.
  - by rewrite String.eqb_refl, Hr.
Qed.

Lemma saved_store_keys rows (d : Dict.t Stats) :
  Dict.keys (saved_store rows d) = Dict.keys d.
Proof.
  unfold saved_store, Dict.keys. rewrite map_map. by apply map_ext.
Qed.

Lemma saved_store_set r rows qty bx ins wgh ref (d : Dict.t Stats) :
  NoDup (Dict.keys d) ->
  Dict.get (it0 r) d = Some ref ->
  row_ints r = Ok (qty, bx, ins, wgh) ->
  Forall (fun r => exists q, row_ints r = Ok q) rows ->
  saved_store rows (Dict.set (it0 r) (saved qty bx ins wgh ref) d)
  = saved_store (r :: rows) d.
Proof.
  intros Hnd Hget Hr Hrows.
  destruct (Dict_get_Some_split _ _ _ Hget) as (d1 & d2 & -> & Hset).
  rewrite Hset. unfold Dict.keys in Hnd. rewrite map_app in Hnd. simpl in Hnd.
  apply NoDup_app in Hnd as (_ & Hd1 & Hnd).
  apply NoDup_cons in Hnd as [Hd2 _].
  unfold saved_store. rewrite !map_app. simpl. f_equal; [|f_equal].
  - apply map_ext_in. intros [k st] Hin. simpl. f_equal. symmetry.
    apply saved_from_cons_ne. intros <-.
    apply (Hd1 (it0 r)); [|by apply elem_of_cons; left].
    apply list_elem_of_In in Hin. by apply (list_elem_of_fmap_2 fst) in Hin.
  - f_equal. by apply saved_from_cons_eq.
  - apply map_ext_in. intros [k st] Hin. simpl. f_equal. symmetry.
    apply saved_from_cons_ne. intros <-. apply Hd2.
    apply list_elem_of_In in Hin. by apply (list_elem_of_fmap_2 fst) in Hin.
Qed.

Lemma with_originalData_twice d d' w :
  with_originalData d (with_originalData d' w) = with_originalData d w.
Proof. by apply Window_ext. Qed.

Lemma save_rows_Ok_iff rows w w' :
  NoDup (Dict.keys (originalData w)) ->
  save_rows rows w = (Ok tt, w') <->
  Forall (fun r => (exists q, row_ints r = Ok q) /\
                   it0 r ∈ Dict.keys (originalData w)) rows /\
  w' = with_originalData (saved_store rows (originalData w)) w.
Proof.
  revert w. induction rows as [|r rows IH]; intros w Hnd.
  - simpl. unfold ret, saved_store.
    assert (with_originalData
              (map (fun kv => (kv.1, saved_from [] kv.1 kv.2)) (originalData w))
              w = w) as ->.
    { apply Window_ext; try done. simpl. clear.
      induction (originalData w) as [|[k st] d IHd]; simpl; [done|].
      by rewrite IHd. }
    split; [by intros [= <-]|by intros [_ ->]].
  - simpl. split.
    + unfold bind at 1.
      destruct (save_row r w) as [[[]|e] w1] eqn:Hr; [|discriminate].
      intros Hrows.
      apply save_row_Ok_iff in Hr
        as (ref & qty & bx & ins & wgh & Hget & Hints & ->).
      apply IH in Hrows as [Hall ->]; run.
      2: { rewrite Dict_keys_set_present; [done|]. by rewrite Hget. }
      rewrite Dict_keys_set_present in Hall by by rewrite Hget.
      split.
      * constructor; [|done]. split; [by eexists|].
        by eapply Dict_get_Some_keys.
      * rewrite with_originalData_twice. f_equal.
        apply saved_store_set; try done.
        eapply Forall_impl; [exact Hall|]. by intros r' [? _].
    + intros [Hall ->]. apply Forall_cons in Hall as [[[q Hq] Hk] Hall].
      destruct q as [[[qty bx] ins] wgh].
      apply Dict_keys_get in Hk as [ref Hget].
      assert (save_row r w
              = (Ok tt,
                 with_originalData
                   (Dict.set (it0 r) (saved qty bx ins wgh ref)
                      (originalData w)) w)) as Hr.
      { apply save_row_Ok_iff. by exists ref, qty, bx, ins, wgh. }
      rewrite (bind_Ok _ _ _ _ _ Hr). apply IH; run.
      { rewrite Dict_keys_set_present; [done|]. by rewrite Hget. }
      rewrite Dict_keys_set_present by by rewrite Hget.
      split; [done|]. rewrite with_originalData_twice. f_equal. symmetry.
      apply saved_store_set; try done.
      eapply Forall_impl; [exact Hall|]. by intros r' [? _].
Qed.

Lemma saved_from_twice rows k st :
  saved_from rows k (saved_from rows k st) = saved_from rows k st.
Proof.
  unfold saved_from. destruct (last_row_of k rows) as [r|]; [|done].
  by destruct (row_ints r) as [[[[q b] i] g]|].
Qed.

(** X22: once [save] has returned on a store without two records of one
    number, a second [save] returns the same list and leaves the window
    as it is. *)
Theorem save_idempotent w out w' :
  NoDup (Dict.keys (originalData w)) ->
  save w = (Ok out, w') ->
  save w' = (Ok out, w').
Proof.
  intros Hnd Hsave. rewrite save_eq in Hsave.
  assert (exists w1,
    NoDup (Dict.keys (originalData w1)) /\ truthy (selected w1) = false /\
    save_rows (setsTable w1) w1 = (Ok tt, w') /\ out = originalData w')
    as (w1 & Hnd1 & Hsel & Hrows & ->).
  { destruct (truthy (selected w)) eqn:Hsel.
    - destruct (deselectSet w) as [[[]|e] w1] eqn:Hd; [|discriminate].
      exists w1.
      destruct (deselectSet_Ok_inv _ _ Hd)
        as (key & ref & parts & figs & lasty & Hkey & Hget & _ & _ & _ & Hw1).
      rewrite Hkey in Hsel. rewrite Hsel in Hw1.
      destruct (save_rows (setsTable w1) w1) as [[[]|e] w2]; [|discriminate].
      injection Hsave as <- <-. rewrite Hw1. run.
      split; [|done]. rewrite Dict_keys_set_present; [done|]. by rewrite Hget.
    - exists w.
      destruct (save_rows (setsTable w) w) as [[[]|e] w2]; [|discriminate].
      by injection Hsave as <- <-. }
  apply save_rows_Ok_iff in Hrows as [Hall ->]; [|done].
  clear Hsave. rewrite save_eq. run. rewrite Hsel. run.
  assert (save_rows (setsTable w1)
            (with_originalData (saved_store (setsTable w1) (originalData w1))
               w1)
          = (Ok tt,
             with_originalData (saved_store (setsTable w1) (originalData w1))
               w1)) as ->; [|done].
  apply save_rows_Ok_iff; run.
  - by rewrite saved_store_keys.
  - rewrite saved_store_keys. split; [done|].
    rewrite with_originalData_twice. f_equal.
    unfold saved_store. rewrite map_map. apply map_ext. intros [k st]. simpl.
    by rewrite saved_from_twice.
Qed.

End MoreStoreFacts.

(** ** From the stats file to the display and back *)

Section MoreRoundTripFacts.
Context {K : Type}.
Implicit Types w : Window K.

Lemma str_not_blank z : Py.str z <> "".
Proof.
  intros H. pose proof (int_str z) as Hz. rewrite H in Hz. discriminate.
Qed.

Lemma int_or_0_weight wgh :
  exists g,
    int_or_0 (weight_text (weight_or_blank wgh)) = Ok g /\
    or_None g = saved_weight wgh.
Proof.
  destruct wgh as [g|]; simpl; [|by exists 0].
  destruct (Z.eqb_spec g 0) as [-> | Hg]; simpl; [by exists 0|].
  exists g. split; [|done]. unfold int_or_0.
  destruct (String.eqb_spec (Py.str g) "") as [H|_]; [|apply int_str].
  by apply str_not_blank in H.
Qed.

Lemma row_ints_complete_line (cat : Catalog K) fuel k st line :
  complete_line cat fuel (k, st) = Ok line ->
  exists g,
    row_ints (addSetRow line) = Ok (st_qty st, st_bx st, st_ins st, g) /\
    or_None g = saved_weight (st_wgh st).
Proof.
  intros Hline.
  destruct (complete_line_Ok_inv _ _ _ _ _ Hline)
    as (e & th & _ & _ & _ & _ & Hq & Hb & Hi & Hw).
  destruct (int_or_0_weight (st_wgh st)) as (g & Hg & Hor).
  exists g. split; [|done]. unfold row_ints. simpl.
  rewrite Hq, Hb, Hi, Hw, !int_str. simpl. by rewrite Hg.
Qed.

Lemma fold_set_fresh {V} (data d0 : list (string * V)) :
  NoDup (Dict.keys d0 ++ map fst data) ->
  fold_left (fun d r => Dict.set r.1 r.2 d) data d0 = (d0 ++ data)%list.
Proof.
  revert d0. induction data as [|[k v] data IH]; intros d0 Hnd; simpl.
  - by rewrite app_nil_r.
  - assert (Dict.get k d0 = None) as Hget.
    { destruct (Dict.get k d0) as [v'|] eqn:E; [|done].
      apply Dict_get_Some_keys in E. apply NoDup_app in Hnd as (_ & Hnd & _).
      destruct (Hnd _ E). simpl. by apply elem_of_cons; left. }
    destruct (Dict_get_None_set _ _ Hget) as [_ ->].
    rewrite IH; [by rewrite <- app_assoc|].
    unfold Dict.keys. rewrite map_app, <- app_assoc. done.
Qed.

Lemma init_Ok_inv (cat : Catalog K) cols fuel data w :
  init cat cols fuel data = Ok w ->
  exists lines,
    complete cat fuel data = Ok lines /\
    originalData w = fold_left (fun d r => Dict.set r.1 r.2 d) data [] /\
    setsTable w = map addSetRow lines /\
    selected w = None /\ partsTable w = [] /\ figsTable w = [] /\
    notesArea w = "".
Proof.
  unfold init.
  destruct (complete cat fuel data) as [lines|]; simpl; [|discriminate].
  destruct (updateStatusBar lines) as [bar|]; simpl; [|discriminate].
  intros [= <-]. by exists lines.
Qed.

Lemma complete_lines_entries (cat : Catalog K) fuel data lines :
  complete cat fuel data = Ok lines ->
  (forall line, line ∈ lines ->
     exists entry, entry ∈ data /\ complete_line cat fuel entry = Ok line) /\
  (forall entry, entry ∈ data ->
     exists line, line ∈ lines /\ complete_line cat fuel entry = Ok line).
Proof.
  intros Hc.
  destruct (complete_sorted _ _ _ _ Hc) as (_ & lines0 & Hl0 & Hperm).
  apply rmap_Forall2 in Hl0. split.
  - intros line Hin. rewrite Hperm in Hin.
    apply list_elem_of_lookup_1 in Hin as [i Hi].
    destruct (Forall2_lookup_r _ _ _ _ _ Hl0 Hi) as (entry & He & Hok).
    exists entry. split; [by eapply list_elem_of_lookup_2|done].
  - intros entry Hin. apply list_elem_of_lookup_1 in Hin as [i Hi].
    destruct (Forall2_lookup_l _ _ _ _ _ Hl0 Hi) as (line & Hl & Hok).
    exists line. split; [|done]. rewrite Hperm.
    by eapply list_elem_of_lookup_2.
Qed.

(** X23: a [save] right after [__init__], on a stats file without two
    entries of one number, dumps the entries of the file in their order
    and with their values, except that a weight of 0 has become [None]:
    what [addSetRow] writes into the table for quantity, boxes,
    instructions and weight is what [save] reads back. *)
Theorem init_then_save (cat : Catalog K) cols fuel data w :
  NoDup (map fst data) ->
  init cat cols fuel data = Ok w ->
  exists w',
    save w
    = (Ok (map (fun kv => (kv.1, set_wgh (saved_weight (st_wgh kv.2)) kv.2))
             data), w').
Proof.
  intros Hnd Hinit.
  destruct (init_Ok_inv _ _ _ _ _ Hinit)
    as (lines & Hc & Hdata & Hrows & Hsel & _).
  rewrite (fold_set_fresh data []) in Hdata by done. simpl in Hdata.
  destruct (complete_lines_entries _ _ _ _ Hc) as [Hle Hel].
  assert (save_rows (setsTable w) w
          = (Ok tt,
             with_originalData (saved_store (setsTable w) (originalData w)) w))
    as Hsave.
  { apply save_rows_Ok_iff; [by rewrite Hdata|]. split; [|done].
    rewrite Hrows, Hdata. apply Forall_forall. intros r Hr.
    apply list_elem_of_fmap in Hr as (line & -> & Hline).
    destruct (Hle _ Hline) as ([k st] & Hin & Hok).
    destruct (row_ints_complete_line _ _ _ _ _ Hok) as (g & Hg & _).
    split; [by eexists|]. simpl.
    rewrite (complete_line_num _ _ _ _ Hok). simpl.
    by apply (list_elem_of_fmap_2 fst) in Hin. }
  eexists. rewrite save_eq, Hsel. simpl. rewrite Hsave. run. do 2 f_equal.
  rewrite Hdata. unfold saved_store. apply map_ext_in.
  intros [k st] Hin. apply list_elem_of_In in Hin. simpl. f_equal.
  destruct (Hel _ Hin) as (line0 & Hline0 & Hok0).
  assert (exists r', last_row_of k (setsTable w) = Some r') as [r' Hlast].
  { apply (last_row_of_elem k _ (addSetRow line0)).
    - rewrite Hrows. by apply list_elem_of_fmap_2.
    - simpl. by rewrite (complete_line_num _ _ _ _ Hok0). }
  unfold saved_from. rewrite Hlast.
  apply last_row_of_Some in Hlast as [Hr' Hk'].
  rewrite Hrows in Hr'. apply list_elem_of_fmap in Hr' as (line & -> & Hline).
  destruct (Hle _ Hline) as ([k' st'] & Hin' & Hok).
  simpl in Hk'. rewrite (complete_line_num _ _ _ _ Hok) in Hk'.
  simpl in Hk'. subst k'.
  assert (st' = st) as ->.
  { pose proof (Dict_get_elem_of data k st Hnd Hin) as H1.
    pose proof (Dict_get_elem_of data k st' Hnd Hin') as H2.
    congruence. }
  destruct (row_ints_complete_line _ _ _ _ _ Hok) as (g & -> & Hg).
  unfold saved. rewrite Hg. by destruct st.
Qed.

End MoreRoundTripFacts.

Lemma save_idempotent_witness :
  save (save Ex.editing).2
  = (Ok (originalData (save Ex.editing).2), (save Ex.editing).2).
Proof.
  apply (save_idempotent Ex.editing).
  - apply (bool_decide_unpack _). vm_compute. exact I.
  - vm_compute. reflexivity.
Defined.

Lemma init_then_save_witness :
  exists w',
    save Ex.loaded
    = (Ok [("7140-1", Ex.stats 1 None [("3001", 5, 2)] "box damaged");
           ("100-2", Ex.stats 1 None [] "");
           ("9-1", Ex.stats 2 (Some 450) [] "");
           ("100-10", Ex.stats 1 None [] "")], w').
Proof.
  apply (init_then_save Ex.cat Ex.colours Ex.fuel Ex.data Ex.loaded).
  - apply (bool_decide_unpack _). vm_compute. exact I.
  - vm_compute. reflexivity.
Defined.

(** ** [selectSet] *)

Section MoreSelectFacts.
Context {K : Type}.
Implicit Types w : Window K.

Lemma deselectSet_Ok_intro w key ref parts figs lasty :
  selected w = Some key ->
  Dict.get key (originalData w) = Some ref ->
  rmap (read_part (colors w)) (partsTable w) = Ok parts ->
  rmap read_fig (figsTable w) = Ok figs ->
  find_lasty key (setsTable w) = Ok lasty ->
  deselectSet w
  = (Ok tt,
     {| catalog := catalog w;
        colors := colors w;
        originalData :=
          Dict.set key (flushed parts figs (notesArea w) ref) (originalData w);
        completeData := completeData w;
        setsTable :=
          alter (refreshed parts figs (notesArea w)) lasty (setsTable w);
        partsTable := [];
        figsTable := [];
        notesArea := "";
        selected := if truthy (Some key) then None else Some key |}).
Proof.
  intros Hsel Hget Hp Hf Hl.
  unfold deselectSet, assign, update_row, togglePanel. run.
  rewrite Hsel. unfold Dict.item. rewrite Hget. run. rewrite Hp. run.
  rewrite Hget. run. rewrite Hf. run.
  rewrite !Dict_get_set_eq. run. rewrite !Dict_get_set_eq. run.
  rewrite Hl. run. rewrite !Dict_set_set, !alter_alter_same. rewrite Hsel.
  destruct (truthy (Some key)); run; f_equal; apply Window_ext; run;
    rewrite ?Hsel; reflexivity.
Qed.

Lemma Dict_set_same {V} (d : Dict.t V) k v :
  Dict.get k d = Some v -> Dict.set k v d = d.
Proof.
  intros Hget. destruct (Dict_get_Some_split _ _ _ Hget) as (d1 & d2 & Hd & Hs).
  by rewrite Hs, <- Hd.
Qed.

Lemma read_part_addPartRow cols p row :
  names_identify cols ->
  addPartRow cols p = Ok row -> read_part cols row = Ok p.
Proof.
  intros Hcols. destruct p as [[number color] quantity]. unfold addPartRow.
  destruct (ColorDialog_get_id cols color) as [c|] eqn:Hc; [|discriminate].
  intros [= <-]. unfold ColorDialog_get_id in Hc.
  apply find_some in Hc as [Hin Hid]. apply Z.eqb_eq in Hid.
  unfold read_part. rewrite (Hcols c) by by apply list_elem_of_In.
  simpl. rewrite int_str. simpl. by rewrite Hid.
Qed.

Lemma read_parts_loaded cols parts rows :
  names_identify cols ->
  rmap (addPartRow cols) parts = Ok rows ->
  rmap (read_part cols) rows = Ok parts.
Proof.
  intros Hcols. revert rows. induction parts as [|p parts IH]; intros rows.
  - by intros [= <-].
  - simpl. destruct (addPartRow cols p) as [row|] eqn:Hrow; simpl;
      [|discriminate].
    destruct (rmap (addPartRow cols) parts) as [rows'|]; simpl;
      [|discriminate].
    intros [= <-]. simpl.
    rewrite (read_part_addPartRow _ _ _ Hcols Hrow). simpl.
    by rewrite (IH _ eq_refl).
Qed.

Lemma read_figs_loaded figs : rmap read_fig (map addFigRow figs) = Ok figs.
Proof.
  induction figs as [|[number quantity] figs IH]; simpl; [done|].
  rewrite int_str. simpl. by rewrite IH.
Qed.

Lemma loadParts_empty_table cols parts :
  loadParts cols parts [] = rmap (addPartRow cols) parts.
Proof. by destruct parts. Qed.

Lemma loadFigs_empty_table figs : loadFigs figs [] = map addFigRow figs.
Proof. by destruct figs. Qed.

Lemma selectSet_idle y w item ref :
  truthy (selected w) = false ->
  setsTable w !! y = Some item ->
  Dict.get (it0 item) (originalData w) = Some ref ->
  selectSet y w
  = match loadParts (colors w) (st_mprts ref) (partsTable w) with
    | Ok parts =>
        Returns
          (with_notesArea (loadNotes (st_nts ref))
             (with_figsTable (loadFigs (st_mfigs ref) (figsTable w))
                (with_partsTable parts (with_selected (Some (it0 item)) w))))
    | Raise e => Raises (Builtin e)
    end.
Proof.
  intros Hsel Hitem Hget. unfold selectSet. rewrite Hsel. unfold ret.
  rewrite Hitem. unfold loop_key, Dict.item. rewrite Hget. simpl.
  rewrite Hget. simpl.
  by destruct (loadParts (colors w) (st_mprts ref) (partsTable w)).
Qed.

Lemma lookup_find_lasty key (rows : list SetsRow) y item :
  rows !! y = Some item -> exists lasty, find_lasty key rows = Ok lasty.
Proof.
  intros Hy. unfold find_lasty. destruct rows as [|r rows]; [done|].
  destruct (find_row key (r :: rows)); by eexists.
Qed.

Lemma toPlainText_kept l :
  forallb (fun c => negb (Ascii.eqb c "013"%char || Ascii.eqb c "160"%char)) l
  = true ->
  toPlainText l = l.
Proof.
  induction l as [|c l IH]; [done|].
  cbn [forallb]. intros [Hc Hl]%andb_prop.
  apply negb_true_iff, orb_false_iff in Hc as [Hcr Hnb].
  cbn [toPlainText]. rewrite Hcr, Hnb. by rewrite IH.
Qed.

Lemma loadNotes_kept t : kept_by_widget t = true -> loadNotes t = t.
Proof.
  intros H. unfold loadNotes. rewrite toPlainText_kept by done.
  apply text_chars.
Qed.

(** X24: selecting a set when nothing is selected and the detail tables
    are empty, and then flushing without an edit, leaves the store as it
    was, for a set whose notes the text widget gives back as they are
    (no carriage return, no no-break space): the rows that [loadParts]
    and [loadFigs] write are read back by [deselectSet] as the lists they
    were written from, and the notes area holds the notes of the
    record. *)
Theorem selectSet_then_deselectSet y w w1 item ref :
  names_identify (colors w) ->
  truthy (selected w) = false ->
  partsTable w = [] -> figsTable w = [] ->
  setsTable w !! y = Some item ->
  Dict.get (it0 item) (originalData w) = Some ref ->
  kept_by_widget (st_nts ref) = true ->
  selectSet y w = Returns w1 ->
  selected w1 = Some (it0 item) /\
  notesArea w1 = st_nts ref /\
  exists w2,
    deselectSet w1 = (Ok tt, w2) /\
    originalData w2 = originalData w /\
    partsTable w2 = [] /\ figsTable w2 = [] /\ notesArea w2 = "".
Proof.
  intros Hcols Hsel Hpt Hft Hitem Href Hnts Hs.
  rewrite (selectSet_idle _ _ _ _ Hsel Hitem Href) in Hs.
  rewrite Hpt, Hft, loadParts_empty_table, loadFigs_empty_table in Hs.
  rewrite (loadNotes_kept _ Hnts) in Hs.
  destruct (rmap (addPartRow (colors w)) (st_mprts ref)) as [rows|] eqn:Hrows;
    [|discriminate].
  injection Hs as <-. split; [done|]. split; [done|].
  destruct (lookup_find_lasty (it0 item) _ _ _ Hitem) as [lasty Hl].
  eexists. split.
  - apply (deselectSet_Ok_intro _ (it0 item) ref (st_mprts ref) (st_mfigs ref)
             lasty); run; try done.
    + by apply read_parts_loaded.
    + apply read_figs_loaded.
  - run. split; [|done]. unfold flushed.
    replace (set_nts (st_nts ref)
               (set_mfigs (st_mfigs ref) (set_mprts (st_mprts ref) ref)))
      with ref by by destruct ref.
    by apply Dict_set_same.
Qed.

(** X25: when the store has no record for the number of the clicked
    row, the loop over the store ends on its last key: [selectSet] shows
    the notes and the lists of the last record under the number of the
    row, and the flush that follows raises KeyError. *)
Theorem selectSet_without_record y w w1 item n :
  truthy (selected w) = false ->
  setsTable w !! y = Some item ->
  Dict.get (it0 item) (originalData w) = None ->
  last (Dict.keys (originalData w)) = Some n ->
  selectSet y w = Returns w1 ->
  exists row,
    Dict.get n (originalData w) = Some row /\
    selected w1 = Some (it0 item) /\
    notesArea w1 = loadNotes (st_nts row) /\
    loadParts (colors w) (st_mprts row) (partsTable w) = Ok (partsTable w1) /\
    figsTable w1 = loadFigs (st_mfigs row) (figsTable w) /\
    deselectSet w1 = (Raise KeyError, w1).
Proof.
  intros Hsel Hitem Hget Hlast. unfold selectSet. rewrite Hsel. unfold ret.
  rewrite Hitem. unfold loop_key. rewrite Hget, Hlast. simpl.
  assert (exists row, Dict.get n (originalData w) = Some row) as [row Hrow].
  { apply Dict_keys_get. by apply last_Some_elem_of. }
  unfold Dict.item. rewrite Hrow. simpl.
  destruct (loadParts (colors w) (st_mprts row) (partsTable w))
    as [parts|] eqn:Hparts; simpl; [|discriminate].
  intros [= <-]. exists row. run. repeat split; try done.
  unfold deselectSet. run. unfold Dict.item. by rewrite Hget.
Qed.

(** X26: [loadParts] and [loadFigs] leave a table alone when the list
    to show is empty: rows that were in the detail tables while nothing
    was selected stay under the set selected next, and the flush of that
    set stores them as its missing parts and figures. *)
Theorem selectSet_keeps_rows y w item ref :
  truthy (selected w) = false ->
  setsTable w !! y = Some item ->
  Dict.get (it0 item) (originalData w) = Some ref ->
  st_mprts ref = [] -> st_mfigs ref = [] ->
  exists w1,
    selectSet y w = Returns w1 /\
    partsTable w1 = partsTable w /\ figsTable w1 = figsTable w /\
    forall w2,
      deselectSet w1 = (Ok tt, w2) ->
      exists ref2,
        Dict.get (it0 item) (originalData w2) = Some ref2 /\
        rmap (read_part (colors w)) (partsTable w) = Ok (st_mprts ref2) /\
        rmap read_fig (figsTable w) = Ok (st_mfigs ref2).
Proof.
  intros Hsel Hitem Hget Hp Hf.
  rewrite (selectSet_idle _ _ _ _ Hsel Hitem Hget), Hp, Hf. simpl.
  eexists. split; [reflexivity|]. run. split; [done|]. split; [done|].
  intros w2 Hd.
  destruct (deselectSet_Ok_inv _ _ Hd)
    as (key & ref' & parts & figs & lasty & Hkey & _ & Hparts & Hfigs & _ & ->).
  run. injection Hkey as <-. eexists.
  split; [apply Dict_get_set_eq|]. by split.
Qed.

End MoreSelectFacts.

Lemma names_identify_colours : names_identify Ex.colours.
Proof.
  intros c Hc. apply list_elem_of_In in Hc. simpl in Hc.
  destruct Hc as [<- | [<- | []]]; reflexivity.
Qed.

Lemma selectSet_then_deselectSet_witness :
  selected (Ex2.clicked 3 Ex.loaded) = Some "7140-1" /\
  notesArea (Ex2.clicked 3 Ex.loaded) = "box damaged" /\
  exists w2,
    deselectSet (Ex2.clicked 3 Ex.loaded) = (Ok tt, w2) /\
    originalData w2 = originalData Ex.loaded /\
    partsTable w2 = [] /\ figsTable w2 = [] /\ notesArea w2 = "".
Proof.
  apply (selectSet_then_deselectSet 3 Ex.loaded (Ex2.clicked 3 Ex.loaded)
           (addSetRow
              {| ln_num := "7140-1"; ln_name := "X-wing Fighter";
                 ln_th := (1, "Star Wars: Episode IV"); ln_qty := 1;
                 ln_bx := 0; ln_ins := 0; ln_prts := 100; ln_wgh := WBlank;
                 ln_mprts := 2; ln_mfigs := 0; ln_nts := 1 |})
           (Ex.stats 1 (Some 0) [("3001", 5, 2)] "box damaged")).
  - apply names_identify_colours.
  - reflexivity.
  - reflexivity.
  - reflexivity.
  - vm_compute. reflexivity.
  - vm_compute. reflexivity.
  - reflexivity.
  - vm_compute. reflexivity.
Defined.

Lemma selectSet_without_record_witness :
  exists row,
    Dict.get "100-10" (originalData Ex2.no_record) = Some row /\
    selected (Ex2.clicked 0 Ex2.no_record) = Some "9-1" /\
    notesArea (Ex2.clicked 0 Ex2.no_record) = loadNotes (st_nts row) /\
    loadParts (colors Ex2.no_record) (st_mprts row)
      (partsTable Ex2.no_record)
    = Ok (partsTable (Ex2.clicked 0 Ex2.no_record)) /\
    figsTable (Ex2.clicked 0 Ex2.no_record)
    = loadFigs (st_mfigs row) (figsTable Ex2.no_record) /\
    deselectSet (Ex2.clicked 0 Ex2.no_record)
    = (Raise KeyError, Ex2.clicked 0 Ex2.no_record).
Proof.
  apply (selectSet_without_record 0 Ex2.no_record
           (Ex2.clicked 0 Ex2.no_record)
           (addSetRow
              {| ln_num := "9-1"; ln_name := "Universal Building Set";
                 ln_th := (2, "Basic"); ln_qty := 2; ln_bx := 0;
                 ln_ins := 0; ln_prts := 30; ln_wgh := WInt 450;
                 ln_mprts := 0; ln_mfigs := 0; ln_nts := 0 |})
           "100-10");
    vm_compute; reflexivity.
Defined.

Lemma selectSet_keeps_rows_witness :
  exists w1,
    selectSet 0 Ex2.stale_part = Returns w1 /\
    partsTable w1 = [("3003", "Red", "4")] /\ figsTable w1 = [] /\
    forall w2,
      deselectSet w1 = (Ok tt, w2) ->
      exists ref2,
        Dict.get "9-1" (originalData w2) = Some ref2 /\
        rmap (read_part Ex.colours) [("3003", "Red", "4")]
        = Ok (st_mprts ref2) /\
        rmap read_fig [] = Ok (st_mfigs ref2).
Proof.
  apply (selectSet_keeps_rows 0 Ex2.stale_part
           (addSetRow
              {| ln_num := "9-1"; ln_name := "Universal Building Set";
                 ln_th := (2, "Basic"); ln_qty := 2; ln_bx := 0;
                 ln_ins := 0; ln_prts := 30; ln_wgh := WInt 450;
                 ln_mprts := 0; ln_mfigs := 0; ln_nts := 0 |})
           (Ex.stats 2 (Some 450) [] ""));
    vm_compute; reflexivity.
Defined.

(** ** [addSet] on a new number, and when [save] returns *)

Section MoreAddFacts.
Context {K : Type}.
Implicit Types w : Window K.

(** X27: [addSet] on a number of the catalog that the store does not
    hold puts the new record last in the store, where [save] will dump
    it, and the new row last in the table; the row shows the quantity 1
    and no box, instruction, missing part, missing figure or note. *)
Theorem addSet_fresh_appends fuel wgh text w e th :
  Dict.get (with_variant text) (originalData w) = None ->
  sets (catalog w) !! with_variant text = Some e ->
  getTheme (catalog w) fuel (set_thm e) = Ok th ->
  exists w' row,
    addSet fuel wgh text w = (Ok tt, w') /\
    originalData w'
    = (originalData w ++ [(with_variant text, new_stats wgh)])%list /\
    setsTable w' = (setsTable w ++ [row])%list /\
    (it0 row, it1 row, it2 row) = (with_variant text, set_name e, th.2) /\
    (it3 row, it4 row, it5 row, it8 row, it9 row, it10 row)
    = ("1", "0", "0", "0", "0", "0") /\
    partsTable w' = partsTable w /\ figsTable w' = figsTable w /\
    notesArea w' = notesArea w /\ selected w' = selected w.
Proof.
  intros Hget He Hth. unfold addSet, getSet. run. rewrite He. run.
  rewrite Hth. run. destruct (Dict_get_None_set _ _ Hget) as [_ ->].
  eexists. eexists. split; [reflexivity|]. run. by repeat split.
Qed.

(** X28: [getSet] writes the record before it resolves the theme: when
    the chain of the theme is broken, [addSet] raises KeyError with the
    record of the number already in the store, new or overwritten, and
    without a row for it in the table. *)
Theorem addSet_theme_error wgh text w e :
  sets (catalog w) !! with_variant text = Some e ->
  dangling (catalog w) (Py.str (set_thm e)) ->
  exists k, forall fuel,
    (k < fuel)%nat ->
    addSet fuel wgh text w
    = (Raise KeyError,
       with_originalData
         (Dict.set (with_variant text) (new_stats wgh) (originalData w)) w).
Proof.
  intros He Hd. destruct (getTheme_loop_dangling _ _ Hd) as [k Hk].
  exists k. intros fuel Hf. unfold addSet, getSet. run. rewrite He. run.
  unfold getTheme. by rewrite Hk.
Qed.

(** X29: with nothing selected and no two records of one number,
    [save] returns exactly when every row of the table carries a number
    of the store and texts that read as ints in the items of quantity,
    boxes and instructions, and an empty text or one that reads as an
    int in the item of the weight. *)
Theorem save_returns_iff w :
  NoDup (Dict.keys (originalData w)) ->
  truthy (selected w) = false ->
  (exists out w', save w = (Ok out, w')) <->
  Forall (fun r => (exists q, row_ints r = Ok q) /\
                   it0 r ∈ Dict.keys (originalData w)) (setsTable w).
Proof.
  intros Hnd Hsel. rewrite save_eq, Hsel. split.
  - intros (out & w' & Hsave).
    destruct (save_rows (setsTable w) w) as [[[]|e] w2] eqn:Hrows;
      [|discriminate].
    by apply save_rows_Ok_iff in Hrows as [Hall _].
  - intros Hall.
    assert (save_rows (setsTable w) w
            = (Ok tt,
               with_originalData
                 (saved_store (setsTable w) (originalData w)) w)) as ->.
    { by apply save_rows_Ok_iff. }
    by eexists _, _.
Qed.

End MoreAddFacts.

Lemma addSet_fresh_appends_witness :
  exists w' row,
    addSet Ex.fuel (Some 120) "70" Ex.loaded = (Ok tt, w') /\
    originalData w'
    = (originalData Ex.loaded ++ [("70-1", new_stats (Some 120))])%list /\
    setsTable w' = (setsTable Ex.loaded ++ [row])%list /\
    (it0 row, it1 row, it2 row) = ("70-1", "Bricks", "Basic") /\
    (it3 row, it4 row, it5 row, it8 row, it9 row, it10 row)
    = ("1", "0", "0", "0", "0", "0") /\
    partsTable w' = partsTable Ex.loaded /\
    figsTable w' = figsTable Ex.loaded /\
    notesArea w' = notesArea Ex.loaded /\ selected w' = selected Ex.loaded.
Proof.
  apply (addSet_fresh_appends Ex.fuel (Some 120) "70" Ex.loaded
           {| set_name := "Bricks"; set_year := None; set_thm := 5;
              set_prts := 20 |} (2, "Basic"));
    vm_compute; reflexivity.
Defined.

Lemma addSet_theme_error_witness :
  exists k, forall fuel,
    (k < fuel)%nat ->
    addSet fuel None "31" Ex2.lost
    = (Raise KeyError,
       with_originalData
         (Dict.set "31-1" (new_stats None) (originalData Ex2.lost)) Ex2.lost).
Proof.
  apply (addSet_theme_error None "31" Ex2.lost
           {| set_name := "Lost Set"; set_year := None; set_thm := 31;
              set_prts := 10 |}).
  - vm_compute. reflexivity.
  - apply dangling_step with (n := "Lost") (parent := "99");
      [vm_compute; reflexivity | vm_compute; reflexivity |].
    apply dangling_here; vm_compute; reflexivity.
Defined.

Lemma save_returns_iff_witness :
  (exists out w', save Ex.loaded = (Ok out, w')) <->
  Forall (fun r => (exists q, row_ints r = Ok q) /\
                   it0 r ∈ Dict.keys (originalData Ex.loaded))
    (setsTable Ex.loaded).
Proof.
  apply (save_returns_iff Ex.loaded).
  - apply (bool_decide_unpack _). vm_compute. exact I.
  - reflexivity.
Defined.
